(** * ProgressTracker: the project store and the progress/ETC calculator

    A shallow embedding of [progess.py] (the [Project] dataclass and the
    handlers of [ModernProgressBarApp]) and the properties its
    specification states about them.

    Modelling conventions.
    - Python floats are exact rationals ([Q]); rounding error, infinities
      and NaN are not represented.
    - The widgets are the fields of the record [App] that the handlers read
      and write.  A signal connected to a slot is a call of that slot:
      [QLineEdit.setText] emits [textChanged] when, and only when, the text
      differs from the one on display.
    - [QTextEdit.setText] guesses the format of its text (plain or HTML)
      and [toPlainText] returns the text of the document that results:
      what a text reads back as is the function [plain_text] of the
      application, known only at the empty text, which reads back empty.
    - [QPushButton.clicked] passes its [checked] flag to the slot: a click
      on the timer button is the call [toggle_timer(checked)]; the calls
      that the handlers make themselves pass a project id, and
      [toggle_timer()] passes nothing.
    - [time.time()] is the field [clock]: one handler runs at one reading of
      the wall clock.  [uuid.uuid4()] is the next string of the supply
      [uuids].
    - A modal [QMessageBox] returns at once; the dialogs shown are logged in
      the field [dialogs].
    - [delete_selected_project], the icons and the style sheet are left
      out: no property below depends on them.
    - Handlers call one another through signals, so they are defined with
      open recursion and closed by [run], which counts the depth of nested
      calls.  [OutOfFuel] at every depth is unbounded recursion (CPython's
      [RecursionError]).  [Raises] has the two exceptions that the store
      and the timer fields can cause, [KeyError] and [TypeError]; the
      exceptions that only a float without a rational value can cause
      ([ValueError] of [int(nan)], [OverflowError]) have no
      counterpart, like those floats. *)

From Stdlib Require Import QArith ZArith Qround Qabs String Ascii List Bool Lia Lqa.
From Stdlib Require Import DecimalString.
Import ListNotations.

Local Open Scope string_scope.
Local Open Scope Q_scope.

(** ** Python numbers and their text *)

Module Py.

Definition Qlt_bool (a b : Q) : bool := negb (Qle_bool b a).

(** [min(a, b)] and [max(a, b)]: the first argument unless the second
    is strictly smaller (larger). *)
Definition min (a b : Q) : Q := if Qlt_bool b a then b else a.
Definition max (a b : Q) : Q := if Qlt_bool a b then b else a.

(** [int(x)]: truncation toward zero. *)
Definition int (x : Q) : Z := Z.quot (Qnum x) (Zpos (Qden x)).

(** [x // d] and [x % d] for a positive divisor. *)
Definition floordiv (x d : Q) : Z := Qfloor (x / d).
Definition mod_ (x d : Q) : Q := x - inject_Z (floordiv x d) * d.

(** [a / b], [None] for [ZeroDivisionError]. *)
Definition div (a b : Q) : option Q :=
  if Qeq_bool b 0 then None else Some (a / b).

(** [math.isclose(a, b)] with its defaults [rel_tol=1e-09], [abs_tol=0.0]. *)
Definition rel_tol : Q := 1 # 1000000000.
Definition isclose (a b : Q) : bool :=
  Qle_bool (Qabs (a - b)) (max (rel_tol * max (Qabs a) (Qabs b)) 0).

(** *** Text *)

Definition chars (s : string) : list ascii := list_ascii_of_string s.

(** The ASCII characters [str.strip()] and [float()] skip. *)
Definition is_space (c : ascii) : bool :=
  let n := nat_of_ascii c in
  ((9 <=? n) && (n <=? 13) || (28 <=? n) && (n <=? 32))%nat.

(** [s.strip() == ""]. *)
Definition is_blank (s : string) : bool := forallb is_space (chars s).

Fixpoint lstrip (l : list ascii) : list ascii :=
  match l with
  | c :: r => if is_space c then lstrip r else l
  | [] => []
  end.
Definition strip (l : list ascii) : list ascii := rev (lstrip (rev (lstrip l))).

Definition digit_of (c : ascii) : option Z :=
  let n := nat_of_ascii c in
  if ((48 <=? n) && (n <=? 57))%nat then Some (Z.of_nat (n - 48)) else None.

(** The longest prefix of digits, as (value, number of digits, rest). *)
Fixpoint digits (acc : Z) (len : nat) (l : list ascii) : Z * nat * list ascii :=
  match l with
  | c :: r =>
      match digit_of c with
      | Some d => digits (10 * acc + d) (S len) r
      | None => (acc, len, l)
      end
  | [] => (acc, len, [])
  end.

Definition sign (l : list ascii) : bool * list ascii :=
  match l with
  | "-"%char :: r => (true, r)
  | "+"%char :: r => (false, r)
  | _ => (false, l)
  end.

(** [m * 10^e] *)
Definition scale10 (m e : Z) : Q :=
  match e with
  | Zneg p => m # (10 ^ p)
  | _ => inject_Z (m * 10 ^ e)
  end.

(** [float(s)] on decimal literals: optional blanks and sign, digits with
    an optional point, an optional exponent.  [None] is [ValueError].
    The literals without a rational value ([inf], [nan]), digit
    grouping with underscores and digits outside ASCII are not
    accepted. *)
Definition float (s : string) : option Q :=
  let '(neg, l) := sign (strip (chars s)) in
  let '(ip, ilen, l) := digits 0 0 l in
  let '(fp, flen, l) :=
    match l with
    | "."%char :: r => digits ip 0 r
    | _ => (ip, 0%nat, l)
    end in
  if (ilen + flen =? 0)%nat then None else
  let mant := if neg then (- fp)%Z else fp in
  match l with
  | [] => Some (scale10 mant (- Z.of_nat flen))
  | c :: r =>
      if (Ascii.eqb c "e" || Ascii.eqb c "E")%bool then
        let '(eneg, r) := sign r in
        match digits 0 0 r with
        | (ev, S _, []) =>
            Some (scale10 mant ((if eneg then - ev else ev) - Z.of_nat flen))
        | _ => None
        end
      else None
  end.

Definition str_N (n : Z) : string := NilZero.string_of_uint (N.to_uint (Z.to_N n)).

(** Nearest integer to a non-negative [x], ties to even. *)
Definition round_half_even (x : Q) : Z :=
  let f := Qfloor x in
  let r := x - inject_Z f in
  if Qlt_bool r (1 # 2) then f
  else if Qlt_bool (1 # 2) r then (f + 1)%Z
  else if Z.even f then f else (f + 1)%Z.

(** [f"{x:.1f}"] *)
Definition format_1f (x : Q) : string :=
  let n := round_half_even (Qabs x * 10) in
  (if Qlt_bool x 0 then "-" else "")
    ++ str_N (n / 10) ++ "." ++ str_N (n mod 10).

(** [f"{n:02d}"] for [n >= 0] *)
Definition format_02d (n : Z) : string :=
  if (n <? 10)%Z then "0" ++ str_N n else str_N n.

End Py.

(** ** The data model *)

(** The dataclass [Project]. *)
Record Project := mkProject {
  id : string;
  name : string;
  total_units : Q;
  current_units : Q;
  start_time : option Q;        (* Unix timestamp when timer started *)
  is_running : bool;
  elapsed_at_pause : Q;
  description : string
}.

Definition with_id (v : string) (p : Project) : Project :=
  mkProject v (name p) (total_units p) (current_units p) (start_time p) (is_running p) (elapsed_at_pause p) (description p).
Definition with_name (v : string) (p : Project) : Project :=
  mkProject (id p) v (total_units p) (current_units p) (start_time p) (is_running p) (elapsed_at_pause p) (description p).
Definition with_total_units (v : Q) (p : Project) : Project :=
  mkProject (id p) (name p) v (current_units p) (start_time p) (is_running p) (elapsed_at_pause p) (description p).
Definition with_current_units (v : Q) (p : Project) : Project :=
  mkProject (id p) (name p) (total_units p) v (start_time p) (is_running p) (elapsed_at_pause p) (description p).
Definition with_start_time (v : option Q) (p : Project) : Project :=
  mkProject (id p) (name p) (total_units p) (current_units p) v (is_running p) (elapsed_at_pause p) (description p).
Definition with_is_running (v : bool) (p : Project) : Project :=
  mkProject (id p) (name p) (total_units p) (current_units p) (start_time p) v (elapsed_at_pause p) (description p).
Definition with_elapsed_at_pause (v : Q) (p : Project) : Project :=
  mkProject (id p) (name p) (total_units p) (current_units p) (start_time p) (is_running p) v (description p).
Definition with_description (v : string) (p : Project) : Project :=
  mkProject (id p) (name p) (total_units p) (current_units p) (start_time p) (is_running p) (elapsed_at_pause p) v.

(** [Project(id=fresh, name=n)]: the other fields take the dataclass
    defaults. *)
Definition new_Project (fresh n : string) : Project :=
  mkProject fresh n 100 0 None false 0 "".

(** The two float attributes that [_finalize_input_editing] reads and
    writes through [getattr] and [setattr]. *)
Inductive attr := total_units_attr | current_units_attr.

Definition getattr (p : Project) (a : attr) : Q :=
  match a with
  | total_units_attr => total_units p
  | current_units_attr => current_units p
  end.

Definition setattr (a : attr) (v : Q) (p : Project) : Project :=
  match a with
  | total_units_attr => with_total_units v p
  | current_units_attr => with_current_units v p
  end.

(** [self.projects : Dict[str, Project]], in insertion order. *)
Definition dict := list (string * Project).

Fixpoint dict_get (k : string) (d : dict) : option Project :=
  match d with
  | [] => None
  | (k', v) :: r => if String.eqb k' k then Some v else dict_get k r
  end.

(** [d[k] = v] *)
Fixpoint dict_set (k : string) (v : Project) (d : dict) : dict :=
  match d with
  | [] => [(k, v)]
  | (k', v') :: r =>
      if String.eqb k' k then (k', v) :: r else (k', v') :: dict_set k v r
  end.

Definition dict_values (d : dict) : list Project := map snd d.

Definition dict_mem (k : string) (d : dict) : bool :=
  match dict_get k d with Some _ => true | None => false end.

(** Assignment to attributes of the object stored under [k]. *)
Definition dict_update (k : string) (f : Project -> Project) (d : dict) : dict :=
  map (fun kv => if String.eqb (fst kv) k then (fst kv, f (snd kv)) else kv) d.

(** ** The application state *)

Inductive icon := Information | Warning | Critical.

(** One [QMessageBox]. *)
Record dialog := mkDialog { dialog_icon : icon; dialog_title : string; dialog_text : string }.

Record App := mkApp {
  projects : dict;
  current_project_id : option string;
  list_items : list (string * string);   (* project_list_widget: text, UserRole data *)
  current_row : option nat;              (* project_list_widget.currentItem() *)
  project_name_input : string;
  project_description_input : string;
  total_value_input : string;
  current_value_input : string;
  progress_bar : Z;
  percentage_label : string;
  etc_label : string;
  start_timer_button : string;
  dialogs : list dialog;
  clock : Q;                             (* time.time() *)
  uuids : nat -> string;                 (* str(uuid.uuid4()), call by call *)
  uuid_count : nat;
  plain_text : string -> string          (* QTextEdit: toPlainText() after setText(t) *)
}.

Definition set_projects (v : dict) (s : App) : App :=
  mkApp v (current_project_id s) (list_items s) (current_row s) (project_name_input s) (project_description_input s) (total_value_input s) (current_value_input s) (progress_bar s) (percentage_label s) (etc_label s) (start_timer_button s) (dialogs s) (clock s) (uuids s) (uuid_count s) (plain_text s).
Definition set_current_project_id (v : option string) (s : App) : App :=
  mkApp (projects s) v (list_items s) (current_row s) (project_name_input s) (project_description_input s) (total_value_input s) (current_value_input s) (progress_bar s) (percentage_label s) (etc_label s) (start_timer_button s) (dialogs s) (clock s) (uuids s) (uuid_count s) (plain_text s).
Definition set_list_items (v : list (string * string)) (s : App) : App :=
  mkApp (projects s) (current_project_id s) v (current_row s) (project_name_input s) (project_description_input s) (total_value_input s) (current_value_input s) (progress_bar s) (percentage_label s) (etc_label s) (start_timer_button s) (dialogs s) (clock s) (uuids s) (uuid_count s) (plain_text s).
Definition set_current_row (v : option nat) (s : App) : App :=
  mkApp (projects s) (current_project_id s) (list_items s) v (project_name_input s) (project_description_input s) (total_value_input s) (current_value_input s) (progress_bar s) (percentage_label s) (etc_label s) (start_timer_button s) (dialogs s) (clock s) (uuids s) (uuid_count s) (plain_text s).
Definition set_project_name_input (v : string) (s : App) : App :=
  mkApp (projects s) (current_project_id s) (list_items s) (current_row s) v (project_description_input s) (total_value_input s) (current_value_input s) (progress_bar s) (percentage_label s) (etc_label s) (start_timer_button s) (dialogs s) (clock s) (uuids s) (uuid_count s) (plain_text s).
Definition set_project_description_input (v : string) (s : App) : App :=
  mkApp (projects s) (current_project_id s) (list_items s) (current_row s) (project_name_input s) v (total_value_input s) (current_value_input s) (progress_bar s) (percentage_label s) (etc_label s) (start_timer_button s) (dialogs s) (clock s) (uuids s) (uuid_count s) (plain_text s).
Definition set_total_value_input (v : string) (s : App) : App :=
  mkApp (projects s) (current_project_id s) (list_items s) (current_row s) (project_name_input s) (project_description_input s) v (current_value_input s) (progress_bar s) (percentage_label s) (etc_label s) (start_timer_button s) (dialogs s) (clock s) (uuids s) (uuid_count s) (plain_text s).
Definition set_current_value_input (v : string) (s : App) : App :=
  mkApp (projects s) (current_project_id s) (list_items s) (current_row s) (project_name_input s) (project_description_input s) (total_value_input s) v (progress_bar s) (percentage_label s) (etc_label s) (start_timer_button s) (dialogs s) (clock s) (uuids s) (uuid_count s) (plain_text s).
Definition set_progress_bar (v : Z) (s : App) : App :=
  mkApp (projects s) (current_project_id s) (list_items s) (current_row s) (project_name_input s) (project_description_input s) (total_value_input s) (current_value_input s) v (percentage_label s) (etc_label s) (start_timer_button s) (dialogs s) (clock s) (uuids s) (uuid_count s) (plain_text s).
Definition set_percentage_label (v : string) (s : App) : App :=
  mkApp (projects s) (current_project_id s) (list_items s) (current_row s) (project_name_input s) (project_description_input s) (total_value_input s) (current_value_input s) (progress_bar s) v (etc_label s) (start_timer_button s) (dialogs s) (clock s) (uuids s) (uuid_count s) (plain_text s).
Definition set_etc_label (v : string) (s : App) : App :=
  mkApp (projects s) (current_project_id s) (list_items s) (current_row s) (project_name_input s) (project_description_input s) (total_value_input s) (current_value_input s) (progress_bar s) (percentage_label s) v (start_timer_button s) (dialogs s) (clock s) (uuids s) (uuid_count s) (plain_text s).
Definition set_start_timer_button (v : string) (s : App) : App :=
  mkApp (projects s) (current_project_id s) (list_items s) (current_row s) (project_name_input s) (project_description_input s) (total_value_input s) (current_value_input s) (progress_bar s) (percentage_label s) (etc_label s) v (dialogs s) (clock s) (uuids s) (uuid_count s) (plain_text s).
Definition set_dialogs (v : list dialog) (s : App) : App :=
  mkApp (projects s) (current_project_id s) (list_items s) (current_row s) (project_name_input s) (project_description_input s) (total_value_input s) (current_value_input s) (progress_bar s) (percentage_label s) (etc_label s) (start_timer_button s) v (clock s) (uuids s) (uuid_count s) (plain_text s).
Definition set_clock (v : Q) (s : App) : App :=
  mkApp (projects s) (current_project_id s) (list_items s) (current_row s) (project_name_input s) (project_description_input s) (total_value_input s) (current_value_input s) (progress_bar s) (percentage_label s) (etc_label s) (start_timer_button s) (dialogs s) v (uuids s) (uuid_count s) (plain_text s).
Definition set_uuids (v : nat -> string) (s : App) : App :=
  mkApp (projects s) (current_project_id s) (list_items s) (current_row s) (project_name_input s) (project_description_input s) (total_value_input s) (current_value_input s) (progress_bar s) (percentage_label s) (etc_label s) (start_timer_button s) (dialogs s) (clock s) v (uuid_count s) (plain_text s).
Definition set_uuid_count (v : nat) (s : App) : App :=
  mkApp (projects s) (current_project_id s) (list_items s) (current_row s) (project_name_input s) (project_description_input s) (total_value_input s) (current_value_input s) (progress_bar s) (percentage_label s) (etc_label s) (start_timer_button s) (dialogs s) (clock s) (uuids s) v (plain_text s).

Definition update_project (k : string) (f : Project -> Project) (s : App) : App :=
  set_projects (dict_update k f (projects s)) s.

Definition message_box (i : icon) (title text : string) (s : App) : App :=
  set_dialogs (dialogs s ++ [mkDialog i title text]) s.

(** [project_description_input.toPlainText()] after [setText(t)]. *)
Definition toPlainText (t : string) (s : App) : string :=
  if String.eqb t "" then "" else plain_text s t.

(** [if x:] for an [Optional[str]]: neither [None] nor the empty string. *)
Definition truthy (x : option string) : bool :=
  match x with
  | None => false
  | Some k => negb (String.eqb k "")
  end.

(** [pid == self.current_project_id] *)
Definition is_current (pid : string) (s : App) : bool :=
  match current_project_id s with
  | Some k => String.eqb pid k
  | None => false
  end.

(** [QProgressBar.setValue] with the range [0, 100]: a value outside the
    range is ignored. *)
Definition progress_bar_setValue (v : Z) (s : App) : App :=
  if ((v <? 0) || (100 <? v))%Z then s else set_progress_bar v s.

(** The two validated line edits. *)
Inductive line_edit := total_input | current_input.

Definition text (w : line_edit) (s : App) : string :=
  match w with
  | total_input => total_value_input s
  | current_input => current_value_input s
  end.

Definition set_text (w : line_edit) (t : string) (s : App) : App :=
  match w with
  | total_input => set_total_value_input t s
  | current_input => set_current_value_input t s
  end.

(** ** Outcomes of a handler *)

(** The exceptions that leave a handler when numbers are rationals:
    [KeyError] of a lookup in the store and [TypeError] of
    [time.time() - None].  The [ValueError] of [float(text)] and the
    [ZeroDivisionError] of the ETC computation are caught where they are
    raised; [ValueError] of [int(nan)] and [OverflowError] of [int(inf)]
    need a float that is not a number of [Q]. *)
Inductive pyerror := KeyError | TypeError.

Inductive outcome :=
| Returns (s : App)
| Raises (e : pyerror)
| OutOfFuel.

Definition bind (o : outcome) (k : App -> outcome) : outcome :=
  match o with
  | Returns s => k s
  | Raises e => Raises e
  | OutOfFuel => OutOfFuel
  end.

Notation "s <- c ;; k" := (bind c (fun s => k))
  (at level 61, c at next level, right associativity).

(** [self.projects[k]], handed to the continuation. *)
Definition lookup (k : string) (s : App) (cont : Project -> outcome) : outcome :=
  match dict_get k (projects s) with
  | Some p => cont p
  | None => Raises KeyError
  end.

(** ** The progress/ETC calculator *)

(** [format_time]: seconds as [HH:MM:SS]. *)
Definition format_time (seconds : Q) : string :=
  if Py.Qlt_bool seconds 0 then "--:--:--"
  else
    let hours := Py.floordiv seconds 3600 in
    let minutes := Py.floordiv (Py.mod_ seconds 3600) 60 in
    let secs := Py.int (Py.mod_ seconds 60) in
    Py.format_02d hours ++ ":" ++ Py.format_02d minutes ++ ":" ++ Py.format_02d secs.

(** [_get_safe_value]: the float a line edit holds, [default_val] when the
    text is blank or no number. *)
Definition _get_safe_value (txt : string) (default_val : Q) : Q :=
  if Py.is_blank txt then default_val
  else match Py.float txt with
       | Some v => v
       | None => default_val
       end.

(** The percentage that [_update_display_from_inputs] computes, and the
    one it shows: [min(progress_percentage, 100.0)]. *)
Definition progress_percentage (current total : Q) : Q :=
  if Py.Qlt_bool 0 total then (current / total) * 100 else 0.

Definition shown_percentage (current total : Q) : Q :=
  Py.min (progress_percentage current total) 100.

(** ** The handlers of [ModernProgressBarApp] *)

(** The methods that are reached through [self] or through a signal. *)
Inductive call :=
| OnProjectNameChanged
| OnProjectDescriptionChanged
| FinalizeInputEditing (w : line_edit) (project_attr : attr) (field_name : string) (is_total : bool)
| UpdateDisplayFromInputs
| UpdateEtcForProject (key : string)
| UpdateAllEtcs
| ToggleTimer (project_id : option string)
| StartTimerButtonClicked (checked : bool)
| ResetSelectedProject
| AddNewProject
| SelectProjectFromList (current_item : option nat).

Section Handlers.

(** The methods and slots of the running application. *)
Variable self : call -> App -> outcome.

(** [line_edit.setText(t)], with [textChanged] connected to
    [_update_display_from_inputs]. *)
Definition setText (w : line_edit) (t : string) (s : App) : outcome :=
  if String.eqb (text w s) t then Returns s
  else self UpdateDisplayFromInputs (set_text w t s).

(** [project_name_input.setText(t)], with [textChanged] connected to
    [_on_project_name_changed]. *)
Definition name_setText (t : string) (s : App) : outcome :=
  if String.eqb (project_name_input s) t then Returns s
  else self OnProjectNameChanged (set_project_name_input t s).

(** [project_description_input.setText(t)]: the document is replaced by
    what the text edit makes of [t] and [textChanged] is emitted; the
    field of the model holds the plain text of the document. *)
Definition description_setText (t : string) (s : App) : outcome :=
  self OnProjectDescriptionChanged (set_project_description_input (toPlainText t s) s).

(** [etc_label.setText] under [if project.id == self.current_project_id]. *)
Definition show_etc (p : Project) (t : string) (s : App) : App :=
  if is_current (id p) s then set_etc_label t s else s.

Definition item_setText (row : nat) (t : string) (items : list (string * string))
  : list (string * string) :=
  match nth_error items row with
  | Some (_, data) => firstn row items ++ (t, data) :: skipn (S row) items
  | None => items
  end.

Definition _on_project_name_changed (s : App) : outcome :=
  match current_project_id s with
  | Some cur =>
      if truthy (Some cur) then
        let new_name := project_name_input s in
        if negb (Py.is_blank new_name) then
          lookup cur s (fun _ =>
            let s := update_project cur (with_name new_name) s in
            match current_row s with
            | Some row => Returns (set_list_items (item_setText row new_name (list_items s)) s)
            | None => Returns s
            end)
        else Returns s
      else Returns s
  | None => Returns s
  end.

Definition _on_project_description_changed (s : App) : outcome :=
  match current_project_id s with
  | Some cur =>
      if truthy (Some cur) then
        lookup cur s (fun _ =>
          Returns (update_project cur (with_description (project_description_input s)) s))
      else Returns s
  | None => Returns s
  end.

(** [update_etc_for_project(project)].  The project object is named by
    the key under which the store holds it; a key that the store lacks has
    no counterpart in the source and is reported as [KeyError]. *)
Definition update_etc_for_project (key : string) (s : App) : outcome :=
  lookup key s (fun project =>
    if negb (is_running project) then
      match start_time project with
      | Some _ =>
          let elapsed_display := format_time (elapsed_at_pause project) in
          Returns (show_etc project ("ETC: Paused (" ++ elapsed_display ++ " elapsed)") s)
      | None => Returns (show_etc project "ETC: --:--:--" s)
      end
    else
      match start_time project with
      | None => Raises TypeError
      | Some started =>
          let current_elapsed_time := elapsed_at_pause project + (clock s - started) in
          if Qle_bool (total_units project) 0 then
            Returns (show_etc project "ETC: Total > 0 req." s)
          else if (Py.isclose (current_units project) 0
                   || Py.isclose current_elapsed_time 0)%bool then
            Returns (show_etc project "ETC: Calculating..." s)
          else
            match Py.div (current_units project) (total_units project) with
            | None => Returns (show_etc project "ETC: Error" s)
            | Some progress_ratio =>
                if Qle_bool 1 progress_ratio then
                  let s := show_etc project "ETC: Complete!" s in
                  if is_running project then
                    self (ToggleTimer (Some (id project))) s
                  else Returns s
                else if Py.Qlt_bool 0 progress_ratio then
                  match Py.div (current_units project) current_elapsed_time with
                  | None => Returns (show_etc project "ETC: Error" s)
                  | Some rate =>
                      match Py.div (total_units project - current_units project) rate with
                      | None => Returns (show_etc project "ETC: Error" s)
                      | Some remaining_time =>
                          Returns (show_etc project ("ETC: " ++ format_time remaining_time) s)
                      end
                  end
                else Returns (show_etc project "ETC: Estimating..." s)
            end
      end).

Fixpoint for_each_project (keys : list string) (s : App) : outcome :=
  match keys with
  | [] => Returns s
  | k :: rest =>
      s <- self (UpdateEtcForProject k) s ;;
      for_each_project rest s
  end.

Definition update_all_etcs (s : App) : outcome :=
  for_each_project (map fst (projects s)) s.

Definition _update_display_from_inputs (s : App) : outcome :=
  match current_project_id s with
  | Some cur =>
      if truthy (Some cur) then
        lookup cur s (fun project =>
          let current := _get_safe_value (current_value_input s) (current_units project) in
          let total := _get_safe_value (total_value_input s) (total_units project) in
          let s := update_project cur (with_current_units current) s in
          let s := update_project cur (with_total_units total) s in
          let s := progress_bar_setValue (Py.int (shown_percentage current total)) s in
          let s := set_percentage_label (Py.format_1f (shown_percentage current total) ++ "%") s in
          self (UpdateEtcForProject cur) s)
      else Returns s
  | None => Returns s
  end.

(** The validation of [_finalize_input_editing] for a text that is the
    float [value]: the value to store, and what happens before it is
    stored. *)
Definition validate (project : Project) (project_attr : attr) (field_name : string)
  (is_total : bool) (value : Q) (s : App) : Q * outcome :=
  if is_total then
    if Qle_bool value 0 then
      (getattr project project_attr,
       Returns (message_box Warning "Input Error"
                  (field_name ++ " must be a positive number.") s))
    else if Py.Qlt_bool value (current_units project) then
      (current_units project,
       Returns (message_box Warning "Input Error"
                  (field_name ++ " cannot be less than Current Work Units. Setting to Current Work Units.") s))
    else (value, Returns s)
  else
    if Py.Qlt_bool value 0 then
      (getattr project project_attr,
       Returns (message_box Warning "Input Error"
                  (field_name ++ " cannot be negative.") s))
    else if Py.Qlt_bool (total_units project) value then
      (total_units project,
       let s := message_box Information "Input Info"
                  (field_name ++ " cannot exceed Total Work Units. Setting to Total Work Units.") s in
       if is_running project then self (ToggleTimer (Some (id project))) s
       else Returns s)
    else (value, Returns s).

Definition _finalize_input_editing
  (w : line_edit) (project_attr : attr) (field_name : string) (is_total : bool)
  (s : App) : outcome :=
  match current_project_id s with
  | Some cur =>
      if truthy (Some cur) then
        lookup cur s (fun project =>
          let txt := text w s in
          s <- match Py.float txt with
               | Some value =>
                   let '(value, validated) :=
                     validate project project_attr field_name is_total value s in
                   s <- validated ;;
                   let s := update_project cur (setattr project_attr value) s in
                   setText w (Py.format_1f value) s
               | None =>
                   let s := if negb (Py.is_blank txt) then
                              message_box Warning "Input Error"
                                ("Please enter a valid number for " ++ field_name ++ ".") s
                            else s in
                   setText w (Py.format_1f (getattr project project_attr)) s
               end ;;
          self UpdateDisplayFromInputs s)
      else Returns s
  | None => Returns s
  end.

(** The button of the timer, under [if project_id == self.current_project_id]. *)
Definition show_button (pid : string) (t : string) (s : App) : App :=
  if is_current pid s then set_start_timer_button t s else s.

Definition toggle_timer (project_id : option string) (s : App) : outcome :=
  let project_id :=
    match project_id with
    | None => current_project_id s
    | Some k => Some k
    end in
  match project_id with
  | Some pid =>
      if (negb (truthy (Some pid)) || negb (dict_mem pid (projects s)))%bool then
        Returns (message_box Information "Timer Control"
                   "No project selected or invalid project." s)
      else
        s <- (if is_current pid s then
                s <- self (FinalizeInputEditing total_input total_units_attr
                             "Total Work Units" true) s ;;
                s <- self (FinalizeInputEditing current_input current_units_attr
                             "Current Work Units" false) s ;;
                lookup pid s (fun project =>
                  let s := update_project pid
                             (with_total_units
                                (_get_safe_value (total_value_input s) (total_units project))) s in
                  Returns (update_project pid
                             (with_current_units
                                (_get_safe_value (current_value_input s) (current_units project))) s))
              else Returns s) ;;
        lookup pid s (fun project =>
          if negb (is_running project) then
            if Qle_bool (total_units project) 0 then
              Returns (message_box Warning "Timer Error"
                         "Total Work Units must be a positive number to start the timer." s)
            else if Py.Qlt_bool (current_units project) 0 then
              Returns (message_box Warning "Timer Error"
                         "Current Work Units cannot be negative." s)
            else if Qle_bool (total_units project) (current_units project) then
              let s := message_box Information "Timer Info"
                         "Current Work Units already meet or exceed Total. Project is complete. No need to start timer." s in
              self (UpdateEtcForProject pid) s
            else
              let s := update_project pid (with_start_time (Some (clock s))) s in
              let s := update_project pid (with_is_running true) s in
              let s := show_button pid "Stop Timer" s in
              if is_current pid s then self (UpdateEtcForProject pid) s else Returns s
          else
            let s := match start_time project with
                     | Some started =>
                         update_project pid
                           (with_elapsed_at_pause
                              (elapsed_at_pause project + (clock s - started))) s
                     | None => s
                     end in
            let s := update_project pid (with_is_running false) s in
            let s := update_project pid (with_start_time None) s in
            let s := show_button pid "Start Timer" s in
            if is_current pid s then self (UpdateEtcForProject pid) s else Returns s)
  | None =>
      Returns (message_box Information "Timer Control"
                 "No project selected or invalid project." s)
  end.

(** [toggle_timer(checked)]: the slot as [start_timer_button.clicked]
    calls it, with the [checked] flag of the signal in the place of
    [project_id].  A bool is not [None], so the selected project is not
    taken; [False] is falsy, and [True] is no key of the store, whose
    keys are strings: the first check answers every click. *)
Definition toggle_timer_clicked (checked : bool) (s : App) : outcome :=
  let in_projects := false in
  if (negb checked || negb in_projects)%bool then
    Returns (message_box Information "Timer Control"
               "No project selected or invalid project." s)
  else Raises KeyError.

Definition reset_selected_project (s : App) : outcome :=
  match current_project_id s with
  | Some cur =>
      if truthy (Some cur) then
        lookup cur s (fun _ =>
          let s := update_project cur (with_is_running false) s in
          let s := update_project cur (with_start_time None) s in
          let s := update_project cur (with_elapsed_at_pause 0) s in
          let s := update_project cur (with_current_units 0) s in
          let s := update_project cur (with_total_units 100) s in
          let s := update_project cur (with_description "") s in
          lookup cur s (fun project =>
          s <- setText current_input (Py.format_1f (current_units project)) s ;;
          lookup cur s (fun project =>
          s <- setText total_input (Py.format_1f (total_units project)) s ;;
          lookup cur s (fun project =>
          s <- description_setText (description project) s ;;
          let s := set_start_timer_button "Start Timer" s in
          self UpdateDisplayFromInputs s))))
      else
        Returns (message_box Information "Reset Project" "No project selected to reset." s)
  | None =>
      Returns (message_box Information "Reset Project" "No project selected to reset." s)
  end.

Definition select_project_from_list (current_item : option nat) (s : App) : outcome :=
  match current_item with
  | None =>
      let s := set_current_project_id None s in
      s <- name_setText "" s ;;
      s <- description_setText "" s ;;
      s <- setText total_input "0.0" s ;;
      s <- setText current_input "0.0" s ;;
      let s := set_etc_label "ETC: --:--:--" s in
      let s := set_percentage_label "0.0%" s in
      let s := progress_bar_setValue 0 s in
      Returns (set_start_timer_button "Start Timer" s)
  | Some row =>
      match nth_error (list_items s) row with
      | None => Returns s
      | Some (_, project_id) =>
          if is_current project_id s then Returns s
          else
            let s := set_current_project_id (Some project_id) s in
            lookup project_id s (fun project =>
              s <- name_setText (name project) s ;;
              lookup project_id s (fun project =>
              s <- description_setText (description project) s ;;
              lookup project_id s (fun project =>
              s <- setText total_input (Py.format_1f (total_units project)) s ;;
              lookup project_id s (fun project =>
              s <- setText current_input (Py.format_1f (current_units project)) s ;;
              lookup project_id s (fun project =>
              let s := set_start_timer_button
                         (if is_running project then "Stop Timer" else "Start Timer") s in
              self UpdateDisplayFromInputs s)))))
      end
  end.

(** [add_new_project]; the new item becomes the current one, which emits
    [currentItemChanged]. *)
Definition add_new_project (s : App) : outcome :=
  let fresh := uuids s (uuid_count s) in
  let s := set_uuid_count (S (uuid_count s)) s in
  let new_project :=
    new_Project fresh
      ("New Project " ++ Py.str_N (Z.of_nat (List.length (projects s)) + 1)) in
  let s := set_projects (dict_set (id new_project) new_project (projects s)) s in
  let row := List.length (list_items s) in
  let s := set_list_items (list_items s ++ [(name new_project, id new_project)]) s in
  let s := set_current_row (Some row) s in
  self (SelectProjectFromList (Some row)) s.

Definition handler (c : call) : App -> outcome :=
  match c with
  | OnProjectNameChanged => _on_project_name_changed
  | OnProjectDescriptionChanged => _on_project_description_changed
  | FinalizeInputEditing w a f t => _finalize_input_editing w a f t
  | UpdateDisplayFromInputs => _update_display_from_inputs
  | UpdateEtcForProject k => update_etc_for_project k
  | UpdateAllEtcs => update_all_etcs
  | ToggleTimer project_id => toggle_timer project_id
  | StartTimerButtonClicked checked => toggle_timer_clicked checked
  | ResetSelectedProject => reset_selected_project
  | AddNewProject => add_new_project
  | SelectProjectFromList item => select_project_from_list item
  end.

End Handlers.

(** The application: [fuel] bounds the depth of nested handler calls. *)
Fixpoint run (fuel : nat) (c : call) (s : App) : outcome :=
  match fuel with
  | O => OutOfFuel
  | S n => handler (run n) c s
  end.

(** ** Persistence *)

(** What [json.load] returns. *)
#[local] Set Warnings "-register-all".
Inductive json :=
| JNull
| JBool (b : bool)
| JInt (n : Z)
| JFloat (x : Q)
| JStr (t : string)
| JArr (items : list json)
| JObj (fields : list (string * json)).

(** [project_data.get(k)]: of a repeated key the last value counts. *)
Definition jget (k : string) (fields : list (string * json)) : option json :=
  match find (fun kv => String.eqb (fst kv) k) (rev fields) with
  | Some kv => Some (snd kv)
  | None => None
  end.

(** The data file as [load_projects] finds it. *)
Inductive file :=
| NoFile                         (* os.path.exists is false *)
| Unreadable (e : string)        (* open or read raises e *)
| Malformed                      (* json.load raises JSONDecodeError *)
| Content (j : json).

Definition DATA_FILE_NAME : string := "projects.json".

(** A field of the dataclass read from a JSON value of its annotated type;
    [None] for a value of another type, which Python would store as it is
    and which has no counterpart in [Project]. *)
Definition as_str (j : json) : option string :=
  match j with JStr t => Some t | _ => None end.
Definition as_float (j : json) : option Q :=
  match j with JFloat x => Some x | JInt n => Some (inject_Z n) | _ => None end.
Definition as_bool (j : json) : option bool :=
  match j with JBool b => Some b | _ => None end.
Definition as_optional_float (j : json) : option (option Q) :=
  match j with
  | JNull => Some None
  | _ => option_map Some (as_float j)
  end.

(** [project_data.get(k, default)], typed. *)
Definition field {A} (conv : json -> option A) (k : string) (default : A)
  (project_data : list (string * json)) : option A :=
  match jget k project_data with
  | Some j => conv j
  | None => Some default
  end.

(** The [Project(...)] call of [load_projects]. *)
Definition project_of_json (fresh : string) (project_data : list (string * json))
  : option Project :=
  match field as_str "id" fresh project_data,
        field as_str "name" "Unnamed Project" project_data,
        field as_float "total_units" 100 project_data,
        field as_float "current_units" 0 project_data,
        field as_optional_float "start_time" None project_data,
        field as_bool "is_running" false project_data,
        field as_float "elapsed_at_pause" 0 project_data,
        field as_str "description" "" project_data
  with
  | Some i, Some n, Some t, Some c, Some st, Some r, Some e, Some d =>
      Some (mkProject i n t c st r e d)
  | _, _, _, _, _, _, _, _ => None
  end.

(** How the loop of [load_projects] over [raw_data] ends. *)
Inductive loaded :=
| Loaded (s : App)
| LoadFailed (e : string) (s : App)   (* an exception other than JSONDecodeError *)
| Untyped.                            (* a field of a type the dataclass does not declare *)

Definition type_name (j : json) : string :=
  match j with
  | JNull => "NoneType"
  | JBool _ => "bool"
  | JInt _ => "int"
  | JFloat _ => "float"
  | JStr _ => "str"
  | JArr _ => "list"
  | JObj _ => "dict"
  end.

Definition no_get (j : json) : string :=
  "'" ++ type_name j ++ "' object has no attribute 'get'".

Fixpoint load_loop (raw_data : list json) (s : App) : loaded :=
  match raw_data with
  | [] => Loaded s
  | JObj project_data :: rest =>
      let fresh := uuids s (uuid_count s) in
      let s := set_uuid_count (S (uuid_count s)) s in
      match project_of_json fresh project_data with
      | Some project =>
          let s := set_projects (dict_set (id project) project (projects s)) s in
          let s := set_list_items (list_items s ++ [(name project, id project)]) s in
          load_loop rest s
      | None => Untyped
      end
  | j :: _ => LoadFailed (no_get j) s
  end.

(** [for project_data in raw_data] for a [raw_data] that is no list:
    the keys of an object and the characters of a string are strings. *)
Definition load_raw (raw_data : json) (s : App) : loaded :=
  match raw_data with
  | JArr items => load_loop items s
  | JObj [] | JStr "" => Loaded s
  | JObj _ | JStr _ => LoadFailed (no_get (JStr "")) s
  | j => LoadFailed ("'" ++ type_name j ++ "' object is not iterable") s
  end.

(** [load_projects]; [None] when the file is outside the typed model. *)
Definition load_projects (f : file) (s : App) : option App :=
  match f with
  | NoFile => Some s
  | Unreadable e =>
      Some (set_projects []
              (message_box Critical "Load Error"
                 ("An unexpected error occurred while loading projects: " ++ e) s))
  | Malformed =>
      Some (set_projects []
              (message_box Warning "Load Error"
                 ("Could not decode project data from " ++ DATA_FILE_NAME
                    ++ ". File might be corrupted.") s))
  | Content raw_data =>
      match load_raw raw_data s with
      | Loaded s => Some s
      | LoadFailed e s =>
          Some (set_projects []
                  (message_box Critical "Load Error"
                     ("An unexpected error occurred while loading projects: " ++ e) s))
      | Untyped => None
      end
  end.

(** [asdict(project)] *)
Definition asdict (p : Project) : json :=
  JObj [ ("id", JStr (id p));
         ("name", JStr (name p));
         ("total_units", JFloat (total_units p));
         ("current_units", JFloat (current_units p));
         ("start_time", match start_time p with Some t => JFloat t | None => JNull end);
         ("is_running", JBool (is_running p));
         ("elapsed_at_pause", JFloat (elapsed_at_pause p));
         ("description", JStr (description p)) ].

(** [save_projects]: the file after the call and the application, which
    shows a dialog when writing raises [e]. *)
Definition save_projects (write_error : option string) (before : file) (s : App)
  : file * App :=
  let projects_to_save := map asdict (dict_values (projects s)) in
  match write_error with
  | None => (Content (JArr projects_to_save), s)
  | Some e =>
      (before,
       message_box Critical "Save Error"
         ("An error occurred while saving projects: " ++ e) s)
  end.

(** The application after [init_ui]: no project, the widgets with their
    initial texts. *)
Definition init_ui (now : Q) (supply : nat -> string) (plain : string -> string) : App :=
  mkApp [] None [] None "" "" "100.0" "0.0" 0 "0.0%" "ETC: --:--:--" "Start Timer"
        [] now supply 0 plain.

(** ** Predicates of the statements *)

(** A store as the application builds it: every project under its own id,
    no id twice. *)
Definition well_keyed (d : dict) : Prop :=
  NoDup (map fst d) /\ Forall (fun kv => fst kv = id (snd kv)) d.

(** [cur] is the selected project and [p] its record. *)
Definition selected (cur : string) (p : Project) (s : App) : Prop :=
  current_project_id s = Some cur /\ cur <> "" /\ dict_get cur (projects s) = Some p.

(** The state in which [_update_display_from_inputs] hands over to the ETC
    computation: the values of the two line edits stored in the selected
    project, the progress bar and the percentage label refreshed. *)
Definition inputs_written (cur : string) (p : Project) (s : App) : App :=
  let current := _get_safe_value (current_value_input s) (current_units p) in
  let total := _get_safe_value (total_value_input s) (total_units p) in
  set_percentage_label (Py.format_1f (shown_percentage current total) ++ "%")
    (progress_bar_setValue (Py.int (shown_percentage current total))
       (update_project cur (with_total_units total)
          (update_project cur (with_current_units current) s))).

(** The record of the selected project once the line edits are stored. *)
Definition live_record (p : Project) (s : App) : Project :=
  with_total_units (_get_safe_value (total_value_input s) (total_units p))
    (with_current_units (_get_safe_value (current_value_input s) (current_units p)) p).

(** The ETC computation reaches its completion rule: the project runs
    with a positive total, a current and an elapsed time that are not
    zero, and current/total >= 1. *)
Definition completes (p : Project) (now : Q) : bool :=
  match start_time p with
  | Some started =>
      is_running p
      && negb (Qle_bool (total_units p) 0)
      && negb (Py.isclose (current_units p) 0
               || Py.isclose (elapsed_at_pause p + (now - started)) 0)
      && match Py.div (current_units p) (total_units p) with
         | Some progress_ratio => Qle_bool 1 progress_ratio
         | None => false
         end
  | None => false
  end.

(** The fields that the edits of total and current leave alone. *)
Definition timer_fields (p : Project) : string * string * option Q * bool * Q * string :=
  (id p, name p, start_time p, is_running p, elapsed_at_pause p, description p).

(** From [s] to [s'] nothing changed but total and current of the project
    [cur], the widgets, and the dialogs shown in between. *)
Definition frame (cur : string) (s s' : App) : Prop :=
  current_project_id s' = current_project_id s /\
  clock s' = clock s /\
  (forall k, k <> cur -> dict_get k (projects s') = dict_get k (projects s)) /\
  option_map timer_fields (dict_get cur (projects s'))
  = option_map timer_fields (dict_get cur (projects s)) /\
  exists more, dialogs s' = (dialogs s ++ more)%list.

(** The selected project exists and its timer is stopped. *)
Definition stopped (cur : string) (s : App) : Prop :=
  exists p, selected cur p s /\ is_running p = false.

(** The preconditions of a start. *)
Definition may_start (p : Project) : Prop :=
  0 < total_units p /\ 0 <= current_units p /\ current_units p < total_units p.

(** The selected project [p] runs since [started], the line edits hold
    the total [t], in display format, and a current equal to it, and the
    record agrees with them. *)
Record completing (cur : string) (p : Project) (t c started : Q) (s : App) : Prop := {
  completing_selected : selected cur p s;
  completing_id : id p = cur;
  completing_running : is_running p = true;
  completing_started : start_time p = Some started;
  completing_elapsed : ~ elapsed_at_pause p + (clock s - started) == 0;
  completing_total_text : Py.float (total_value_input s) = Some t;
  completing_total_blank : Py.is_blank (total_value_input s) = false;
  completing_current_text : Py.float (current_value_input s) = Some c;
  completing_current_blank : Py.is_blank (current_value_input s) = false;
  completing_format : Py.format_1f t = total_value_input s;
  completing_positive : 0 < t;
  completing_equal : t == c;
  completing_total : total_units p == t;
  completing_current : current_units p == c
}.

(** Running exactly when a start time is present. *)
Definition timer_ok (p : Project) : Prop :=
  is_running p = match start_time p with Some _ => true | None => false end.

(** The invariant on a store and on the application. *)
Definition dict_ok (d : dict) : Prop := Forall (fun kv => timer_ok (snd kv)) d.

Definition store_ok (s : App) : Prop := dict_ok (projects s).

(** What a handler leaves behind satisfies the invariant, if it returns. *)
Definition safe (o : outcome) : Prop :=
  match o with
  | Returns s => store_ok s
  | _ => True
  end.

(** An object of the data file whose record satisfies the invariant. *)
Definition record_ok (j : json) : Prop :=
  match j with
  | JObj project_data =>
      forall fresh p, project_of_json fresh project_data = Some p -> timer_ok p
  | _ => True
  end.

(** A data file whose records all satisfy the invariant. *)
Definition file_ok (f : file) : Prop :=
  match f with
  | Content (JArr items) => Forall record_ok items
  | _ => True
  end.

(** ** Scenarios *)

(** A store of two projects, one of them running. *)
Definition two_projects : dict :=
  [ ("a", mkProject "a" "Thesis" 120 (75 # 2) (Some 1700000000) true 90 "chapters");
    ("b", mkProject "b" "Garden" 100 0 None false 0 "") ].

(** One project, selected and on display. *)
Definition app_showing (p : Project) (total_text current_text : string) (now : Q) : App :=
  mkApp [(id p, p)] (Some (id p)) [(name p, id p)] (Some 0%nat) (name p) (description p)
        total_text current_text 0 "0.0%" "ETC: --:--:--"
        (if is_running p then "Stop Timer" else "Start Timer") [] now (fun _ => "") 0
        (fun t => t).

(** Never started. *)
Definition idle_project (total current : Q) : Project :=
  mkProject "p1" "Demo" total current None false 0 "".

(** Started at time 0. *)
Definition running_project (total current : Q) : Project :=
  mkProject "p1" "Demo" total current (Some 0) true 0 "".

(** The state a handler returns, and a record of it. *)
Definition returned (o : outcome) : option App :=
  match o with
  | Returns s => Some s
  | _ => None
  end.

Definition record_of (k : string) (s : option App) : option Project :=
  match s with
  | Some s => dict_get k (projects s)
  | None => None
  end.

(** The project runs since time 0 with total 100; the current line edit
    holds 150, already stored by the live edit; the clock reads 10. *)
Definition over_typed : App :=
  app_showing (running_project 100 150) "100.0" "150" 10.

(** ... after the dialog about the current above the total ... *)
Definition over_typed_told : App :=
  message_box Information "Input Info"
    "Current Work Units cannot exceed Total Work Units. Setting to Total Work Units."
    over_typed.

(** ... and after the total was raised to the current, 150, in the record
    and in its line edit. *)
Definition over_typed_raised : App :=
  set_total_value_input "150.0"
    (update_project "p1" (with_total_units 150)
       (message_box Warning "Input Error"
          "Total Work Units cannot be less than Current Work Units. Setting to Current Work Units."
          over_typed_told)).

(** A project of total 0.04, complete and still running at time 10; both
    line edits hold 4e-2. *)
Definition tiny_complete : App :=
  app_showing (running_project (4 # 100) (4 # 100)) "4e-2" "4e-2" 10.

(** The application after loading [two_projects], the first row made the
    current one. *)
Definition just_loaded : App :=
  mkApp two_projects None [("Thesis", "a"); ("Garden", "b")] (Some 0%nat) "" ""
        "100.0" "0.0" 0 "0.0%" "ETC: --:--:--" "Start Timer" [] 1700000100
        (fun _ => "") 2 (fun t => t).

(** The project of the running example, stopped after 10 seconds; total
    and current are the values of the line edits, 100.0 and 50.0. *)
Definition paused_project : Project :=
  mkProject "p1" "Demo" (1000 # 10) (500 # 10) None false 10 "".

Definition paused_app : App :=
  mkApp [("p1", paused_project)] (Some "p1")
        [("Demo", "p1")] (Some 0%nat) "Demo" "" "100.0" "50.0" 50 "50.0%"
        "ETC: --:--:--" "Start Timer" [] 10 (fun _ => "") 0 (fun t => t).

(** ** Further predicates *)

(** Every field of the application but the ETC label. *)
Definition beside_etc_label (s : App) :=
  (projects s, current_project_id s, list_items s, current_row s,
   project_name_input s, project_description_input s,
   total_value_input s, current_value_input s,
   progress_bar s, percentage_label s, start_timer_button s,
   dialogs s, clock s, uuids s, uuid_count s, plain_text s).

(** No project of the store is about to complete, and the running ones
    have their start time. *)
Definition no_completion (s : App) : Prop :=
  forall k p, dict_get k (projects s) = Some p ->
    completes p (clock s) = false /\ (is_running p = true -> start_time p <> None).

(** Every item of the list widget carries the id of a stored project. *)
Definition items_ok (s : App) : Prop :=
  forall label k, In (label, k) (list_items s) -> In k (map fst (projects s)).

(** The store is keyed by the ids of its projects, without repetition, and
    the list widget names stored projects only. *)
Definition shape_ok (s : App) : Prop := well_keyed (projects s) /\ items_ok s.

(** What a handler leaves behind has the shape, if it returns. *)
Definition shaped (o : outcome) : Prop :=
  match o with
  | Returns s => shape_ok s
  | _ => True
  end.

(** The line edits show the total and the current of [p], in display
    format. *)
Definition in_step (p : Project) (s : App) : Prop :=
  Py.float (total_value_input s) = Some (total_units p) /\
  Py.is_blank (total_value_input s) = false /\
  Py.format_1f (total_units p) = total_value_input s /\
  Py.float (current_value_input s) = Some (current_units p) /\
  Py.is_blank (current_value_input s) = false /\
  Py.format_1f (current_units p) = current_value_input s.

(** What a refresh of the display leaves alone: everything but the store,
    the progress bar and the two labels. *)
Definition beside_display (s : App) :=
  (current_project_id s, list_items s, current_row s,
   project_name_input s, project_description_input s,
   total_value_input s, current_value_input s,
   start_timer_button s, dialogs s, clock s, uuids s, uuid_count s, plain_text s).

(** From [s] to [s'] only the progress bar and the two labels changed. *)
Definition display_only (s s' : App) : Prop :=
  beside_display s' = beside_display s /\
  forall k, dict_get k (projects s') = dict_get k (projects s).

(** The selected project [p] and its two fields at rest: the fields in
    step with the record, a positive total, a current between 0 and the
    total, and no completion pending. *)
Record settled (cur : string) (p : Project) (s : App) : Prop := {
  settled_selected : selected cur p s;
  settled_in_step : in_step p s;
  settled_total : 0 < total_units p;
  settled_current : 0 <= current_units p;
  settled_below : current_units p <= total_units p;
  settled_etc : completes p (clock s) = false;
  settled_timer : is_running p = true -> start_time p <> None
}.

(** [s'] is [base] with the record of [cur] replaced by [p'], up to the
    progress bar and the two labels. *)
Definition rewritten (cur : string) (p' : Project) (base s' : App) : Prop :=
  beside_display s' = beside_display base /\
  dict_get cur (projects s') = Some p' /\
  forall k, k <> cur -> dict_get k (projects s') = dict_get k (projects base).

(** The record [p] with other values for total and current. *)
Definition edit (total current : Q) (p : Project) : Project :=
  with_total_units total (with_current_units current p).

(** The item of the list widget for a project: its name as text, its id
    as data. *)
Definition item_of (kv : string * Project) : string * string :=
  (name (snd kv), id (snd kv)).

(** [__init__] after the window is set up: the data file is loaded; an
    empty store gets a first project, otherwise the first row becomes the
    current one, which emits [currentItemChanged].  [None] when the file
    is outside the typed model. *)
Definition startup (fuel : nat) (f : file) (now : Q) (supply : nat -> string)
  (plain : string -> string) : option outcome :=
  match load_projects f (init_ui now supply plain) with
  | None => None
  | Some s =>
      Some match projects s with
           | [] => run fuel AddNewProject s
           | _ :: _ =>
               match list_items s with
               | [] => Returns s
               | _ :: _ =>
                   run fuel (SelectProjectFromList (Some 0%nat))
                     (set_current_row (Some 0%nat) s)
               end
           end
  end.

(** The ids under which the store holds projects. *)
Definition keys (s : App) : list string := map fst (projects s).

(** The selection names a stored project. *)
Definition selection_ok (s : App) : Prop :=
  forall k, current_project_id s = Some k -> truthy (Some k) = true -> In k (keys s).

(** A consistent application: running exactly with a start time, the
    store keyed by ids, the list and the selection naming stored
    projects. *)
Definition consistent (s : App) : Prop := store_ok s /\ shape_ok s /\ selection_ok s.

(** [s'] has the ids of [s]. *)
Definition keys_kept (s s' : App) : Prop := forall k, In k (keys s) -> In k (keys s').

(** The project that a call names is stored. *)
Definition callable (c : call) (s : App) : Prop :=
  match c with
  | UpdateEtcForProject key => In key (keys s)
  | _ => True
  end.

(** A handler called on [s] raises neither [KeyError] nor [TypeError], and
    when it returns the application is consistent and has the ids of [s]. *)
Definition sound (s : App) (o : outcome) : Prop :=
  match o with
  | Returns s' => consistent s' /\ keys_kept s s'
  | Raises _ => False
  | OutOfFuel => True
  end.

(** What the live edit stores for a field on which [v] is written in
    display format. *)
Definition reread (v : Q) : Q := _get_safe_value (Py.format_1f v) v.

(** The value that [_finalize_input_editing] keeps for the field [w] of
    the stopped project [p] when its line edit holds [txt]. *)
Definition taken (w : line_edit) (p : Project) (txt : string) : Q :=
  match w, Py.float txt with
  | total_input, Some value =>
      if Qle_bool value 0 then total_units p
      else if Py.Qlt_bool value (current_units p) then current_units p
      else value
  | total_input, None => total_units p
  | current_input, Some value =>
      if Py.Qlt_bool value 0 then current_units p
      else if Py.Qlt_bool (total_units p) value then total_units p
      else value
  | current_input, None => current_units p
  end.

(** The record of the selected, stopped project [p] once the two line
    edits of [s] are finalized, the total first. *)
Definition finalized (p : Project) (s : App) : Project :=
  let total := reread (taken total_input p (total_value_input s)) in
  let after_total :=
    edit total (_get_safe_value (current_value_input s) (current_units p)) p in
  edit total (reread (taken current_input after_total (current_value_input s))) p.

(** * Properties *)

(** ** Comparisons and the store *)

Lemma Qlt_bool_iff (a b : Q) : Py.Qlt_bool a b = true <-> a < b.
Proof.
  unfold Py.Qlt_bool. rewrite negb_true_iff.
  split; intro H.
  - apply Qnot_le_lt. intro L. apply Qle_bool_iff in L. congruence.
  - destruct (Qle_bool b a) eqn:E; [|reflexivity].
    apply Qle_bool_iff in E. exfalso. apply (Qlt_not_le _ _ H E).
Qed.

Lemma Qlt_bool_false_iff (a b : Q) : Py.Qlt_bool a b = false <-> b <= a.
Proof.
  unfold Py.Qlt_bool. rewrite negb_false_iff. apply Qle_bool_iff.
Qed.

Lemma Qle_bool_false_iff (a b : Q) : Qle_bool a b = false <-> b < a.
Proof.
  rewrite <- Qlt_bool_iff. unfold Py.Qlt_bool.
  destruct (Qle_bool a b); simpl; split; congruence.
Qed.

Lemma dict_get_update (k k' : string) (f : Project -> Project) (d : dict) :
  dict_get k (dict_update k' f d)
  = if String.eqb k k' then option_map f (dict_get k d) else dict_get k d.
Proof.
  induction d as [|[k0 v] d IH]; simpl.
  - destruct (String.eqb k k'); reflexivity.
  - destruct (String.eqb k0 k') eqn:E0; simpl; destruct (String.eqb k0 k) eqn:E1.
    + apply String.eqb_eq in E0, E1. subst. rewrite String.eqb_refl. reflexivity.
    + exact IH.
    + apply String.eqb_eq in E1. subst. rewrite E0. reflexivity.
    + exact IH.
Qed.

Lemma dict_get_update_same (k : string) (f : Project -> Project) (d : dict) :
  dict_get k (dict_update k f d) = option_map f (dict_get k d).
Proof. rewrite dict_get_update, String.eqb_refl. reflexivity. Qed.

Lemma dict_update_fuse (k : string) (f g : Project -> Project) (d : dict) :
  dict_update k g (dict_update k f d) = dict_update k (fun p => g (f p)) d.
Proof.
  unfold dict_update. rewrite map_map. apply map_ext.
  intros [k0 v]. simpl. destruct (String.eqb k0 k) eqn:E; simpl; rewrite E; reflexivity.
Qed.

Lemma dict_mem_get (k : string) (d : dict) (p : Project) :
  dict_get k d = Some p -> dict_mem k d = true.
Proof. unfold dict_mem. intros ->. reflexivity. Qed.

Lemma dict_set_fresh (k : string) (v : Project) (d : dict) :
  ~ In k (map fst d) -> dict_set k v d = (d ++ [(k, v)])%list.
Proof.
  induction d as [|[k0 v0] d IH]; simpl; intro H; [reflexivity|].
  destruct (String.eqb k0 k) eqn:E.
  - apply String.eqb_eq in E. tauto.
  - rewrite IH by tauto. reflexivity.
Qed.

(** ** C1: the percentage on display *)

Lemma shown_percentage_nonpositive_total (current total : Q) :
  total <= 0 -> shown_percentage current total = 0.
Proof.
  intro H. unfold shown_percentage, progress_percentage.
  apply Qlt_bool_false_iff in H. rewrite H. reflexivity.
Qed.

Lemma shown_percentage_positive_total (current total : Q) :
  0 < total -> shown_percentage current total = Py.min (current / total * 100) 100.
Proof.
  intro H. unfold shown_percentage, progress_percentage.
  apply Qlt_bool_iff in H. rewrite H. reflexivity.
Qed.

Lemma py_min_le (a b : Q) : Py.min a b <= b /\ Py.min a b <= a.
Proof.
  unfold Py.min. destruct (Py.Qlt_bool b a) eqn:E.
  - apply Qlt_bool_iff in E. split; [apply Qle_refl | apply Qlt_le_weak, E].
  - apply Qlt_bool_false_iff in E. split; [exact E | apply Qle_refl].
Qed.

Lemma py_min_ge (a b c : Q) : c <= a -> c <= b -> c <= Py.min a b.
Proof. intros. unfold Py.min. destruct (Py.Qlt_bool b a); assumption. Qed.

Lemma ratio_nonneg (current total : Q) :
  0 < total -> 0 <= current -> 0 <= current / total * 100.
Proof.
  intros Ht Hc. apply Qmult_le_0_compat; [|discriminate].
  apply Qle_shift_div_l; [exact Ht|]. rewrite Qmult_0_l. exact Hc.
Qed.

(** C1, as the code has it: the percentage on display is 0 when
    total <= 0 and otherwise min(current/total*100, 100), with no lower
    bound of its own; for total > 0 and 0 <= current <= total it is
    100*current/total, and it lies in [0, 100] whenever current >= 0, also
    for a current above total. *)
Theorem shown_percentage_spec (current total : Q) :
  (total <= 0 -> shown_percentage current total = 0) /\
  (0 < total -> shown_percentage current total = Py.min (current / total * 100) 100) /\
  (0 < total -> 0 <= current <= total ->
     shown_percentage current total == 100 * current / total) /\
  (0 <= current -> 0 <= shown_percentage current total <= 100).
Proof.
  split; [apply shown_percentage_nonpositive_total|].
  split; [apply shown_percentage_positive_total|].
  split.
  - intros Ht [_ Hle]. rewrite shown_percentage_positive_total by exact Ht.
    assert (Hr : current / total * 100 <= 100).
    { setoid_replace 100 with (1 * 100) at 2 by ring.
      apply Qmult_le_compat_r; [|discriminate].
      apply Qle_shift_div_r; [exact Ht|]. rewrite Qmult_1_l. exact Hle. }
    unfold Py.min. apply Qlt_bool_false_iff in Hr. rewrite Hr.
    field. intro Z0. rewrite Z0 in Ht. discriminate.
  - intro Hc. destruct (Qlt_le_dec 0 total) as [Ht|Ht].
    + rewrite shown_percentage_positive_total by exact Ht. split.
      * apply py_min_ge; [apply ratio_nonneg; assumption | discriminate].
      * apply py_min_le.
    + rewrite shown_percentage_nonpositive_total by exact Ht.
      split; discriminate.
Qed.

Lemma shown_percentage_spec_witness :
  shown_percentage 150 100 = Py.min (150 / 100 * 100) 100 /\
  shown_percentage 50 100 == 100 * 50 / 100 /\
  0 <= shown_percentage 150 100 <= 100.
Proof.
  destruct (shown_percentage_spec 150 100) as (_ & H2 & _ & H4).
  destruct (shown_percentage_spec 50 100) as (_ & _ & H3 & _).
  split; [apply H2; reflexivity|].
  split; [apply H3; [reflexivity | split; discriminate] | apply H4; discriminate].
Defined.

(** ** C7, C8, C9: loading and saving *)

Lemma project_of_json_asdict (fresh : string) (p : Project) :
  match asdict p with
  | JObj project_data => project_of_json fresh project_data = Some p
  | _ => False
  end.
Proof. destruct p as [i n t c [st|] r e d]; reflexivity. Qed.

Lemma field_missing {A} (conv : json -> option A) (k : string) (default : A)
  (project_data : list (string * json)) :
  jget k project_data = None -> field conv k default project_data = Some default.
Proof. unfold field. intros ->. reflexivity. Qed.

(** C7: a field that an object of the file lacks takes its default, the id
    a freshly generated one; the file [[{"name":"X"}]] loads as one project
    named X with total 100.0, current 0.0, not running, no start time, no
    elapsed time, an empty description and the generated id, and no dialog
    is shown. *)
Theorem load_fills_missing_fields_with_defaults :
  (forall (fresh : string) (project_data : list (string * json)) (p : Project),
      project_of_json fresh project_data = Some p ->
      (jget "id" project_data = None -> id p = fresh) /\
      (jget "name" project_data = None -> name p = "Unnamed Project") /\
      (jget "total_units" project_data = None -> total_units p = 100) /\
      (jget "current_units" project_data = None -> current_units p = 0) /\
      (jget "start_time" project_data = None -> start_time p = None) /\
      (jget "is_running" project_data = None -> is_running p = false) /\
      (jget "elapsed_at_pause" project_data = None -> elapsed_at_pause p = 0) /\
      (jget "description" project_data = None -> description p = "")) /\
  (forall (now : Q) (supply : nat -> string) (plain : string -> string),
      exists s,
        load_projects (Content (JArr [JObj [("name", JStr "X")]]))
          (init_ui now supply plain)
          = Some s /\
        projects s
          = [(supply 0%nat, mkProject (supply 0%nat) "X" 100 0 None false 0 "")] /\
        dialogs s = []).
Proof.
  split.
  - intros fresh project_data p H. unfold project_of_json in H.
    destruct (field as_str "id" fresh project_data) as [i|] eqn:Ei; [|discriminate].
    destruct (field as_str "name" "Unnamed Project" project_data) as [n|] eqn:En;
      [|discriminate].
    destruct (field as_float "total_units" 100 project_data) as [t|] eqn:Et;
      [|discriminate].
    destruct (field as_float "current_units" 0 project_data) as [c|] eqn:Ec;
      [|discriminate].
    destruct (field as_optional_float "start_time" None project_data) as [st|] eqn:Es;
      [|discriminate].
    destruct (field as_bool "is_running" false project_data) as [r|] eqn:Er;
      [|discriminate].
    destruct (field as_float "elapsed_at_pause" 0 project_data) as [e|] eqn:Ee;
      [|discriminate].
    destruct (field as_str "description" "" project_data) as [d|] eqn:Ed;
      [|discriminate].
    injection H as <-. simpl.
    repeat split; intro M;
      match goal with
      | E : field ?conv ?k ?dflt _ = Some _ |- _ =>
          rewrite (field_missing conv k dflt _ M) in E; congruence
      end.
  - intros now supply plain. eexists. split; [reflexivity|]. split; reflexivity.
Qed.

(** C8: a malformed file and a file that cannot be read both leave the
    store empty and show a load error; so does a file whose content is no
    array of objects; a missing file shows nothing, changes nothing, and
    the store keeps the empty state it starts with. *)
Theorem load_errors_leave_the_store_empty (s : App) :
  (exists s',
      load_projects Malformed s = Some s' /\ projects s' = [] /\
      dialogs s' = (dialogs s ++
        [mkDialog Warning "Load Error"
           "Could not decode project data from projects.json. File might be corrupted."])%list) /\
  (forall e, exists s',
      load_projects (Unreadable e) s = Some s' /\ projects s' = [] /\
      dialogs s' = (dialogs s ++
        [mkDialog Critical "Load Error"
           ("An unexpected error occurred while loading projects: " ++ e)])%list) /\
  (forall raw_data e s1,
      load_raw raw_data s = LoadFailed e s1 ->
      exists s',
        load_projects (Content raw_data) s = Some s' /\ projects s' = [] /\
        dialogs s' = (dialogs s ++
          [mkDialog Critical "Load Error"
             ("An unexpected error occurred while loading projects: " ++ e)])%list) /\
  load_projects NoFile s = Some s /\
  (forall now supply plain, projects (init_ui now supply plain) = []).
Proof.
  split; [eexists; split; [reflexivity|]; split; reflexivity|].
  split; [intro e; eexists; split; [reflexivity|]; split; reflexivity|].
  split; [|split; reflexivity].
  intros raw_data e s1 H. unfold load_projects. rewrite H.
  eexists. split; [reflexivity|]. split; [reflexivity|]. simpl.
  assert (D : forall items s2, load_loop items s2 = LoadFailed e s1 -> dialogs s1 = dialogs s2).
  { induction items as [|j items IH]; intros s2 L; simpl in L; [discriminate|].
    destruct j; try (injection L as _ <-; reflexivity).
    destruct (project_of_json _ fields); [|discriminate].
    apply IH in L. exact L. }
  destruct raw_data as [| | | |t|items|fields]; simpl in H;
    try (injection H as _ <-; reflexivity).
  - destruct t; [discriminate | injection H as _ <-; reflexivity].
  - rewrite (D _ _ H). reflexivity.
  - destruct fields; [discriminate | injection H as _ <-; reflexivity].
Qed.

Lemma load_loop_saved (d acc : dict) (s : App) :
  well_keyed (acc ++ d)%list ->
  projects s = acc ->
  exists s',
    load_loop (map asdict (dict_values d)) s = Loaded s' /\
    projects s' = (acc ++ d)%list /\
    dialogs s' = dialogs s.
Proof.
  revert acc s. induction d as [|[k p] d IH]; intros acc s [ND KEY] Hs.
  - exists s. rewrite app_nil_r. auto.
  - simpl. pose proof (project_of_json_asdict (uuids s (uuid_count s)) p) as A.
    simpl in A. simpl. rewrite A.
    assert (Hk : k = id p).
    { rewrite Forall_forall in KEY. apply (KEY (k, p)), in_or_app. right. left. reflexivity. }
    assert (Fr : ~ In (id p) (map fst acc)).
    { rewrite map_app in ND. simpl in ND. apply NoDup_remove_2 in ND.
      rewrite <- Hk. intro I. apply ND, in_or_app. left. exact I. }
    match goal with
    | |- exists s', load_loop _ ?s1 = _ /\ _ =>
        destruct (IH (acc ++ [(k, p)])%list s1) as (s' & L & P & D)
    end.
    + rewrite <- app_assoc. split; [exact ND | exact KEY].
    + cbn. rewrite Hs, dict_set_fresh by exact Fr. rewrite Hk. reflexivity.
    + exists s'. split; [exact L|]. split.
      * rewrite P, <- app_assoc. reflexivity.
      * rewrite D. reflexivity.
Qed.

(** C9: saving a store and loading the saved file at startup reproduces
    the store: the same projects in the same order, every field with its
    value, the ids kept, and no dialog shown. *)
Theorem save_then_load_reproduces_the_store (s : App) (before : file)
  (now : Q) (supply : nat -> string) (plain : string -> string) :
  well_keyed (projects s) ->
  exists s',
    load_projects (fst (save_projects None before s)) (init_ui now supply plain) = Some s' /\
    projects s' = projects s /\
    dialogs s' = [].
Proof.
  intro W. simpl.
  destruct (load_loop_saved (projects s) [] (init_ui now supply plain) W eq_refl)
    as (s' & L & P & D).
  exists s'. rewrite L. auto.
Qed.

Lemma save_then_load_reproduces_the_store_witness :
  exists s',
    load_projects
      (fst (save_projects None NoFile
              (set_projects two_projects (init_ui 0 (fun _ => "u") (fun t => t)))))
      (init_ui 5 (fun _ => "v") (fun t => t)) = Some s' /\
    projects s' = two_projects /\
    dialogs s' = [].
Proof.
  apply (save_then_load_reproduces_the_store
           (set_projects two_projects (init_ui 0 (fun _ => "u") (fun t => t)))
           NoFile 5 (fun _ => "v") (fun t => t)).
  split.
  - simpl. repeat constructor; simpl; intuition discriminate.
  - repeat constructor.
Defined.

(** ** The selected project and what a handler leaves alone *)

Lemma run_S (n : nat) (c : call) (s : App) : run (S n) c s = handler (run n) c s.
Proof. reflexivity. Qed.

Lemma truthy_Some (k : string) : k <> "" -> truthy (Some k) = true.
Proof.
  intro H. simpl. destruct (String.eqb k "") eqn:E; [|reflexivity].
  apply String.eqb_eq in E. contradiction.
Qed.

Lemma projects_progress_bar_setValue (v : Z) (s : App) :
  projects (progress_bar_setValue v s) = projects s.
Proof. unfold progress_bar_setValue. destruct (_ || _)%bool; reflexivity. Qed.

Lemma projects_show_etc (p : Project) (t : string) (s : App) :
  projects (show_etc p t s) = projects s.
Proof. unfold show_etc. destruct (is_current _ _); reflexivity. Qed.

Lemma dialogs_show_etc (p : Project) (t : string) (s : App) :
  dialogs (show_etc p t s) = dialogs s.
Proof. unfold show_etc. destruct (is_current _ _); reflexivity. Qed.

Lemma dialogs_message_box (i : icon) (title txt : string) (s : App) :
  dialogs (message_box i title txt s) = (dialogs s ++ [mkDialog i title txt])%list.
Proof. reflexivity. Qed.

Lemma projects_show_button (k t : string) (s : App) :
  projects (show_button k t s) = projects s.
Proof. unfold show_button. destruct (is_current _ _); reflexivity. Qed.

Lemma update_display_selected (self : call -> App -> outcome)
  (cur : string) (p : Project) (s : App) :
  selected cur p s ->
  _update_display_from_inputs self s
  = self (UpdateEtcForProject cur) (inputs_written cur p s).
Proof.
  intros (C & N & G). unfold _update_display_from_inputs, lookup.
  rewrite C, (truthy_Some _ N), G. reflexivity.
Qed.

Lemma projects_inputs_written (cur : string) (p : Project) (s : App) (k : string) :
  dict_get cur (projects s) = Some p ->
  dict_get k (projects (inputs_written cur p s))
  = if String.eqb k cur then Some (live_record p s) else dict_get k (projects s).
Proof.
  intro G. unfold inputs_written. cbn [projects set_percentage_label].
  rewrite projects_progress_bar_setValue. cbn [projects update_project set_projects].
  rewrite dict_update_fuse, dict_get_update.
  destruct (String.eqb k cur) eqn:E; [|reflexivity].
  apply String.eqb_eq in E. subst k. rewrite G. reflexivity.
Qed.

Lemma clock_inputs_written (cur : string) (p : Project) (s : App) :
  clock (inputs_written cur p s) = clock s.
Proof.
  unfold inputs_written, progress_bar_setValue. cbn [clock set_percentage_label].
  destruct (_ || _)%bool; reflexivity.
Qed.

Lemma is_current_update_project (k k' : string) (f : Project -> Project) (s : App) :
  is_current k (update_project k' f s) = is_current k s.
Proof. reflexivity. Qed.

(** Short of completion the ETC computation only writes the ETC label, and
    only for the selected project. *)
Lemma etc_without_completion (self : call -> App -> outcome)
  (key : string) (p : Project) (s : App) :
  dict_get key (projects s) = Some p ->
  completes p (clock s) = false ->
  (is_running p = true -> start_time p <> None) ->
  exists t, update_etc_for_project self key s = Returns (show_etc p t s).
Proof.
  intros G C R. unfold update_etc_for_project, lookup. rewrite G.
  unfold completes in C.
  destruct (is_running p) eqn:Run; simpl.
  - destruct (start_time p) as [started|]; [|exfalso; apply R; reflexivity].
    simpl in C.
    destruct (Qle_bool (total_units p) 0); [eexists; reflexivity|].
    destruct (Py.isclose (current_units p) 0 || Py.isclose _ 0)%bool;
      [eexists; reflexivity|].
    simpl in C.
    destruct (Py.div (current_units p) (total_units p)) as [ratio|];
      [|eexists; reflexivity].
    rewrite C.
    destruct (Py.Qlt_bool 0 ratio); [|eexists; reflexivity].
    destruct (Py.div (current_units p) _) as [rate|]; [|eexists; reflexivity].
    destruct (Py.div _ rate); eexists; reflexivity.
  - destruct (start_time p); eexists; reflexivity.
Qed.

(** ** C10: what a live edit writes *)

(** C10, as the code has it: a text change in one of the two line edits
    stores the values of both line edits - the previous value for a blank
    or non-numeric text, the parsed float otherwise - in current_units
    and total_units of the selected project, changes no other field of it
    and no other project, and then runs the ETC computation; unless that
    computation reaches its completion rule for a running timer, the
    handler returns with exactly that record, whether or not
    current <= total. *)
Theorem live_edit_writes_the_raw_values
  (n : nat) (w : line_edit) (t : string) (cur : string) (p : Project) (s : App) :
  selected cur p s ->
  text w s <> t ->
  let typed := set_text w t s in
  let p' := with_total_units (_get_safe_value (total_value_input typed) (total_units p))
              (with_current_units
                 (_get_safe_value (current_value_input typed) (current_units p)) p) in
  (exists s1,
      setText (run (S n)) w t s = run n (UpdateEtcForProject cur) s1 /\
      dict_get cur (projects s1) = Some p' /\
      (forall k, k <> cur -> dict_get k (projects s1) = dict_get k (projects s))) /\
  (completes p' (clock s) = false ->
   (is_running p = true -> start_time p <> None) ->
   exists s',
      setText (run (S (S n))) w t s = Returns s' /\
      dict_get cur (projects s') = Some p' /\
      (forall k, k <> cur -> dict_get k (projects s') = dict_get k (projects s))) /\
  (forall txt previous,
      Py.is_blank txt = true \/ Py.float txt = None ->
      _get_safe_value txt previous = previous) /\
  (forall txt previous v,
      Py.is_blank txt = false -> Py.float txt = Some v ->
      _get_safe_value txt previous = v).
Proof.
  intros Sel Ne typed p'.
  assert (Fallback : forall txt previous,
             Py.is_blank txt = true \/ Py.float txt = None ->
             _get_safe_value txt previous = previous).
  { intros txt previous [B|F]; unfold _get_safe_value.
    - rewrite B. reflexivity.
    - rewrite F. destruct (Py.is_blank txt); reflexivity. }
  assert (Parsed : forall txt previous v,
             Py.is_blank txt = false -> Py.float txt = Some v ->
             _get_safe_value txt previous = v).
  { intros txt previous v B F. unfold _get_safe_value. rewrite B, F. reflexivity. }
  refine ((fun H => conj (proj1 H) (conj (proj2 H) (conj Fallback Parsed))) _).
  assert (Sel' : selected cur p typed).
  { destruct Sel as (C & N & G). unfold typed. destruct w; repeat split; assumption. }
  assert (E : forall m, setText (run (S m)) w t s
                        = run m (UpdateEtcForProject cur) (inputs_written cur p typed)).
  { intro m. unfold setText.
    destruct (String.eqb (text w s) t) eqn:Q; [apply String.eqb_eq in Q; contradiction|].
    fold typed. cbn [run handler]. apply update_display_selected. exact Sel'. }
  assert (G1 : dict_get cur (projects (inputs_written cur p typed)) = Some p').
  { rewrite (projects_inputs_written cur p typed cur), String.eqb_refl by apply Sel'.
    reflexivity. }
  assert (G2 : forall k, k <> cur ->
               dict_get k (projects (inputs_written cur p typed)) = dict_get k (projects s)).
  { intros k Hk. rewrite (projects_inputs_written cur p typed k) by apply Sel'.
    destruct (String.eqb k cur) eqn:Q; [apply String.eqb_eq in Q; contradiction|].
    unfold typed. destruct w; reflexivity. }
  split.
  - exists (inputs_written cur p typed). split; [|split; assumption].
    rewrite E. reflexivity.
  - intros C R. rewrite E. cbn [run handler].
    destruct (etc_without_completion (run n) cur p' (inputs_written cur p typed))
      as [label L]; try assumption.
    + rewrite clock_inputs_written. unfold typed. destruct w; exact C.
    + exists (show_etc p' label (inputs_written cur p typed)).
      split; [exact L|]. rewrite projects_show_etc. split; assumption.
Qed.

(** ** Handlers on a selected project whose timer is stopped *)

Ltac frame_split := unfold frame; split; [|split; [|split; [|split]]].

Lemma frame_refl (cur : string) (s : App) : frame cur s s.
Proof.
  frame_split; try reflexivity. exists []. rewrite app_nil_r. reflexivity.
Qed.

Lemma frame_trans (cur : string) (s1 s2 s3 : App) :
  frame cur s1 s2 -> frame cur s2 s3 -> frame cur s1 s3.
Proof.
  intros (C1 & T1 & O1 & P1 & m1 & D1) (C2 & T2 & O2 & P2 & m2 & D2).
  frame_split; try congruence.
  - intros k Hk. rewrite O2, O1 by exact Hk. reflexivity.
  - exists (m1 ++ m2)%list. rewrite D2, D1, app_assoc. reflexivity.
Qed.

Lemma frame_widgets (cur : string) (s s' : App) (more : list dialog) :
  projects s' = projects s ->
  current_project_id s' = current_project_id s ->
  clock s' = clock s ->
  dialogs s' = (dialogs s ++ more)%list ->
  frame cur s s'.
Proof.
  intros P C T D. frame_split; try assumption.
  - intros k _. rewrite P. reflexivity.
  - rewrite P. reflexivity.
  - exists more. exact D.
Qed.

Lemma frame_quiet (cur : string) (s s' : App) :
  projects s' = projects s ->
  current_project_id s' = current_project_id s ->
  clock s' = clock s ->
  dialogs s' = dialogs s ->
  frame cur s s'.
Proof.
  intros P C T D. apply (frame_widgets cur s s' []); try assumption.
  rewrite app_nil_r. exact D.
Qed.

Lemma frame_show_etc (cur : string) (p : Project) (t : string) (s : App) :
  frame cur s (show_etc p t s).
Proof.
  unfold show_etc. destruct (is_current _ _); [|apply frame_refl].
  apply frame_quiet; reflexivity.
Qed.

Lemma frame_message_box (cur : string) (i : icon) (title txt : string) (s : App) :
  frame cur s (message_box i title txt s).
Proof. apply (frame_widgets cur _ _ [mkDialog i title txt]); reflexivity. Qed.

Lemma frame_set_text (cur : string) (w : line_edit) (t : string) (s : App) :
  frame cur s (set_text w t s).
Proof.
  apply frame_quiet; destruct w; reflexivity.
Qed.

Lemma frame_update (cur : string) (f : Project -> Project) (s : App) :
  (forall p, timer_fields (f p) = timer_fields p) ->
  frame cur s (update_project cur f s).
Proof.
  intro F. frame_split; try reflexivity.
  - intros k Hk. cbn. rewrite dict_get_update.
    destruct (String.eqb k cur) eqn:E; [apply String.eqb_eq in E; contradiction|reflexivity].
  - cbn. rewrite dict_get_update_same.
    destruct (dict_get cur (projects s)); simpl; [rewrite F|]; reflexivity.
  - exists []. simpl. rewrite app_nil_r. reflexivity.
Qed.

Lemma frame_setattr (cur : string) (a : attr) (v : Q) (s : App) :
  frame cur s (update_project cur (setattr a v) s).
Proof. apply frame_update. intro p. destruct a; reflexivity. Qed.

Lemma frame_inputs_written (cur : string) (p : Project) (s : App) :
  frame cur s (inputs_written cur p s).
Proof.
  unfold inputs_written.
  set (c := _get_safe_value (current_value_input s) _).
  set (t := _get_safe_value (total_value_input s) _).
  apply (frame_trans cur _ (update_project cur (with_current_units c) s));
    [apply frame_update; reflexivity|].
  apply (frame_trans cur _ (update_project cur (with_total_units t)
                              (update_project cur (with_current_units c) s)));
    [apply frame_update; reflexivity|].
  unfold progress_bar_setValue. destruct (_ || _)%bool;
    apply frame_quiet; reflexivity.
Qed.

Lemma stopped_frame (cur : string) (s s' : App) :
  stopped cur s -> frame cur s s' -> stopped cur s'.
Proof.
  intros (p & (C & N & G) & R) (C' & _ & _ & P & _).
  rewrite G in P. destruct (dict_get cur (projects s')) as [p'|] eqn:G'; [|discriminate].
  exists p'. injection P as _ _ _ R' _ _.
  repeat split; congruence.
Qed.

Lemma not_running_never_completes (p : Project) (now : Q) :
  is_running p = false -> completes p now = false.
Proof. intro R. unfold completes. rewrite R. destruct (start_time p); reflexivity. Qed.

Lemma etc_stopped (n : nat) (cur : string) (p : Project) (s : App) :
  dict_get cur (projects s) = Some p -> is_running p = false ->
  exists t, run (S n) (UpdateEtcForProject cur) s = Returns (show_etc p t s).
Proof.
  intros G R. cbn [run handler].
  apply etc_without_completion; [exact G | | congruence].
  apply not_running_never_completes, R.
Qed.

Lemma display_stopped (n : nat) (cur : string) (s : App) :
  stopped cur s ->
  exists s', run (S (S n)) UpdateDisplayFromInputs s = Returns s' /\ frame cur s s'.
Proof.
  intros (p & Sel & R). cbn [run handler].
  rewrite (update_display_selected _ cur p s Sel).
  destruct (etc_stopped n cur (live_record p s) (inputs_written cur p s)) as [t E].
  - rewrite projects_inputs_written, String.eqb_refl by apply Sel. reflexivity.
  - exact R.
  - cbn [run] in E. rewrite E. eexists. split; [reflexivity|].
    eapply frame_trans; [apply frame_inputs_written | apply frame_show_etc].
Qed.

Lemma setText_stopped (n : nat) (cur : string) (w : line_edit) (t : string) (s : App) :
  stopped cur s ->
  exists s', setText (run (S (S n))) w t s = Returns s' /\ frame cur s s'.
Proof.
  intro St. unfold setText. destruct (String.eqb (text w s) t).
  - exists s. split; [reflexivity | apply frame_refl].
  - destruct (display_stopped n cur (set_text w t s)) as (s' & E & F).
    + eapply stopped_frame; [exact St | apply frame_set_text].
    + exists s'. split; [exact E|].
      eapply frame_trans; [apply frame_set_text | exact F].
Qed.

(** The end of [_finalize_input_editing]: the text is put back in format
    and the display refreshed. *)
Lemma finalize_tail_stopped (n : nat) (cur : string) (w : line_edit) (t : string)
  (s s0 : App) :
  stopped cur s -> frame cur s s0 ->
  exists s',
    (s1 <- setText (run (S (S n))) w t s0 ;; run (S (S n)) UpdateDisplayFromInputs s1)
    = Returns s' /\ frame cur s s'.
Proof.
  intros St F0.
  destruct (setText_stopped n cur w t s0) as (s1 & E1 & F1);
    [eapply stopped_frame; eassumption|].
  destruct (display_stopped n cur s1) as (s2 & E2 & F2).
  { eapply stopped_frame; [exact St|]. eapply frame_trans; eassumption. }
  exists s2. rewrite E1. simpl bind. split; [exact E2|].
  eapply frame_trans; [exact F0|]. eapply frame_trans; eassumption.
Qed.

Lemma finalize_stopped (n : nat) (cur : string) (w : line_edit) (a : attr)
  (field_name : string) (is_total : bool) (s : App) :
  stopped cur s ->
  exists s',
    run (S (S (S n))) (FinalizeInputEditing w a field_name is_total) s = Returns s' /\
    frame cur s s'.
Proof.
  intros St. pose proof St as (p & (C & N & G) & R).
  cbn [run handler]. unfold _finalize_input_editing, lookup.
  rewrite C, (truthy_Some _ N), G.
  destruct (Py.float (text w s)) as [value|].
  - unfold validate. rewrite R.
    destruct is_total;
      repeat match goal with
        | |- context [if ?b then _ else _] => destruct b
        end;
      simpl bind;
      apply (finalize_tail_stopped n cur w _ s); try exact St;
      (eapply frame_trans; [|apply frame_setattr]);
      first [apply frame_message_box | apply frame_refl].
  - apply (finalize_tail_stopped n cur w _ s); [exact St|].
    destruct (negb _); [apply frame_message_box | apply frame_refl].
Qed.

Lemma below_total_never_completes (p : Project) (now : Q) :
  0 < total_units p -> current_units p < total_units p -> completes p now = false.
Proof.
  intros T C. unfold completes. destruct (start_time p); [|reflexivity].
  unfold Py.div. destruct (Qeq_bool (total_units p) 0) eqn:Z.
  - apply andb_false_r.
  - replace (Qle_bool 1 (current_units p / total_units p)) with false;
      [apply andb_false_r|].
    symmetry. apply Qle_bool_false_iff.
    apply Qlt_shift_div_r; [exact T|]. rewrite Qmult_1_l. exact C.
Qed.

(** ** C3: starting the timer *)

Lemma is_current_selected (cur : string) (p : Project) (s : App) :
  selected cur p s -> is_current cur s = true.
Proof. intros (C & _). unfold is_current. rewrite C. apply String.eqb_refl. Qed.

(** C3 on the code: a click on the timer button does not start the timer.
    The signal hands its [checked] flag to [toggle_timer] as the project
    id, so the request is answered with the dialog "No project selected
    or invalid project." before the fields are finalized and before the
    preconditions are looked at: the store is as it was, and so is the
    selected project, stopped, also when its total is positive and its
    current lies between 0 and the total. *)
Theorem click_on_the_timer_button_never_starts_the_timer
  (n : nat) (checked : bool) (s : App) :
  exists s',
    run (S n) (StartTimerButtonClicked checked) s = Returns s' /\
    projects s' = projects s /\
    dialogs s'
    = (dialogs s ++ [mkDialog Information "Timer Control"
                       "No project selected or invalid project."])%list /\
    (current_project_id s', total_value_input s', current_value_input s',
     start_timer_button s', etc_label s', clock s')
    = (current_project_id s, total_value_input s, current_value_input s,
       start_timer_button s, etc_label s, clock s) /\
    forall cur p,
      selected cur p s -> is_running p = false -> may_start p ->
      selected cur p s' /\ is_running p = false.
Proof.
  eexists. split; [destruct checked; reflexivity|].
  split; [reflexivity|]. split; [reflexivity|]. split; [reflexivity|].
  intros cur p Sel R _. split; [exact Sel | exact R].
Qed.

(** ** C2, C4: completion of the selected project while its timer runs *)

Lemma isclose_zero (x : Q) : ~ x == 0 -> Py.isclose x 0 = false.
Proof.
  intro Nz. unfold Py.isclose. apply Qle_bool_false_iff.
  assert (A : 0 < Qabs x).
  { apply (Qabs_case x (fun a => 0 < a)); intro H; lra. }
  assert (B : Qabs (x - 0) == Qabs x).
  { apply Qabs_wd. ring. }
  rewrite B. change (Qabs 0) with 0.
  generalize dependent (Qabs x). intros a A _.
  unfold Py.max, Py.rel_tol.
  destruct (Py.Qlt_bool a 0) eqn:E1.
  - apply Qlt_bool_iff in E1. lra.
  - destruct (Py.Qlt_bool ((1 # 1000000000) * a) 0) eqn:E2; [exact A|].
    lra.
Qed.

Lemma etc_completing (self : call -> App -> outcome)
  (cur : string) (p : Project) (t c started : Q) (s : App) :
  completing cur p t c started s ->
  update_etc_for_project self cur s
  = self (ToggleTimer (Some cur)) (set_etc_label "ETC: Complete!" s)
  /\ completing cur p t c started (set_etc_label "ETC: Complete!" s).
Proof.
  intros [Sel I R St El Tt Tb Ct Cb F Pos Eq Tu Cu]. split.
  - pose proof Sel as (C & N & G).
    unfold update_etc_for_project, lookup. rewrite G, R, St. cbn [negb].
    replace (Qle_bool (total_units p) 0) with false
      by (symmetry; apply Qle_bool_false_iff; rewrite Tu; exact Pos).
    rewrite (isclose_zero (current_units p)) by (rewrite Cu, <- Eq; lra).
    rewrite (isclose_zero _ El). cbn [orb].
    unfold Py.div.
    replace (Qeq_bool (total_units p) 0) with false.
    2:{ symmetry. destruct (Qeq_bool (total_units p) 0) eqn:E; [|reflexivity].
        apply Qeq_bool_iff in E. rewrite Tu in E. lra. }
    replace (Qle_bool 1 (current_units p / total_units p)) with true.
    2:{ symmetry. apply Qle_bool_iff. apply Qle_shift_div_l; [rewrite Tu; exact Pos|].
        rewrite Cu, Tu, Eq. lra. }
    unfold show_etc. rewrite I, (is_current_selected _ _ _ Sel). reflexivity.
  - constructor; assumption.
Qed.

Lemma finalize_completing (self : call -> App -> outcome)
  (cur : string) (p : Project) (t c started : Q) (s : App) :
  completing cur p t c started s ->
  _finalize_input_editing self total_input total_units_attr "Total Work Units" true s
  = self UpdateDisplayFromInputs (update_project cur (with_total_units t) s)
  /\ completing cur (with_total_units t p) t c started
       (update_project cur (with_total_units t) s).
Proof.
  intros [Sel I R St El Tt Tb Ct Cb F Pos Eq Tu Cu].
  pose proof Sel as (C & N & G). split.
  - unfold _finalize_input_editing, lookup. rewrite C, (truthy_Some _ N), G.
    cbn [text]. rewrite Tt. unfold validate.
    replace (Qle_bool t 0) with false by (symmetry; apply Qle_bool_false_iff; exact Pos).
    replace (Py.Qlt_bool t (current_units p)) with false
      by (symmetry; apply Qlt_bool_false_iff; rewrite Cu, Eq; lra).
    cbn [bind setattr]. unfold setText. cbn [text update_project set_projects total_value_input].
    rewrite F, String.eqb_refl. reflexivity.
  - constructor; try assumption; try reflexivity.
    repeat split; try assumption.
    cbn [projects update_project set_projects]. rewrite dict_get_update_same, G. reflexivity.
Qed.

Lemma text_inputs_written (cur : string) (p : Project) (s : App) :
  total_value_input (inputs_written cur p s) = total_value_input s /\
  current_value_input (inputs_written cur p s) = current_value_input s /\
  current_project_id (inputs_written cur p s) = current_project_id s.
Proof.
  unfold inputs_written, progress_bar_setValue.
  destruct (_ || _)%bool; repeat split; reflexivity.
Qed.

Lemma display_completing (self : call -> App -> outcome)
  (cur : string) (p : Project) (t c started : Q) (s : App) :
  completing cur p t c started s ->
  _update_display_from_inputs self s
  = self (UpdateEtcForProject cur) (inputs_written cur p s)
  /\ completing cur (live_record p s) t c started (inputs_written cur p s).
Proof.
  intros [Sel I R St El Tt Tb Ct Cb F Pos Eq Tu Cu].
  split; [apply update_display_selected, Sel|].
  pose proof Sel as (C & N & G).
  destruct (text_inputs_written cur p s) as (T1 & T2 & T3).
  assert (Vt : _get_safe_value (total_value_input s) (total_units p) = t)
    by (unfold _get_safe_value; rewrite Tb, Tt; reflexivity).
  assert (Vc : _get_safe_value (current_value_input s) (current_units p) = c)
    by (unfold _get_safe_value; rewrite Cb, Ct; reflexivity).
  constructor; rewrite ?T1, ?T2, ?clock_inputs_written; try assumption.
  - repeat split; [congruence | exact N |].
    rewrite projects_inputs_written, String.eqb_refl by exact G. reflexivity.
  - unfold live_record. cbn. rewrite Vt. reflexivity.
  - unfold live_record. cbn. rewrite Vc. reflexivity.
Qed.

(** Once the selected project completes while its timer runs, no handler
    on the way to stopping the timer returns: the ETC computation calls
    [toggle_timer], which finalizes the total first, which refreshes the
    display, which runs the ETC computation again. *)
Lemma completion_never_returns (cur : string) (fuel : nat) :
  forall (p : Project) (t c started : Q) (s : App),
    completing cur p t c started s ->
    run fuel (UpdateEtcForProject cur) s = OutOfFuel /\
    run fuel (ToggleTimer (Some cur)) s = OutOfFuel /\
    run fuel (FinalizeInputEditing total_input total_units_attr "Total Work Units" true) s
    = OutOfFuel /\
    run fuel UpdateDisplayFromInputs s = OutOfFuel.
Proof.
  induction fuel as [|n IH]; intros p t c started s K; [repeat split; reflexivity|].
  rewrite !run_S. cbn [handler].
  split; [|split; [|split]].
  - destruct (etc_completing (run n) _ _ _ _ _ _ K) as [E K']. rewrite E.
    apply (IH _ _ _ _ _ K').
  - pose proof (completing_selected _ _ _ _ _ _ K) as Sel.
    pose proof Sel as (C & N & G).
    unfold toggle_timer.
    rewrite (truthy_Some _ N), (dict_mem_get _ _ _ G), (is_current_selected _ _ _ Sel).
    cbn [negb orb].
    destruct (IH _ _ _ _ _ K) as (_ & _ & E & _). rewrite E. reflexivity.
  - destruct (finalize_completing (run n) _ _ _ _ _ _ K) as [E K']. rewrite E.
    apply (IH _ _ _ _ _ K').
  - destruct (display_completing (run n) _ _ _ _ _ _ K) as [E K']. rewrite E.
    apply (IH _ _ _ _ _ K').
Qed.

(** C2 on the code: when the ETC computation finds the selected project
    running at current/total >= 1 - the line edits in step with the
    record, some time elapsed - it never returns, whatever the depth of
    calls allowed, so the timer is not stopped. *)
Theorem etc_completion_of_selected_project_never_returns
  (fuel : nat) (cur : string) (p : Project) (t c started : Q) (s : App) :
  completing cur p t c started s ->
  run fuel (UpdateEtcForProject cur) s = OutOfFuel.
Proof. intro K. apply (completion_never_returns cur fuel p t c started s K). Qed.

(** The same computation on a project that is not the selected one stops
    its timer - elapsed time taken over, start time cleared - changes
    nothing else, and a later poll finds nothing to do. *)
Lemma etc_completion_of_another_project_stops_its_timer
  (n : nat) (key : string) (p : Project) (started : Q) (s : App) :
  dict_get key (projects s) = Some p ->
  id p = key -> key <> "" -> is_current key s = false ->
  start_time p = Some started ->
  completes p (clock s) = true ->
  let s' := update_project key
              (fun q => with_start_time None
                 (with_is_running false
                    (with_elapsed_at_pause (elapsed_at_pause p + (clock s - started)) q))) s in
  run (S (S n)) (UpdateEtcForProject key) s = Returns s' /\
  run (S n) (UpdateEtcForProject key) s' = Returns s'.
Proof.
  intros G I N NC St Cp s'. unfold completes in Cp. rewrite St in Cp.
  apply andb_true_iff in Cp as [Cp Cr]. apply andb_true_iff in Cp as [Cp Cc].
  apply andb_true_iff in Cp as [Run Ct]. apply negb_true_iff in Ct, Cc.
  split.
  - rewrite run_S. cbn [handler]. unfold update_etc_for_project, lookup.
    rewrite G, Run, St, Ct, Cc. cbn [negb].
    destruct (Py.div (current_units p) (total_units p)) as [ratio|]; [|discriminate].
    rewrite Cr. unfold show_etc. rewrite I, NC.
    rewrite run_S. cbn [handler]. unfold toggle_timer.
    rewrite (truthy_Some _ N), (dict_mem_get _ _ _ G), NC.
    cbn [negb orb bind]. unfold lookup. rewrite G, Run, St.
    cbn [negb]. unfold show_button.
    rewrite !is_current_update_project, NC.
    rewrite !is_current_update_project, NC.
    unfold s', update_project. cbn [projects set_projects clock].
    rewrite !dict_update_fuse. reflexivity.
  - rewrite run_S. cbn [handler]. unfold update_etc_for_project, lookup.
    unfold s' at 1. cbn [projects update_project set_projects].
    rewrite dict_get_update_same, G. cbn.
    unfold show_etc. cbn [id with_start_time with_is_running with_elapsed_at_pause].
    rewrite I. replace (is_current key s') with false by (symmetry; exact NC).
    reflexivity.
Qed.

Lemma etc_completion_of_selected_project_never_returns_witness :
  completing "p1" (running_project 100 100) (1000 # 10) (1000 # 10) 0
    (app_showing (running_project 100 100) "100.0" "100.0" 10) /\
  run 1000 (UpdateEtcForProject "p1")
    (app_showing (running_project 100 100) "100.0" "100.0" 10) = OutOfFuel.
Proof.
  assert (K : completing "p1" (running_project 100 100) (1000 # 10) (1000 # 10) 0
                (app_showing (running_project 100 100) "100.0" "100.0" 10)).
  { constructor; try reflexivity.
    - repeat split. discriminate.
    - intro H. discriminate H. }
  split; [exact K|].
  apply (etc_completion_of_selected_project_never_returns 1000 "p1" _ _ _ _ _ K).
Defined.

(** The way into that state: the project runs at 50 of 100 and, 10
    seconds after the start, 100 is typed into the line edit of current.
    The live edit does not return. *)
Lemma typing_the_total_into_current_never_returns (fuel : nat) :
  setText (run fuel) current_input "100"
    (app_showing (running_project 100 50) "100.0" "50.0" 10) = OutOfFuel.
Proof.
  destruct fuel as [|n]; [reflexivity|].
  unfold setText. cbn [text app_showing current_value_input].
  replace (String.eqb "50.0" "100") with false by reflexivity.
  rewrite run_S. cbn [handler].
  rewrite (update_display_selected _ "p1" (running_project 100 50)).
  2:{ repeat split. discriminate. }
  apply (completion_never_returns "p1" n
           (live_record (running_project 100 50)
              (set_text current_input "100"
                 (app_showing (running_project 100 50) "100.0" "50.0" 10)))
           (1000 # 10) 100 0).
  constructor; try reflexivity.
  - repeat split. discriminate.
  - intro H. discriminate H.
Qed.

(** *** C4: a current above the total, finalized while the timer runs *)

Lemma over_typed_finalize_current (self : call -> App -> outcome) :
  self (ToggleTimer (Some "p1")) over_typed_told = OutOfFuel ->
  _finalize_input_editing self current_input current_units_attr "Current Work Units" false
    over_typed = OutOfFuel.
Proof. intro H. vm_compute in H. vm_compute. rewrite H. reflexivity. Qed.

Lemma over_typed_toggle (self : call -> App -> outcome) :
  self (FinalizeInputEditing total_input total_units_attr "Total Work Units" true)
    over_typed_told = OutOfFuel ->
  toggle_timer self (Some "p1") over_typed_told = OutOfFuel.
Proof. intro H. vm_compute in H. vm_compute. rewrite H. reflexivity. Qed.

Lemma over_typed_finalize_total (self : call -> App -> outcome) :
  self UpdateDisplayFromInputs over_typed_raised = OutOfFuel ->
  _finalize_input_editing self total_input total_units_attr "Total Work Units" true
    over_typed_told = OutOfFuel.
Proof. intro H. vm_compute in H. vm_compute. rewrite H. reflexivity. Qed.

Lemma over_typed_raised_completing :
  completing "p1" (running_project 150 150) (1500 # 10) 150 0 over_typed_raised.
Proof.
  constructor; try reflexivity.
  - repeat split. discriminate.
  - intro H. discriminate H.
Qed.

(** C4 on the code: the finalized edit that puts current above total
    while the timer runs reaches [toggle_timer] before the capped value is
    stored, and from there never returns, whatever the depth of calls
    allowed: the timer is not stopped and the capped value is not
    stored. *)
Theorem finalizing_current_above_total_never_returns (fuel : nat) :
  run fuel
    (FinalizeInputEditing current_input current_units_attr "Current Work Units" false)
    over_typed = OutOfFuel.
Proof.
  destruct fuel as [|[|[|n]]]; try reflexivity.
  rewrite run_S. cbn [handler]. apply over_typed_finalize_current.
  rewrite run_S. cbn [handler]. apply over_typed_toggle.
  rewrite run_S. cbn [handler]. apply over_typed_finalize_total.
  apply (completion_never_returns "p1" n _ _ _ _ _ over_typed_raised_completing).
Qed.

(** A finalized current that is in display format, not negative and
    below the total does not stop the timer: the handler returns with the
    value stored and the timer fields untouched. *)
Lemma finalizing_current_below_total_keeps_the_timer
  (n : nat) (cur : string) (p : Project) (v started : Q) (s : App) :
  selected cur p s ->
  is_running p = true ->
  start_time p = Some started ->
  Py.float (current_value_input s) = Some v ->
  Py.is_blank (current_value_input s) = false ->
  Py.format_1f v = current_value_input s ->
  0 <= v -> v <= total_units p ->
  0 < _get_safe_value (total_value_input s) (total_units p) ->
  v < _get_safe_value (total_value_input s) (total_units p) ->
  exists s',
    run (S (S (S n)))
      (FinalizeInputEditing current_input current_units_attr "Current Work Units" false) s
    = Returns s' /\
    dict_get cur (projects s')
    = Some (with_total_units (_get_safe_value (total_value_input s) (total_units p))
              (with_current_units v p)).
Proof.
  intros Sel R St Fl Bl Fm V0 Vt T0 Vlt. pose proof Sel as (C & N & G).
  rewrite run_S. cbn [handler]. unfold _finalize_input_editing, lookup.
  rewrite C, (truthy_Some _ N), G. cbn [text]. rewrite Fl. unfold validate.
  replace (Py.Qlt_bool v 0) with false by (symmetry; apply Qlt_bool_false_iff; exact V0).
  replace (Py.Qlt_bool (total_units p) v) with false
    by (symmetry; apply Qlt_bool_false_iff; exact Vt).
  cbn [bind setattr]. unfold setText.
  change (text current_input (update_project cur (with_current_units v) s))
    with (current_value_input s).
  rewrite Fm, String.eqb_refl. cbn [bind].
  set (s1 := update_project cur (with_current_units v) s).
  assert (Sel1 : selected cur (with_current_units v p) s1).
  { repeat split; [exact C | exact N |]. unfold s1.
    cbn [projects update_project set_projects].
    rewrite dict_get_update_same, G. reflexivity. }
  rewrite run_S. cbn [handler]. rewrite (update_display_selected _ cur _ s1 Sel1).
  assert (Vc : _get_safe_value (current_value_input s1) v = v).
  { change (current_value_input s1) with (current_value_input s).
    unfold _get_safe_value. rewrite Bl, Fl. reflexivity. }
  assert (G2 : dict_get cur (projects (inputs_written cur (with_current_units v p) s1))
               = Some (with_total_units
                         (_get_safe_value (total_value_input s) (total_units p))
                         (with_current_units v p))).
  { rewrite projects_inputs_written, String.eqb_refl by apply Sel1.
    unfold live_record. cbn [current_units with_current_units]. rewrite Vc. reflexivity. }
  destruct (etc_without_completion (run n) cur _ _ G2) as [label E].
  { apply below_total_never_completes; assumption. }
  { intros _. cbn. rewrite St. discriminate. }
  rewrite run_S. cbn [handler]. rewrite E. eexists. split; [reflexivity|].
  rewrite projects_show_etc. exact G2.
Qed.

Lemma finalizing_current_below_total_keeps_running :
  option_map (fun p => (is_running p, start_time p, Qeq_bool (current_units p) 60))
    (record_of "p1"
       (returned
          (run 3 (FinalizeInputEditing current_input current_units_attr
                    "Current Work Units" false)
             (app_showing (running_project 100 60) "100.0" "60" 10))))
  = Some (true, Some 0, true).
Proof. vm_compute. reflexivity. Qed.

(** ** C5: the ETC label of a stopped project *)

(** C5 on the code: a project that is not running and has no start time
    is shown with no estimate, whatever elapsed time it has accumulated;
    the paused display is kept for a stopped project that still has a
    start time. *)
Theorem stopped_project_shows_no_estimate
  (self : call -> App -> outcome) (key : string) (p : Project) (s : App) :
  dict_get key (projects s) = Some p ->
  is_running p = false ->
  start_time p = None ->
  is_current (id p) s = true ->
  update_etc_for_project self key s = Returns (set_etc_label "ETC: --:--:--" s).
Proof.
  intros G R St I. unfold update_etc_for_project, lookup, show_etc.
  rewrite G, R, St, I. reflexivity.
Qed.

(** Stopping the timer clears the start time, so the stop itself already
    ends on the label without estimate. *)
Lemma stopping_after_ten_seconds :
  run 4 (ToggleTimer None) (app_showing (running_project 100 50) "100.0" "50.0" 10)
  = Returns paused_app.
Proof. vm_compute. reflexivity. Qed.

Lemma stopped_project_shows_no_estimate_witness :
  dict_get "p1" (projects paused_app) = Some paused_project /\
  update_etc_for_project (run 1) "p1" paused_app
  = Returns (set_etc_label "ETC: --:--:--" paused_app).
Proof.
  split; [reflexivity|].
  apply (stopped_project_shows_no_estimate (run 1) "p1" paused_project paused_app);
    reflexivity.
Defined.

(** ** Counterexamples and instances *)

(** C1: with current -5 and total 100 the percentage on display is -5,
    below the range [0, 100]; the label reads -5.0%. *)
Lemma negative_current_shows_negative_percentage :
  Py.Qlt_bool (shown_percentage (-5) 100) 0 = true /\
  Qeq_bool (shown_percentage (-5) 100) (-5) = true /\
  option_map percentage_label
    (returned (setText (run 3) current_input "-5"
                 (app_showing (idle_project 100 0) "100.0" "0.0" 0)))
  = Some "-5.0%".
Proof. split; [|split]; vm_compute; reflexivity. Qed.

(** C3: the line edit of current holds 2000000, stored by the live edit,
    above the total 100.  The toggle is rejected - the timer does not
    start and a dialog is shown - and yet the total of the project is no
    longer 100 but 2000000. *)
Lemma rejected_start_changes_the_total :
  option_map (fun p => (is_running p, start_time p, Qeq_bool (total_units p) 2000000))
    (record_of "p1"
       (returned (run 4 (ToggleTimer None)
                    (app_showing (idle_project 100 2000000) "100.0" "2000000" 0))))
  = Some (false, None, true) /\
  option_map (fun s => map dialog_title (dialogs s))
    (returned (run 4 (ToggleTimer None)
                 (app_showing (idle_project 100 2000000) "100.0" "2000000" 0)))
  = Some ["Input Error"; "Timer Info"].
Proof. split; vm_compute; reflexivity. Qed.

(** C3: the selected project is stopped at 50 of 100; the button is
    clicked at time 7.  The project is still stopped, a dialog was shown;
    the call [toggle_timer()] on the same application starts the
    timer. *)
Lemma a_click_is_rejected_where_the_call_starts_the_timer :
  option_map (fun p => (is_running p, start_time p))
    (record_of "p1"
       (returned (run 4 (StartTimerButtonClicked false)
                    (app_showing (idle_project 100 50) "100.0" "50.0" 7))))
  = Some (false, None) /\
  option_map (fun s => map dialog_title (dialogs s))
    (returned (run 4 (StartTimerButtonClicked false)
                 (app_showing (idle_project 100 50) "100.0" "50.0" 7)))
  = Some ["Timer Control"] /\
  option_map (fun p => (is_running p, start_time p))
    (record_of "p1"
       (returned (run 4 (ToggleTimer None)
                    (app_showing (idle_project 100 50) "100.0" "50.0" 7))))
  = Some (true, Some 7).
Proof. split; [|split]; vm_compute; reflexivity. Qed.

(** C10: the project is complete and still running; the current line
    edit is cleared.  The live edit keeps the previous current, the ETC
    computation that follows reaches its completion rule, and the handler
    returns with the timer stopped, the elapsed time taken over, and total
    and current at 0.0, the text that finalization left in the line
    edits. *)
Lemma clearing_current_of_complete_project_stops_the_timer :
  option_map
    (fun p => (is_running p, start_time p, Qeq_bool (elapsed_at_pause p) 10,
               Qeq_bool (total_units p) 0, Qeq_bool (current_units p) 0))
    (record_of "p1" (returned (setText (run 7) current_input "" tiny_complete)))
  = Some (false, None, true, true, true).
Proof. vm_compute. reflexivity. Qed.

(** Selection is a live edit too: putting the total of the newly selected
    project in its line edit stores the current of the line edit, still
    that of the previous display, in the project. *)
Lemma selecting_a_project_overwrites_its_current :
  option_map (fun p => Qeq_bool (current_units p) (75 # 2)) (dict_get "a" (projects just_loaded))
  = Some true /\
  option_map (fun p => (Qeq_bool (total_units p) 120, Qeq_bool (current_units p) 0))
    (record_of "a" (returned (run 4 (SelectProjectFromList (Some 0%nat)) just_loaded)))
  = Some (true, true).
Proof. split; vm_compute; reflexivity. Qed.

Lemma live_edit_writes_the_raw_values_witness :
  selected "p1" (idle_project 100 0) (app_showing (idle_project 100 0) "100.0" "0.0" 0) /\
  exists s',
    setText (run 2) current_input "150" (app_showing (idle_project 100 0) "100.0" "0.0" 0)
    = Returns s' /\
    dict_get "p1" (projects s')
    = Some (with_total_units (_get_safe_value "100.0" 100)
              (with_current_units (_get_safe_value "150" 0) (idle_project 100 0))) /\
    Py.Qlt_bool (_get_safe_value "100.0" 100) (_get_safe_value "150" 0) = true.
Proof.
  assert (Sel : selected "p1" (idle_project 100 0)
                  (app_showing (idle_project 100 0) "100.0" "0.0" 0)).
  { repeat split. discriminate. }
  split; [exact Sel|].
  destruct (live_edit_writes_the_raw_values 0 current_input "150" "p1" (idle_project 100 0)
              (app_showing (idle_project 100 0) "100.0" "0.0" 0) Sel)
    as (_ & Quiet & _); [discriminate|].
  destruct Quiet as (s' & E & G & _); [reflexivity | discriminate |].
  exists s'. split; [exact E|]. split; [exact G|]. reflexivity.
Defined.

(** ** C6: the running flag and the start time *)

Lemma dict_ok_update_keep (k : string) (f : Project -> Project) (d : dict) :
  (forall p, timer_ok p -> timer_ok (f p)) -> dict_ok d -> dict_ok (dict_update k f d).
Proof.
  intros F D. unfold dict_ok, dict_update. rewrite Forall_map.
  eapply Forall_impl; [|exact D]. intros [k0 v] H. simpl in *.
  destruct (String.eqb k0 k); simpl; auto.
Qed.

Lemma dict_ok_update_set (k : string) (f : Project -> Project) (d : dict) :
  (forall p, timer_ok (f p)) -> dict_ok d -> dict_ok (dict_update k f d).
Proof. intros F. apply dict_ok_update_keep. intros p _. apply F. Qed.

Lemma dict_ok_set (k : string) (v : Project) (d : dict) :
  timer_ok v -> dict_ok d -> dict_ok (dict_set k v d).
Proof.
  intros V D. induction D as [|[k0 v0] d H D IH]; simpl.
  - repeat constructor. exact V.
  - destruct (String.eqb k0 k); constructor; assumption.
Qed.

Lemma safe_bind (o : outcome) (k : App -> outcome) :
  safe o -> (forall s, store_ok s -> safe (k s)) -> safe (bind o k).
Proof. destruct o; simpl; auto. Qed.

Lemma safe_lookup (k : string) (s : App) (cont : Project -> outcome) :
  (forall p, safe (cont p)) -> safe (lookup k s cont).
Proof. intro H. unfold lookup. destruct (dict_get k (projects s)); [apply H | exact I]. Qed.

Lemma store_ok_show_etc (p : Project) (t : string) (s : App) :
  store_ok s -> store_ok (show_etc p t s).
Proof. unfold store_ok. rewrite projects_show_etc. auto. Qed.

Lemma store_ok_show_button (k t : string) (s : App) :
  store_ok s -> store_ok (show_button k t s).
Proof. unfold store_ok. rewrite projects_show_button. auto. Qed.

Lemma store_ok_progress_bar (v : Z) (s : App) :
  store_ok s -> store_ok (progress_bar_setValue v s).
Proof. unfold store_ok. rewrite projects_progress_bar_setValue. auto. Qed.

Lemma store_ok_update_keep (k : string) (f : Project -> Project) (s : App) :
  (forall p, timer_ok p -> timer_ok (f p)) -> store_ok s -> store_ok (update_project k f s).
Proof. intros F H. apply dict_ok_update_keep; assumption. Qed.

Lemma update_project_fuse (k : string) (f g : Project -> Project) (s : App) :
  update_project k g (update_project k f s) = update_project k (fun p => g (f p)) s.
Proof.
  unfold update_project. cbn [projects set_projects]. rewrite dict_update_fuse. reflexivity.
Qed.

Lemma store_ok_update_set (k : string) (f : Project -> Project) (s : App) :
  (forall p, timer_ok (f p)) -> store_ok s -> store_ok (update_project k f s).
Proof. intros F H. apply dict_ok_update_set; assumption. Qed.

Section Preservation.

Variable self : call -> App -> outcome.
Hypothesis self_safe : forall c s, store_ok s -> safe (self c s).

Lemma setText_safe (w : line_edit) (t : string) (s : App) :
  store_ok s -> safe (setText self w t s).
Proof.
  intro H. unfold setText. destruct (String.eqb _ _); [exact H|].
  apply self_safe. destruct w; exact H.
Qed.

Lemma name_setText_safe (t : string) (s : App) :
  store_ok s -> safe (name_setText self t s).
Proof.
  intro H. unfold name_setText. destruct (String.eqb _ _); [exact H|].
  apply self_safe. exact H.
Qed.

Lemma description_setText_safe (t : string) (s : App) :
  store_ok s -> safe (description_setText self t s).
Proof. intro H. apply self_safe. exact H. Qed.

Ltac store_step :=
  match goal with
  | |- store_ok (show_etc _ _ _) => apply store_ok_show_etc
  | |- store_ok (show_button _ _ _) => apply store_ok_show_button
  | |- store_ok (progress_bar_setValue _ _) => apply store_ok_progress_bar
  | |- store_ok (update_project _ _ (update_project _ _ _)) => rewrite update_project_fuse
  | |- store_ok (update_project _ _ _) =>
      first [ apply store_ok_update_set; [intro; reflexivity|]
            | apply store_ok_update_keep; [intros ? Hkeep; exact Hkeep|] ]
  | |- store_ok (message_box _ _ _ ?s) => change (store_ok s)
  | |- store_ok (set_text _ _ ?s) => change (dict_ok (projects s)); fold (store_ok s)
  | |- store_ok (match ?x with _ => _ end) => destruct x
  | |- store_ok (?f ?v ?s) => change (store_ok s)
  end.

Ltac safe_step :=
  match goal with
  | |- safe (Returns _) => cbn [safe]
  | |- safe (Raises _) => exact I
  | |- safe OutOfFuel => exact I
  | |- safe (bind _ _) => apply safe_bind; [|intros ? ?]
  | |- safe (lookup _ _ _) => apply safe_lookup; intro
  | |- safe (self _ _) => apply self_safe
  | |- safe (setText _ _ _ _) => apply setText_safe
  | |- safe (name_setText _ _ _) => apply name_setText_safe
  | |- safe (description_setText _ _ _) => apply description_setText_safe
  | |- safe (match ?x with _ => _ end) => destruct x
  | |- store_ok _ => first [assumption | store_step]
  | |- True => exact I
  end.

Ltac safe_tac := repeat safe_step.

Lemma on_project_name_changed_safe (s : App) :
  store_ok s -> safe (_on_project_name_changed s).
Proof. intro H. unfold _on_project_name_changed. safe_tac. Qed.

Lemma on_project_description_changed_safe (s : App) :
  store_ok s -> safe (_on_project_description_changed s).
Proof. intro H. unfold _on_project_description_changed. safe_tac. Qed.

Lemma update_etc_for_project_safe (key : string) (s : App) :
  store_ok s -> safe (update_etc_for_project self key s).
Proof. intro H. unfold update_etc_for_project. safe_tac. Qed.

Lemma for_each_project_safe (keys : list string) (s : App) :
  store_ok s -> safe (for_each_project self keys s).
Proof.
  revert s. induction keys as [|k keys IH]; intros s H; simpl; [exact H|].
  apply safe_bind; [apply self_safe, H | exact IH].
Qed.

Lemma update_display_from_inputs_safe (s : App) :
  store_ok s -> safe (_update_display_from_inputs self s).
Proof. intro H. unfold _update_display_from_inputs. safe_tac. Qed.

Lemma validate_safe (project : Project) (a : attr) (field_name : string)
  (is_total : bool) (value : Q) (s : App) :
  store_ok s -> safe (snd (validate self project a field_name is_total value s)).
Proof.
  intro H. unfold validate.
  repeat match goal with
    | |- context [if ?b then _ else _] => destruct b
    end; cbn [snd]; safe_tac.
Qed.

Lemma store_ok_setattr (k : string) (a : attr) (v : Q) (s : App) :
  store_ok s -> store_ok (update_project k (setattr a v) s).
Proof. intro H. apply store_ok_update_keep; [|exact H]. intros p K. destruct a; exact K. Qed.

Lemma finalize_input_editing_safe (w : line_edit) (a : attr) (field_name : string)
  (is_total : bool) (s : App) :
  store_ok s -> safe (_finalize_input_editing self w a field_name is_total s).
Proof.
  intro H. unfold _finalize_input_editing.
  destruct (current_project_id s) as [cur|]; [|exact H].
  destruct (truthy (Some cur)); [|exact H].
  apply safe_lookup. intro project.
  apply safe_bind; [|intros; apply self_safe; assumption].
  destruct (Py.float (text w s)) as [value|].
  - pose proof (validate_safe project a field_name is_total value s H) as V.
    destruct (validate self project a field_name is_total value s) as [value' validated].
    cbn [snd] in V. apply safe_bind; [exact V|].
    intros s1 H1. apply setText_safe, store_ok_setattr, H1.
  - apply setText_safe. destruct (negb _); safe_tac.
Qed.

Lemma toggle_timer_safe (project_id : option string) (s : App) :
  store_ok s -> safe (toggle_timer self project_id s).
Proof.
  intro H. unfold toggle_timer.
  destruct (match project_id with None => current_project_id s | Some k => Some k end)
    as [pid|]; [|exact H].
  destruct (_ || _)%bool; [exact H|].
  apply safe_bind.
  - destruct (is_current pid s); [|exact H]. safe_tac.
  - intros s1 H1. apply safe_lookup. intro project.
    destruct (negb (is_running project)); safe_tac.
Qed.

Lemma reset_selected_project_safe (s : App) :
  store_ok s -> safe (reset_selected_project self s).
Proof. intro H. unfold reset_selected_project. safe_tac. Qed.

Lemma select_project_from_list_safe (item : option nat) (s : App) :
  store_ok s -> safe (select_project_from_list self item s).
Proof.
  intro H. unfold select_project_from_list.
  destruct item as [row|]; [|safe_tac].
  destruct (nth_error (list_items s) row) as [[label project_id]|]; [|exact H].
  destruct (is_current project_id s); [exact H|]. safe_tac.
Qed.

Lemma add_new_project_safe (s : App) :
  store_ok s -> safe (add_new_project self s).
Proof.
  intro H. unfold add_new_project. apply self_safe.
  apply dict_ok_set; [reflexivity | exact H].
Qed.

Lemma handler_safe (c : call) (s : App) : store_ok s -> safe (handler self c s).
Proof.
  intro H. destruct c; cbn [handler].
  - apply on_project_name_changed_safe, H.
  - apply on_project_description_changed_safe, H.
  - apply finalize_input_editing_safe, H.
  - apply update_display_from_inputs_safe, H.
  - apply update_etc_for_project_safe, H.
  - apply for_each_project_safe, H.
  - apply toggle_timer_safe, H.
  - destruct checked; exact H.
  - apply reset_selected_project_safe, H.
  - apply add_new_project_safe, H.
  - apply select_project_from_list_safe, H.
Qed.

End Preservation.

Lemma run_safe (fuel : nat) (c : call) (s : App) : store_ok s -> safe (run fuel c s).
Proof.
  revert c s. induction fuel as [|n IH]; intros c s H; [exact I|].
  rewrite run_S. apply handler_safe; assumption.
Qed.

Lemma load_loop_ok (items : list json) (s : App) :
  Forall record_ok items -> store_ok s ->
  match load_loop items s with
  | Loaded s' => store_ok s'
  | _ => True
  end.
Proof.
  intro F. revert s. induction F as [|j items Hj F IH]; intros s H; simpl; [exact H|].
  destruct j; try exact I.
  destruct (project_of_json _ fields) as [project|] eqn:E; [|exact I].
  apply IH. apply dict_ok_set; [|exact H]. exact (Hj _ _ E).
Qed.

Lemma load_projects_ok (f : file) (s s' : App) :
  file_ok f -> store_ok s -> load_projects f s = Some s' -> store_ok s'.
Proof.
  intros F H L. destruct f as [|e| |raw_data]; simpl in L.
  - injection L as <-. exact H.
  - injection L as <-. constructor.
  - injection L as <-. constructor.
  - destruct (load_raw raw_data s) as [s1|e s1|] eqn:R; [| |discriminate].
    + injection L as <-. destruct raw_data; simpl in R; try discriminate.
      * destruct t; [injection R as <-; exact H | discriminate].
      * pose proof (load_loop_ok items s F H) as K. rewrite R in K. exact K.
      * destruct fields; [injection R as <-; exact H | discriminate].
    + injection L as <-. constructor.
Qed.

Lemma saved_file_ok (before : file) (s : App) :
  store_ok s -> file_ok (fst (save_projects None before s)).
Proof.
  intro H. simpl. unfold dict_values. rewrite !Forall_map.
  eapply Forall_impl; [|exact H]. intros [k p] K fresh q E. simpl in *.
  pose proof (project_of_json_asdict fresh p) as A. simpl in A.
  rewrite A in E. injection E as <-. exact K.
Qed.

(** C6, as the code has it: a project runs exactly when it has a start
    time, and every handler - creating a project, toggling a timer,
    resetting, live and finalized edits, selecting, the poll - keeps it
    so whenever it returns.  Loading copies is_running and start_time
    from the file as they are, so it keeps the invariant for the files
    whose records satisfy it, among them every file the application
    saved from a store that satisfies it. *)
Theorem handlers_preserve_timer_invariant :
  (forall fuel c s s', store_ok s -> run fuel c s = Returns s' -> store_ok s') /\
  (forall fuel w t s s',
      store_ok s -> setText (run fuel) w t s = Returns s' -> store_ok s') /\
  (forall f s s', file_ok f -> store_ok s -> load_projects f s = Some s' -> store_ok s') /\
  (forall before s, store_ok s -> file_ok (fst (save_projects None before s))) /\
  (forall now supply plain, store_ok (init_ui now supply plain)).
Proof.
  split; [|split; [|split; [|split]]].
  - intros fuel c s s' H E. pose proof (run_safe fuel c s H) as K.
    rewrite E in K. exact K.
  - intros fuel w t s s' H E.
    pose proof (setText_safe (run fuel) (run_safe fuel) w t s H) as K.
    rewrite E in K. exact K.
  - exact load_projects_ok.
  - exact saved_file_ok.
  - intros. constructor.
Qed.

Lemma handlers_preserve_timer_invariant_witness :
  store_ok (app_showing (idle_project 100 50) "100.0" "50.0" 7) /\
  exists s',
    run 4 (ToggleTimer None) (app_showing (idle_project 100 50) "100.0" "50.0" 7)
    = Returns s' /\
    store_ok s'.
Proof.
  assert (H : store_ok (app_showing (idle_project 100 50) "100.0" "50.0" 7))
    by (repeat constructor).
  split; [exact H|].
  eexists. split; [vm_compute; reflexivity|].
  apply (proj1 handlers_preserve_timer_invariant 4%nat (ToggleTimer None)
           (app_showing (idle_project 100 50) "100.0" "50.0" 7) _ H).
  vm_compute. reflexivity.
Defined.

(** C6: the file [[{"is_running": true}]] loads, at startup, as a project
    that runs and has no start time. *)
Lemma loading_a_running_project_without_start_time :
  option_map
    (fun s => map (fun kv => (is_running (snd kv), start_time (snd kv))) (projects s))
    (load_projects (Content (JArr [JObj [("is_running", JBool true)]]))
       (init_ui 0 (fun _ => "u") (fun t => t)))
  = Some [(true, None)].
Proof. reflexivity. Qed.

(** * Further properties of the handlers *)

(** ** [format_time] *)

Lemma Qfloor_unique (y : Q) (z : Z) :
  inject_Z z <= y -> y < inject_Z (z + 1) -> Qfloor y = z.
Proof.
  intros L U. apply Z.le_antisymm.
  - apply Z.lt_succ_r. rewrite Zlt_Qlt.
    apply Qle_lt_trans with y; [apply Qfloor_le | exact U].
  - rewrite <- (Qfloor_Z z). apply Qfloor_resp_le, L.
Qed.

Lemma Qfloor_div_pos (x : Q) (n : Z) :
  (0 < n)%Z -> Qfloor (x / (n # 1)) = (Qfloor x / n)%Z.
Proof.
  intro N. change (n # 1) with (inject_Z n). apply Qfloor_unique.
  - apply Qle_shift_div_l; [rewrite <- (Zlt_Qlt 0); exact N|].
    apply Qle_trans with (inject_Z (Qfloor x)); [|apply Qfloor_le].
    rewrite <- inject_Z_mult, <- Zle_Qle. rewrite Z.mul_comm. apply Z.mul_div_le, N.
  - apply Qlt_shift_div_r; [rewrite <- (Zlt_Qlt 0); exact N|].
    apply Qlt_le_trans with (inject_Z (Qfloor x + 1)); [apply Qlt_floor|].
    rewrite <- inject_Z_mult, <- Zle_Qle.
    pose proof (Z.mul_succ_div_gt (Qfloor x) n N). lia.
Qed.

Lemma inject_Z_minus (a b : Z) : inject_Z (a - b) = inject_Z a - inject_Z b.
Proof. unfold Z.sub, Qminus. rewrite inject_Z_plus, inject_Z_opp. reflexivity. Qed.

Lemma Qfloor_minus_Z (x : Q) (k : Z) : Qfloor (x - inject_Z k) = (Qfloor x - k)%Z.
Proof.
  apply Qfloor_unique.
  - rewrite inject_Z_minus. apply Qplus_le_l. apply Qfloor_le.
  - replace (Qfloor x - k + 1)%Z with ((Qfloor x + 1) - k)%Z by ring.
    rewrite inject_Z_minus. apply Qplus_lt_l. apply Qlt_floor.
Qed.

Lemma Qfloor_minus_mult (x : Q) (k n : Z) :
  Qfloor (x - inject_Z k * (n # 1)) = (Qfloor x - k * n)%Z.
Proof.
  change (n # 1) with (inject_Z n). rewrite <- inject_Z_mult. apply Qfloor_minus_Z.
Qed.

Lemma py_int_nonneg (y : Q) : 0 <= y -> Py.int y = Qfloor y.
Proof.
  destruct y as [a d]. unfold Qle, Py.int, Qfloor. simpl. intro H.
  apply Z.quot_div_nonneg; lia.
Qed.

(** X1: a negative duration is shown as dashes; any other duration by the
    hours, minutes and seconds of its whole seconds - the fraction is
    dropped, minutes and seconds stay below 60, the hours are unbounded. *)
Theorem format_time_fields (seconds : Q) :
  (seconds < 0 -> format_time seconds = "--:--:--") /\
  (0 <= seconds ->
   let whole := Qfloor seconds in
   format_time seconds
   = Py.format_02d (whole / 3600) ++ ":"
       ++ Py.format_02d ((whole mod 3600) / 60) ++ ":"
       ++ Py.format_02d (whole mod 60)
   /\ (0 <= whole / 3600)%Z
   /\ (0 <= (whole mod 3600) / 60 < 60)%Z
   /\ (0 <= whole mod 60 < 60)%Z
   /\ (whole = 3600 * (whole / 3600) + 60 * ((whole mod 3600) / 60) + whole mod 60)%Z).
Proof.
  split.
  - intro H. unfold format_time. apply Qlt_bool_iff in H. rewrite H. reflexivity.
  - intros H whole.
    assert (W : (0 <= whole)%Z).
    { unfold whole. rewrite <- (Qfloor_Z 0). apply Qfloor_resp_le, H. }
    split; [|repeat split].
    + unfold format_time. apply Qlt_bool_false_iff in H. rewrite H.
      unfold Py.mod_, Py.floordiv.
      rewrite !Qfloor_div_pos by lia. rewrite Qfloor_minus_mult. fold whole.
      rewrite py_int_nonneg.
      2:{ change (60 : Q) with (inject_Z 60). rewrite <- inject_Z_mult.
          apply Qle_trans with (inject_Z whole - inject_Z (whole / 60 * 60)).
          - rewrite <- inject_Z_minus, <- (Zle_Qle 0).
            pose proof (Z.mul_div_le whole 60). lia.
          - apply Qplus_le_l. apply Qfloor_le. }
      rewrite Qfloor_minus_mult. fold whole.
      replace (whole - whole / 3600 * 3600)%Z with (whole mod 3600)%Z
        by (rewrite Z.mod_eq by lia; ring).
      replace (whole - whole / 60 * 60)%Z with (whole mod 60)%Z
        by (rewrite Z.mod_eq by lia; ring).
      reflexivity.
    + apply Z.div_pos; lia.
    + apply Z.div_pos; [apply Z.mod_pos_bound|]; lia.
    + apply Z.div_lt_upper_bound; [lia|]. pose proof (Z.mod_pos_bound whole 3600). lia.
    + apply Z.mod_pos_bound. lia.
    + apply Z.mod_pos_bound. lia.
    + pose proof (Z.div_mod whole 3600). pose proof (Z.div_mod (whole mod 3600) 60).
      assert ((whole mod 3600) mod 60 = whole mod 60)%Z.
      { rewrite (Z.mod_eq whole 3600) by lia.
        replace (whole - 3600 * (whole / 3600))%Z with (whole + (- 60 * (whole/3600)) * 60)%Z by ring.
        apply Z.mod_add. lia. }
      lia.
Qed.

(** ** The ETC computation and the poll *)

(** X2: for a running project with 0 < current < total and some time
    elapsed the ETC computation changes nothing but the ETC label of the
    selected project, which shows the remaining time at the rate so far:
    (total - current) * elapsed / current. *)
Theorem etc_estimate_at_the_rate_so_far
  (self : call -> App -> outcome) (key : string) (p : Project) (started : Q) (s : App) :
  dict_get key (projects s) = Some p ->
  is_running p = true ->
  start_time p = Some started ->
  0 < current_units p -> current_units p < total_units p ->
  ~ elapsed_at_pause p + (clock s - started) == 0 ->
  let elapsed := elapsed_at_pause p + (clock s - started) in
  let remaining := (total_units p - current_units p) / (current_units p / elapsed) in
  update_etc_for_project self key s
  = Returns (show_etc p ("ETC: " ++ format_time remaining) s) /\
  remaining == (total_units p - current_units p) * elapsed / current_units p.
Proof.
  intros G R St C0 Ct El elapsed remaining.
  assert (T0 : 0 < total_units p) by lra.
  split.
  - unfold update_etc_for_project, lookup. rewrite G, R, St. cbn [negb].
    replace (Qle_bool (total_units p) 0) with false
      by (symmetry; apply Qle_bool_false_iff; exact T0).
    rewrite (isclose_zero (current_units p)) by lra.
    rewrite (isclose_zero _ El). cbn [orb].
    unfold Py.div.
    replace (Qeq_bool (total_units p) 0) with false.
    2:{ symmetry. destruct (Qeq_bool (total_units p) 0) eqn:E; [|reflexivity].
        apply Qeq_bool_iff in E. lra. }
    replace (Qle_bool 1 (current_units p / total_units p)) with false.
    2:{ symmetry. apply Qle_bool_false_iff.
        apply Qlt_shift_div_r; [exact T0 | lra]. }
    replace (Py.Qlt_bool 0 (current_units p / total_units p)) with true.
    2:{ symmetry. apply Qlt_bool_iff. apply Qlt_shift_div_l; [exact T0 | lra]. }
    fold elapsed.
    replace (Qeq_bool elapsed 0) with false.
    2:{ symmetry. destruct (Qeq_bool elapsed 0) eqn:E; [|reflexivity].
        apply Qeq_bool_iff in E. contradiction. }
    replace (Qeq_bool (current_units p / elapsed) 0) with false.
    2:{ symmetry. destruct (Qeq_bool (current_units p / elapsed) 0) eqn:E; [|reflexivity].
        apply Qeq_bool_iff in E. exfalso.
        assert (Z : current_units p == 0).
        { setoid_replace (current_units p) with (current_units p / elapsed * elapsed)
            by (field; exact El).
          rewrite E. ring. }
        lra. }
    reflexivity.
  - unfold remaining. field. split; [lra | exact El].
Qed.

Lemma beside_etc_label_show_etc (p : Project) (t : string) (s : App) :
  beside_etc_label (show_etc p t s) = beside_etc_label s.
Proof. unfold show_etc. destruct (is_current _ _); reflexivity. Qed.

Lemma dict_get_key (k : string) (d : dict) :
  In k (map fst d) -> exists p, dict_get k d = Some p.
Proof.
  induction d as [|[k0 v] d IH]; simpl; [tauto|].
  intros [E|I].
  - subst. rewrite String.eqb_refl. eauto.
  - destruct (String.eqb k0 k); eauto.
Qed.

Lemma for_each_without_completion (n : nat) (keys : list string) (s0 s : App) :
  no_completion s0 ->
  beside_etc_label s = beside_etc_label s0 ->
  (forall k, In k keys -> In k (map fst (projects s0))) ->
  exists s',
    for_each_project (run (S n)) keys s = Returns s' /\
    beside_etc_label s' = beside_etc_label s0.
Proof.
  intros N. revert s. induction keys as [|k keys IH]; intros s B K; cbn [for_each_project].
  - eauto.
  - assert (P : projects s = projects s0 /\ clock s = clock s0)
      by (injection B; intros; split; congruence).
    destruct P as [P T].
    destruct (dict_get_key k (projects s0)) as [p G]; [apply K; left; reflexivity|].
    destruct (N k p G) as [C R].
    destruct (etc_without_completion (run n) k p s) as [t E]; [congruence | congruence | exact R |].
    rewrite run_S. cbn [handler]. rewrite E. cbn [bind].
    apply IH.
    + rewrite beside_etc_label_show_etc. exact B.
    + intros k' I. apply K. right. exact I.
Qed.

(** X3: a poll over a store in which no project is about to complete
    returns and changes nothing but the ETC label: no project, no line
    edit, no dialog. *)
Theorem poll_without_completion_only_relabels (n : nat) (s : App) :
  no_completion s ->
  exists s',
    run (S (S n)) UpdateAllEtcs s = Returns s' /\
    beside_etc_label s' = beside_etc_label s.
Proof.
  intro N. rewrite run_S. cbn [handler]. unfold update_all_etcs.
  apply (for_each_without_completion n _ s s N eq_refl). auto.
Qed.

Lemma etc_estimate_at_the_rate_so_far_witness :
  let p := running_project 100 50 in
  let s := app_showing p "100.0" "50.0" 10 in
  update_etc_for_project (run 0) "p1" s = Returns (show_etc p "ETC: 00:00:10" s).
Proof.
  intros p s.
  assert (N : ~ elapsed_at_pause p + (clock s - 0) == 0)
    by (intro H; vm_compute in H; discriminate).
  exact (proj1 (etc_estimate_at_the_rate_so_far (run 0) "p1" p 0 s
                  eq_refl eq_refl eq_refl eq_refl eq_refl N)).
Defined.

Lemma poll_without_completion_only_relabels_witness :
  exists s', run 2 UpdateAllEtcs just_loaded = Returns s' /\
             beside_etc_label s' = beside_etc_label just_loaded.
Proof.
  apply (poll_without_completion_only_relabels 0 just_loaded).
  intros k p G. unfold just_loaded, two_projects in G. cbn [projects dict_get] in G.
  destruct (String.eqb "a" k);
    [injection G as <-; split; [vm_compute; reflexivity | discriminate]|].
  destruct (String.eqb "b" k);
    [injection G as <-; split; [vm_compute; reflexivity | discriminate]|].
  discriminate.
Defined.

(** ** The shape of the store and of the list widget *)

Lemma well_keyed_update (k : string) (f : Project -> Project) (d : dict) :
  (forall p, id (f p) = id p) -> well_keyed d -> well_keyed (dict_update k f d).
Proof.
  intros F [N K]. split.
  - unfold dict_update. rewrite map_map.
    erewrite map_ext; [exact N|]. intros [k0 v]. simpl.
    destruct (String.eqb k0 k); reflexivity.
  - unfold dict_update. rewrite Forall_map.
    eapply Forall_impl; [|exact K]. intros [k0 v] H. simpl in *.
    destruct (String.eqb k0 k); simpl; [rewrite F|]; exact H.
Qed.

Lemma dict_update_same_keys (k : string) (f : Project -> Project) (d : dict) :
  map fst (dict_update k f d) = map fst d.
Proof.
  unfold dict_update. rewrite map_map. apply map_ext.
  intros [k0 v]. simpl. destruct (String.eqb k0 k); reflexivity.
Qed.

Lemma dict_set_keys (k : string) (v : Project) (d : dict) :
  map fst (dict_set k v d) = if dict_mem k d then map fst d else (map fst d ++ [k])%list.
Proof.
  unfold dict_mem. induction d as [|[k0 v0] d IH]; simpl; [reflexivity|].
  destruct (String.eqb k0 k) eqn:E; simpl; [reflexivity|].
  rewrite IH. destruct (dict_get k d); reflexivity.
Qed.

Lemma dict_mem_false (k : string) (d : dict) :
  dict_mem k d = false -> ~ In k (map fst d).
Proof.
  unfold dict_mem. induction d as [|[k0 v0] d IH]; simpl; [tauto|].
  destruct (String.eqb k0 k) eqn:E; [discriminate|].
  intros H [Q|Q]; [subst; rewrite String.eqb_refl in E; discriminate | tauto].
Qed.

Lemma dict_set_in_keys (k : string) (v : Project) (d : dict) (k' : string) :
  In k' (map fst d) \/ k' = k -> In k' (map fst (dict_set k v d)).
Proof.
  rewrite dict_set_keys. intros [H|H].
  - destruct (dict_mem k d); [exact H | apply in_or_app; left; exact H].
  - subst. destruct (dict_mem k d) eqn:M; [|apply in_or_app; right; left; reflexivity].
    unfold dict_mem in M. destruct (dict_get k d) as [p|] eqn:G; [|discriminate].
    clear M. induction d as [|[k0 v0] d IH]; simpl in *; [discriminate|].
    destruct (String.eqb k0 k) eqn:E; [left; apply String.eqb_eq, E | right; auto].
Qed.

Lemma well_keyed_set (v : Project) (d : dict) :
  well_keyed d -> well_keyed (dict_set (id v) v d).
Proof.
  intros [N K]. split.
  - rewrite dict_set_keys. destruct (dict_mem (id v) d) eqn:M; [exact N|].
    apply NoDup_app; [exact N | repeat constructor; simpl; tauto |].
    intros k I [E|[]]. subst. exact (dict_mem_false _ _ M I).
  - clear N. induction K as [|[k0 v0] d H K IH]; simpl.
    + repeat constructor.
    + destruct (String.eqb k0 (id v)) eqn:E; constructor; try assumption.
      apply String.eqb_eq in E. exact E.
Qed.

Lemma shape_ok_widgets (s s' : App) :
  projects s' = projects s -> list_items s' = list_items s -> shape_ok s -> shape_ok s'.
Proof. intros P L [W I]. unfold shape_ok, items_ok. rewrite P, L. split; assumption. Qed.

Lemma shape_ok_update (k : string) (f : Project -> Project) (s : App) :
  (forall p, id (f p) = id p) -> shape_ok s -> shape_ok (update_project k f s).
Proof.
  intros F [W I]. split.
  - apply well_keyed_update; assumption.
  - intros label k' H. cbn. rewrite dict_update_same_keys. exact (I label k' H).
Qed.

Lemma shape_ok_show_etc (p : Project) (t : string) (s : App) :
  shape_ok s -> shape_ok (show_etc p t s).
Proof. unfold show_etc. destruct (is_current _ _); [apply shape_ok_widgets; reflexivity | auto]. Qed.

Lemma shape_ok_show_button (k t : string) (s : App) :
  shape_ok s -> shape_ok (show_button k t s).
Proof.
  unfold show_button. destruct (is_current _ _); [apply shape_ok_widgets; reflexivity | auto].
Qed.

Lemma shape_ok_progress_bar (v : Z) (s : App) :
  shape_ok s -> shape_ok (progress_bar_setValue v s).
Proof.
  unfold progress_bar_setValue. destruct (_ || _)%bool;
    [auto | apply shape_ok_widgets; reflexivity].
Qed.

Lemma in_item_setText (row : nat) (t : string) (items : list (string * string))
  (label k : string) :
  In (label, k) (item_setText row t items) -> exists label', In (label', k) items.
Proof.
  unfold item_setText. destruct (nth_error items row) as [[l0 d0]|] eqn:E; [|eauto].
  intro H. apply in_app_or in H. destruct H as [H|[H|H]].
  - exists label. rewrite <- (firstn_skipn row items). apply in_or_app. left. exact H.
  - injection H as <- <-. exists l0. eapply nth_error_In, E.
  - exists label. rewrite <- (firstn_skipn (S row) items). apply in_or_app. right. exact H.
Qed.

Lemma shape_ok_item_setText (row : nat) (t : string) (s : App) :
  shape_ok s -> shape_ok (set_list_items (item_setText row t (list_items s)) s).
Proof.
  intros [W I]. split; [exact W|].
  intros label k H. apply in_item_setText in H as [label' H]. exact (I label' k H).
Qed.

Lemma shape_ok_new_project (v : Project) (s : App) :
  shape_ok s ->
  shape_ok (set_list_items (list_items s ++ [(name v, id v)])
              (set_projects (dict_set (id v) v (projects s)) s)).
Proof.
  intros [W I]. split.
  - apply well_keyed_set, W.
  - intros label k H. cbn in H. apply in_app_or in H. cbn. apply dict_set_in_keys.
    destruct H as [H|[H|[]]]; [left; exact (I label k H) | right; congruence].
Qed.

Section Shape.

Variable self : call -> App -> outcome.
Hypothesis self_shaped : forall c s, shape_ok s -> shaped (self c s).

Lemma shaped_bind (o : outcome) (k : App -> outcome) :
  shaped o -> (forall s, shape_ok s -> shaped (k s)) -> shaped (bind o k).
Proof. destruct o; simpl; auto. Qed.

Lemma shaped_lookup (k : string) (s : App) (cont : Project -> outcome) :
  (forall p, shaped (cont p)) -> shaped (lookup k s cont).
Proof. intro H. unfold lookup. destruct (dict_get k (projects s)); [apply H | exact I]. Qed.

Lemma setText_shaped (w : line_edit) (t : string) (s : App) :
  shape_ok s -> shaped (setText self w t s).
Proof.
  intro H. unfold setText. destruct (String.eqb _ _); [exact H|].
  apply self_shaped. destruct w; exact H.
Qed.

Lemma name_setText_shaped (t : string) (s : App) :
  shape_ok s -> shaped (name_setText self t s).
Proof.
  intro H. unfold name_setText. destruct (String.eqb _ _); [exact H|].
  apply self_shaped. exact H.
Qed.

Lemma description_setText_shaped (t : string) (s : App) :
  shape_ok s -> shaped (description_setText self t s).
Proof. intro H. apply self_shaped. exact H. Qed.

Ltac shape_step :=
  match goal with
  | |- shape_ok (show_etc _ _ _) => apply shape_ok_show_etc
  | |- shape_ok (show_button _ _ _) => apply shape_ok_show_button
  | |- shape_ok (progress_bar_setValue _ _) => apply shape_ok_progress_bar
  | |- shape_ok (update_project _ (setattr ?a _) _) =>
      apply shape_ok_update; [intro; destruct a; reflexivity|]
  | |- shape_ok (update_project _ _ _) => apply shape_ok_update; [intro; reflexivity|]
  | |- shape_ok (set_list_items (item_setText _ _ _) _) => apply shape_ok_item_setText
  | |- shape_ok (match ?x with _ => _ end) => destruct x
  | |- shape_ok (?f ?a ?b ?c ?s) =>
      apply (shape_ok_widgets s); [reflexivity | reflexivity |]
  | |- shape_ok (?f ?v ?s) => apply (shape_ok_widgets s); [reflexivity | reflexivity |]
  end.

Ltac shaped_step :=
  match goal with
  | |- shaped (Returns _) => cbn [shaped]
  | |- shaped (Raises _) => exact I
  | |- shaped OutOfFuel => exact I
  | |- shaped (bind _ _) => apply shaped_bind; [|intros ? ?]
  | |- shaped (lookup _ _ _) => apply shaped_lookup; intro
  | |- shaped (self _ _) => apply self_shaped
  | |- shaped (setText _ _ _ _) => apply setText_shaped
  | |- shaped (name_setText _ _ _) => apply name_setText_shaped
  | |- shaped (description_setText _ _ _) => apply description_setText_shaped
  | |- shaped (match ?x with _ => _ end) => destruct x
  | |- shape_ok _ => first [assumption | shape_step]
  | |- True => exact I
  end.

Ltac shaped_tac := repeat shaped_step.

Lemma validate_shaped (project : Project) (a : attr) (field_name : string)
  (is_total : bool) (value : Q) (s : App) :
  shape_ok s -> shaped (snd (validate self project a field_name is_total value s)).
Proof.
  intro H. unfold validate.
  repeat match goal with
    | |- context [if ?b then _ else _] => destruct b
    end; cbn [snd]; shaped_tac.
Qed.

Lemma for_each_project_shaped (keys : list string) (s : App) :
  shape_ok s -> shaped (for_each_project self keys s).
Proof.
  revert s. induction keys as [|k keys IH]; intros s H; simpl; [exact H|].
  apply shaped_bind; [apply self_shaped, H | exact IH].
Qed.

Lemma handler_shaped (c : call) (s : App) : shape_ok s -> shaped (handler self c s).
Proof.
  intro H. destruct c; cbn [handler].
  - unfold _on_project_name_changed. shaped_tac.
  - unfold _on_project_description_changed. shaped_tac.
  - unfold _finalize_input_editing.
    destruct (current_project_id s) as [cur|]; [|exact H].
    destruct (truthy (Some cur)); [|exact H].
    apply shaped_lookup. intro project.
    apply shaped_bind; [|intros; apply self_shaped; assumption].
    destruct (Py.float (text w s)) as [value|].
    + pose proof (validate_shaped project project_attr field_name is_total value s H) as V.
      destruct (validate self project project_attr field_name is_total value s)
        as [value' validated].
      cbn [snd] in V. apply shaped_bind; [exact V|].
      intros s1 H1. apply setText_shaped. shaped_tac.
    + apply setText_shaped. destruct (negb _); shaped_tac.
  - unfold _update_display_from_inputs. shaped_tac.
  - unfold update_etc_for_project. shaped_tac.
  - apply for_each_project_shaped, H.
  - unfold toggle_timer.
    destruct (match project_id with None => current_project_id s | Some k => Some k end)
      as [pid|]; [|shaped_tac].
    destruct (_ || _)%bool; [shaped_tac|].
    apply shaped_bind.
    + destruct (is_current pid s); [|exact H]. shaped_tac.
    + intros s1 H1. apply shaped_lookup. intro project.
      destruct (negb (is_running project)); shaped_tac.
  - destruct checked; exact H.
  - unfold reset_selected_project. shaped_tac.
  - unfold add_new_project. apply self_shaped.
    match goal with
    | |- shape_ok (set_current_row _ ?t) =>
        apply (shape_ok_widgets t); [reflexivity | reflexivity |]
    end.
    apply (shape_ok_new_project
             (new_Project (uuids s (uuid_count s))
                ("New Project " ++ Py.str_N (Z.of_nat (List.length (projects s)) + 1)))
             (set_uuid_count (S (uuid_count s)) s)).
    apply (shape_ok_widgets s); [reflexivity | reflexivity | exact H].
  - unfold select_project_from_list.
    destruct current_item as [row|]; [|shaped_tac].
    destruct (nth_error (list_items s) row) as [[label project_id]|]; [|exact H].
    destruct (is_current project_id s); [exact H|]. shaped_tac.
Qed.

End Shape.

Lemma run_shaped (fuel : nat) (c : call) (s : App) : shape_ok s -> shaped (run fuel c s).
Proof.
  revert c s. induction fuel as [|n IH]; intros c s H; [exact I|].
  rewrite run_S. apply handler_shaped; assumption.
Qed.

Lemma load_loop_shaped (items : list json) (s : App) :
  shape_ok s ->
  match load_loop items s with
  | Loaded s' => shape_ok s'
  | _ => True
  end.
Proof.
  revert s. induction items as [|j items IH]; intros s H; simpl; [exact H|].
  destruct j; try exact I.
  destruct (project_of_json _ fields) as [project|]; [|exact I].
  apply IH.
  apply (shape_ok_new_project project (set_uuid_count (S (uuid_count s)) s)).
  apply (shape_ok_widgets s); [reflexivity | reflexivity | exact H].
Qed.

(** X4: the store stays keyed by the ids of its projects, no id twice, and
    every item of the list widget names a stored project: the startup
    state has this shape, a load that meets no error keeps it, and so does
    every handler that returns.  Selecting an item then finds its
    project. *)
Theorem shape_of_store_and_list_is_kept :
  (forall now supply plain, shape_ok (init_ui now supply plain)) /\
  (forall raw_data s s', shape_ok s -> load_raw raw_data s = Loaded s' -> shape_ok s') /\
  (forall fuel c s s', shape_ok s -> run fuel c s = Returns s' -> shape_ok s') /\
  (forall s row label k,
      shape_ok s -> nth_error (list_items s) row = Some (label, k) ->
      exists p, dict_get k (projects s) = Some p /\ id p = k).
Proof.
  split; [|split; [|split]].
  - intros. split; [split; constructor | intros label k []].
  - intros raw_data s s' H L. destruct raw_data; simpl in L; try discriminate.
    + destruct t; [injection L as <-; exact H | discriminate].
    + pose proof (load_loop_shaped items s H) as K. rewrite L in K. exact K.
    + destruct fields; [injection L as <-; exact H | discriminate].
  - intros fuel c s s' H E. pose proof (run_shaped fuel c s H) as K.
    rewrite E in K. exact K.
  - intros s row label k [[N K] I] E.
    apply nth_error_In in E. apply I in E.
    destruct (dict_get_key k (projects s) E) as [p G]. exists p. split; [exact G|].
    clear - K G. induction (projects s) as [|[k0 v] d IH]; simpl in G; [discriminate|].
    inversion K as [|? ? K0 K1]; subst. simpl in K0.
    destruct (String.eqb k0 k) eqn:Q.
    + apply String.eqb_eq in Q. injection G as <-. congruence.
    + apply IH; assumption.
Qed.

(** X5: when the second element of the file is no object, the first
    element is by then in the list widget; the load fails, the store is
    emptied, the item stays, and selecting it raises KeyError. *)
Theorem failed_load_leaves_an_item_that_cannot_be_selected
  (now : Q) (supply : nat -> string) (plain : string -> string)
  (project_data : list (string * json))
  (p : Project) (bad : json) (rest : list json) (n : nat) :
  project_of_json (supply 0%nat) project_data = Some p ->
  type_name bad <> "dict" ->
  exists s',
    load_projects (Content (JArr (JObj project_data :: bad :: rest)))
      (init_ui now supply plain)
    = Some s' /\
    projects s' = [] /\
    list_items s' = [(name p, id p)] /\
    run (S n) (SelectProjectFromList (Some 0%nat)) s' = Raises KeyError.
Proof.
  intros D B. cbn [load_projects load_raw load_loop init_ui uuids uuid_count set_uuid_count].
  rewrite D.
  destruct bad; try (eexists; split; [reflexivity|]; repeat split; reflexivity).
  exfalso. apply B. reflexivity.
Qed.

Lemma failed_load_leaves_an_item_that_cannot_be_selected_witness :
  exists s',
    load_projects (Content (JArr [JObj []; JNull])) (init_ui 0 (fun _ => "u") (fun t => t)) = Some s' /\
    projects s' = [] /\
    list_items s' = [("Unnamed Project", "u")] /\
    run 1 (SelectProjectFromList (Some 0%nat)) s' = Raises KeyError.
Proof.
  apply (failed_load_leaves_an_item_that_cannot_be_selected
           0 (fun _ => "u") (fun t => t) [] (new_Project "u" "Unnamed Project") JNull [] 0);
    [reflexivity | discriminate].
Defined.

(** ** Fields that are in step with the record *)

Lemma display_only_refl (s : App) : display_only s s.
Proof. split; reflexivity. Qed.

Lemma display_only_trans (s1 s2 s3 : App) :
  display_only s1 s2 -> display_only s2 s3 -> display_only s1 s3.
Proof.
  intros [B1 P1] [B2 P2]. split; [congruence|].
  intro k. rewrite P2. apply P1.
Qed.

Lemma selected_display_only (cur : string) (p : Project) (s s' : App) :
  display_only s s' -> selected cur p s -> selected cur p s'.
Proof.
  intros [B P] (C & N & G). unfold beside_display in B.
  split; [congruence | split; [exact N | rewrite P; exact G]].
Qed.

Lemma in_step_texts (p : Project) (s s' : App) :
  total_value_input s' = total_value_input s ->
  current_value_input s' = current_value_input s ->
  in_step p s -> in_step p s'.
Proof. unfold in_step. intros -> ->. exact (fun H => H). Qed.

Lemma in_step_display_only (p : Project) (s s' : App) :
  display_only s s' -> in_step p s -> in_step p s'.
Proof.
  intros [B _]. unfold beside_display in B. apply in_step_texts; congruence.
Qed.

Lemma live_record_in_step (p : Project) (s : App) : in_step p s -> live_record p s = p.
Proof.
  intros (T & TB & _ & C & CB & _). unfold live_record, _get_safe_value.
  rewrite T, TB, C, CB. destruct p; reflexivity.
Qed.

Lemma setattr_getattr (a : attr) (p : Project) : setattr a (getattr p a) p = p.
Proof. destruct a, p; reflexivity. Qed.

Lemma display_only_update (cur : string) (p : Project) (f : Project -> Project) (s : App) :
  dict_get cur (projects s) = Some p -> f p = p ->
  display_only s (update_project cur f s).
Proof.
  intros G F. split; [reflexivity|]. intro k. cbn.
  rewrite dict_get_update. destruct (String.eqb k cur) eqn:E; [|reflexivity].
  apply String.eqb_eq in E. subst k. rewrite G. simpl. congruence.
Qed.

Lemma display_only_show_etc (p : Project) (t : string) (s : App) :
  display_only s (show_etc p t s).
Proof.
  split; [|rewrite projects_show_etc; reflexivity].
  unfold show_etc. destruct (is_current _ _); reflexivity.
Qed.

Lemma display_only_inputs_written (cur : string) (p : Project) (s : App) :
  dict_get cur (projects s) = Some p -> in_step p s ->
  display_only s (inputs_written cur p s).
Proof.
  intros G I. split.
  - unfold inputs_written, progress_bar_setValue. destruct (_ || _)%bool; reflexivity.
  - intro k. rewrite (projects_inputs_written _ _ _ _ G).
    destruct (String.eqb k cur) eqn:E; [|reflexivity].
    apply String.eqb_eq in E. subst k. rewrite (live_record_in_step _ _ I), G. reflexivity.
Qed.

(** The refresh of the display for fields in step with the record. *)
Lemma display_in_step (n : nat) (cur : string) (p : Project) (s : App) :
  selected cur p s -> in_step p s ->
  completes p (clock s) = false ->
  (is_running p = true -> start_time p <> None) ->
  exists s', run (S (S n)) UpdateDisplayFromInputs s = Returns s' /\ display_only s s'.
Proof.
  intros Sel I C R. pose proof Sel as (_ & _ & G).
  rewrite run_S. cbn [handler]. rewrite (update_display_selected _ cur p s Sel).
  destruct (etc_without_completion (run n) cur p (inputs_written cur p s)) as [t E].
  - rewrite (projects_inputs_written _ _ _ _ G), String.eqb_refl.
    rewrite (live_record_in_step _ _ I). reflexivity.
  - rewrite clock_inputs_written. exact C.
  - exact R.
  - rewrite run_S. cbn [handler]. rewrite E. eexists. split; [reflexivity|].
    apply (display_only_trans s (inputs_written cur p s));
      [apply display_only_inputs_written; assumption | apply display_only_show_etc].
Qed.

Lemma settled_display_only (cur : string) (p : Project) (s s' : App) :
  display_only s s' -> settled cur p s -> settled cur p s'.
Proof.
  intros D [Sel I T C B E R]. split; try assumption.
  - eapply selected_display_only; eassumption.
  - eapply in_step_display_only; eassumption.
  - destruct D as [D _]. unfold beside_display in D.
    replace (clock s') with (clock s) by congruence. exact E.
Qed.

Lemma finalize_settled (n : nat) (cur : string) (p : Project) (w : line_edit) (s : App) :
  settled cur p s ->
  let a := match w with total_input => total_units_attr | current_input => current_units_attr end in
  let field_name :=
    match w with total_input => "Total Work Units" | current_input => "Current Work Units" end in
  let is_total := match w with total_input => true | current_input => false end in
  exists s',
    run (S (S (S n))) (FinalizeInputEditing w a field_name is_total) s = Returns s' /\
    display_only s s'.
Proof.
  intros St a field_name is_total. pose proof St as [Sel I T C B E R].
  pose proof Sel as (Cur & N & G). pose proof I as (FT & _ & TT & FC & _ & TC).
  rewrite run_S. cbn [handler]. unfold _finalize_input_editing, lookup.
  rewrite Cur, (truthy_Some _ N), G.
  assert (D : display_only s (update_project cur (setattr a (getattr p a)) s))
    by (apply (display_only_update cur p); [exact G | apply setattr_getattr]).
  destruct (display_in_step n cur p (update_project cur (setattr a (getattr p a)) s))
    as (s' & E' & D'); try assumption.
  { eapply selected_display_only; eassumption. }
  exists s'. split; [|eapply display_only_trans; eassumption].
  destruct w; subst a field_name is_total; cbn [text getattr] in *.
  - rewrite FT. unfold validate.
    replace (Qle_bool (total_units p) 0) with false
      by (symmetry; apply Qle_bool_false_iff, T).
    replace (Py.Qlt_bool (total_units p) (current_units p)) with false
      by (symmetry; apply Qlt_bool_false_iff, B).
    cbn [bind]. unfold setText. cbn [text update_project set_projects total_value_input].
    rewrite TT, String.eqb_refl. cbn [bind]. exact E'.
  - rewrite FC. unfold validate.
    replace (Py.Qlt_bool (current_units p) 0) with false
      by (symmetry; apply Qlt_bool_false_iff, C).
    replace (Py.Qlt_bool (total_units p) (current_units p)) with false
      by (symmetry; apply Qlt_bool_false_iff, B).
    cbn [bind]. unfold setText. cbn [text update_project set_projects current_value_input].
    rewrite TC, String.eqb_refl. cbn [bind]. exact E'.
Qed.

(** X6: finishing the edit of a field that already shows the stored value
    in display format - a positive total, a current between 0 and the
    total, no completion pending - changes nothing but the progress bar
    and the two labels: no record, no line edit, no dialog. *)
Theorem finalizing_a_settled_field_changes_only_the_display
  (n : nat) (cur : string) (p : Project) (s : App) :
  selected cur p s -> in_step p s ->
  0 < total_units p -> 0 <= current_units p <= total_units p ->
  completes p (clock s) = false ->
  (is_running p = true -> start_time p <> None) ->
  (exists s',
     run (S (S (S n))) (FinalizeInputEditing total_input total_units_attr
                          "Total Work Units" true) s = Returns s' /\
     display_only s s') /\
  (exists s',
     run (S (S (S n))) (FinalizeInputEditing current_input current_units_attr
                          "Current Work Units" false) s = Returns s' /\
     display_only s s').
Proof.
  intros Sel I T [C B] E R.
  assert (St : settled cur p s) by (split; assumption).
  split.
  - exact (finalize_settled n cur p total_input s St).
  - exact (finalize_settled n cur p current_input s St).
Qed.

Lemma finalizing_a_settled_field_changes_only_the_display_witness :
  let s := app_showing (running_project (1000 # 10) (500 # 10)) "100.0" "50.0" 10 in
  (exists s',
     run 3 (FinalizeInputEditing total_input total_units_attr "Total Work Units" true) s
     = Returns s' /\ display_only s s') /\
  (exists s',
     run 3 (FinalizeInputEditing current_input current_units_attr "Current Work Units" false) s
     = Returns s' /\ display_only s s').
Proof.
  intro s.
  apply (finalizing_a_settled_field_changes_only_the_display 0 "p1"
           (running_project (1000 # 10) (500 # 10)) s).
  - repeat split. discriminate.
  - repeat split; vm_compute; reflexivity.
  - reflexivity.
  - split; [discriminate | discriminate].
  - vm_compute. reflexivity.
  - discriminate.
Defined.

(** ** Starting and stopping the timer of a settled project *)

Lemma toggle_settled (n : nat) (cur : string) (p : Project) (s : App) :
  settled cur p s ->
  exists s2,
    display_only s s2 /\
    run (S (S (S (S n)))) (ToggleTimer None) s
    = (if negb (is_running p) then
         if Qle_bool (total_units p) 0 then
           Returns (message_box Warning "Timer Error"
                      "Total Work Units must be a positive number to start the timer." s2)
         else if Py.Qlt_bool (current_units p) 0 then
           Returns (message_box Warning "Timer Error"
                      "Current Work Units cannot be negative." s2)
         else if Qle_bool (total_units p) (current_units p) then
           run (S (S (S n))) (UpdateEtcForProject cur)
             (message_box Information "Timer Info"
                "Current Work Units already meet or exceed Total. Project is complete. No need to start timer." s2)
         else
           run (S (S (S n))) (UpdateEtcForProject cur)
             (set_start_timer_button "Stop Timer"
                (update_project cur (with_is_running true)
                   (update_project cur (with_start_time (Some (clock s))) s2)))
       else
         run (S (S (S n))) (UpdateEtcForProject cur)
           (set_start_timer_button "Start Timer"
              (update_project cur (with_start_time None)
                 (update_project cur (with_is_running false)
                    match start_time p with
                    | Some started =>
                        update_project cur
                          (with_elapsed_at_pause
                             (elapsed_at_pause p + (clock s - started))) s2
                    | None => s2
                    end)))).
Proof.
  intro St. pose proof St as [Sel I _ _ _ _ _]. pose proof Sel as (C & N & G).
  rewrite run_S. cbn [handler]. unfold toggle_timer.
  rewrite C, (truthy_Some _ N), (dict_mem_get _ _ _ G), (is_current_selected _ _ _ Sel).
  cbn [negb orb].
  destruct (finalize_settled n cur p total_input s St) as (s1 & E1 & D1).
  cbv zeta in E1. rewrite E1. cbn [bind].
  assert (St1 : settled cur p s1) by (eapply settled_display_only; eassumption).
  destruct (finalize_settled n cur p current_input s1 St1) as (s2 & E2 & D2).
  cbv zeta in E2. rewrite E2. cbn [bind].
  assert (St2 : settled cur p s2) by (eapply settled_display_only; eassumption).
  pose proof St2 as [Sel2 I2 _ _ _ _ _]. pose proof Sel2 as (C2 & _ & G2).
  pose proof I2 as (FT & BT & _ & FC & BC & _).
  unfold lookup at 1. rewrite G2.
  unfold _get_safe_value.
  cbn [total_value_input current_value_input update_project set_projects].
  rewrite FT, BT, FC, BC. cbn [bind].
  set (s3 := update_project cur (with_current_units (current_units p))
               (update_project cur (with_total_units (total_units p)) s2)).
  assert (D3 : display_only s2 s3).
  { apply (display_only_trans s2 (update_project cur (with_total_units (total_units p)) s2)).
    - apply (display_only_update cur p); [exact G2 | destruct p; reflexivity].
    - apply (display_only_update cur p); [|destruct p; reflexivity].
      cbn. rewrite dict_get_update_same, G2. destruct p; reflexivity. }
  assert (D : display_only s s3).
  { eapply display_only_trans; [exact D1|]. eapply display_only_trans; eassumption. }
  assert (St3 : settled cur p s3) by (eapply settled_display_only; eassumption).
  pose proof St3 as [Sel3 _ _ _ _ _ _]. pose proof Sel3 as (C3 & _ & G3).
  assert (K : clock s3 = clock s).
  { destruct D as [D _]. unfold beside_display in D. congruence. }
  exists s3. split; [exact D|].
  unfold lookup. rewrite G3.
  assert (Cb : forall t s4, is_current cur s4 = true ->
                 is_current cur (set_start_timer_button t s4) = true)
    by (intros t s4 H; exact H).
  unfold show_button. rewrite K.
  destruct (negb (is_running p)).
  - destruct (Qle_bool _ 0); [reflexivity|].
    destruct (Py.Qlt_bool _ 0); [reflexivity|].
    destruct (Qle_bool _ _); [reflexivity|].
    rewrite !is_current_update_project, (is_current_selected _ _ _ Sel3).
    rewrite Cb; [reflexivity|].
    rewrite !is_current_update_project. exact (is_current_selected _ _ _ Sel3).
  - destruct (start_time p);
      rewrite !is_current_update_project, (is_current_selected _ _ _ Sel3);
      (rewrite Cb; [reflexivity|]);
      rewrite !is_current_update_project; exact (is_current_selected _ _ _ Sel3).
Qed.

Lemma beside_display_toggled (cur : string) (f : Project -> Project) (p' : Project)
  (t button : string) (s s2 : App) :
  display_only s s2 ->
  beside_display (show_etc p' t (set_start_timer_button button (update_project cur f s2)))
  = beside_display (set_start_timer_button button s).
Proof.
  intros [D _]. unfold beside_display in D. injection D as D1 D2 D3 D4 D5 D6 D7 D8 D9 D10 D11 D12 D13.
  unfold show_etc. destruct (is_current _ _); unfold beside_display; cbn; congruence.
Qed.

Lemma toggled_etc (n : nat) (cur : string) (p p' : Project) (f : Project -> Project)
  (button : string) (s s2 : App) :
  display_only s s2 ->
  dict_get cur (projects s) = Some p ->
  f p = p' ->
  completes p' (clock s) = false ->
  (is_running p' = true -> start_time p' <> None) ->
  exists s',
    run (S n) (UpdateEtcForProject cur)
      (set_start_timer_button button (update_project cur f s2)) = Returns s' /\
    rewritten cur p' (set_start_timer_button button s) s'.
Proof.
  intros D G F C R. pose proof D as [B P].
  set (s4 := set_start_timer_button button (update_project cur f s2)).
  assert (G4 : dict_get cur (projects s4) = Some p').
  { cbn. rewrite dict_get_update_same, P, G. simpl. congruence. }
  destruct (etc_without_completion (run n) cur p' s4) as [t E]; [exact G4 | | exact R |].
  { unfold beside_display in B. replace (clock s4) with (clock s); [exact C|].
    cbn. congruence. }
  rewrite run_S. cbn [handler]. rewrite E. eexists. split; [reflexivity|].
  split; [|split].
  - apply beside_display_toggled, D.
  - rewrite projects_show_etc. exact G4.
  - intros k K. rewrite projects_show_etc. cbn. rewrite dict_get_update.
    apply String.eqb_neq in K. rewrite K. apply P.
Qed.

Lemma start_settled (n : nat) (cur : string) (p : Project) (s : App) :
  settled cur p s -> is_running p = false -> current_units p < total_units p ->
  exists s',
    run (S (S (S (S n)))) (ToggleTimer None) s = Returns s' /\
    rewritten cur (with_is_running true (with_start_time (Some (clock s)) p))
      (set_start_timer_button "Stop Timer" s) s'.
Proof.
  intros St R B. pose proof St as [(_ & _ & G) _ T C _ _ _].
  destruct (toggle_settled n cur p s St) as (s2 & D & E). rewrite E, R. cbn [negb].
  replace (Qle_bool (total_units p) 0) with false
    by (symmetry; apply Qle_bool_false_iff, T).
  replace (Py.Qlt_bool (current_units p) 0) with false
    by (symmetry; apply Qlt_bool_false_iff, C).
  replace (Qle_bool (total_units p) (current_units p)) with false
    by (symmetry; apply Qle_bool_false_iff, B).
  rewrite update_project_fuse.
  apply (toggled_etc _ cur p); try assumption; [reflexivity | | discriminate].
  apply below_total_never_completes; assumption.
Qed.

Lemma stop_settled (n : nat) (cur : string) (p : Project) (started : Q) (s : App) :
  settled cur p s -> is_running p = true -> start_time p = Some started ->
  exists s',
    run (S (S (S (S n)))) (ToggleTimer None) s = Returns s' /\
    rewritten cur
      (with_start_time None
         (with_is_running false
            (with_elapsed_at_pause (elapsed_at_pause p + (clock s - started)) p)))
      (set_start_timer_button "Start Timer" s) s'.
Proof.
  intros St R S0. pose proof St as [(_ & _ & G) _ _ _ _ _ _].
  destruct (toggle_settled n cur p s St) as (s2 & D & E). rewrite E, R, S0. cbn [negb].
  rewrite !update_project_fuse.
  apply (toggled_etc _ cur p); try assumption; [reflexivity | | discriminate].
  apply not_running_never_completes. reflexivity.
Qed.

(** X7: stopping the timer of the selected project, its fields in step
    with a record below its total: the time since the start is added to
    the elapsed time, the start time is cleared, total, current, name and
    description stay; the button reads Start Timer, no dialog is shown and
    no other project changes. *)
Theorem stopping_adds_the_time_since_the_start
  (n : nat) (cur : string) (p : Project) (started : Q) (s : App) :
  selected cur p s -> in_step p s ->
  is_running p = true -> start_time p = Some started ->
  0 <= current_units p -> current_units p < total_units p ->
  exists s',
    run (S (S (S (S n)))) (ToggleTimer None) s = Returns s' /\
    dict_get cur (projects s')
    = Some (mkProject (id p) (name p) (total_units p) (current_units p) None false
              (elapsed_at_pause p + (clock s - started)) (description p)) /\
    (forall k, k <> cur -> dict_get k (projects s') = dict_get k (projects s)) /\
    start_timer_button s' = "Start Timer" /\
    dialogs s' = dialogs s /\
    total_value_input s' = total_value_input s /\
    current_value_input s' = current_value_input s.
Proof.
  intros Sel I R S0 C B.
  assert (T : 0 < total_units p) by (eapply Qle_lt_trans; eassumption).
  assert (St : settled cur p s).
  { split; try assumption; [apply Qlt_le_weak, B | | congruence].
    apply below_total_never_completes; assumption. }
  destruct (stop_settled n cur p started s St R S0) as (s' & E & D & G & O).
  exists s'. unfold beside_display in D.
  injection D as D1 D2 D3 D4 D5 D6 D7 D8 D9 D10 D11 D12 D13.
  repeat split; assumption.
Qed.

Lemma stopping_adds_the_time_since_the_start_witness :
  exists s',
    run 4 (ToggleTimer None) (app_showing (running_project (1000 # 10) (500 # 10)) "100.0" "50.0" 10)
    = Returns s' /\
    dict_get "p1" (projects s')
    = Some (mkProject "p1" "Demo" (1000 # 10) (500 # 10) None false (0 + (10 - 0)) "") /\
    (forall k, k <> "p1" ->
       dict_get k (projects s')
       = dict_get k (projects (app_showing (running_project (1000 # 10) (500 # 10))
                                 "100.0" "50.0" 10))) /\
    start_timer_button s' = "Start Timer" /\
    dialogs s' = [] /\
    total_value_input s' = "100.0" /\
    current_value_input s' = "50.0".
Proof.
  apply (stopping_adds_the_time_since_the_start 0 "p1"
           (running_project (1000 # 10) (500 # 10)) 0
           (app_showing (running_project (1000 # 10) (500 # 10)) "100.0" "50.0" 10)).
  - repeat split. discriminate.
  - repeat split; vm_compute; reflexivity.
  - reflexivity.
  - reflexivity.
  - discriminate.
  - reflexivity.
Defined.

(** X8: a start and a later stop of the selected project, its fields in
    step with a record below its total, add the time between the two to
    the elapsed time and leave total, current, name and description as
    they were; neither shows a dialog. *)
Theorem start_then_stop_adds_the_time_between
  (n : nat) (cur : string) (p : Project) (later : Q) (s : App) :
  selected cur p s -> in_step p s ->
  is_running p = false ->
  0 <= current_units p -> current_units p < total_units p ->
  exists s1 s2,
    run (S (S (S (S n)))) (ToggleTimer None) s = Returns s1 /\
    dict_get cur (projects s1)
    = Some (mkProject (id p) (name p) (total_units p) (current_units p)
              (Some (clock s)) true (elapsed_at_pause p) (description p)) /\
    run (S (S (S (S n)))) (ToggleTimer None) (set_clock later s1) = Returns s2 /\
    dict_get cur (projects s2)
    = Some (mkProject (id p) (name p) (total_units p) (current_units p) None false
              (elapsed_at_pause p + (later - clock s)) (description p)) /\
    (forall k, k <> cur -> dict_get k (projects s2) = dict_get k (projects s)) /\
    dialogs s2 = dialogs s.
Proof.
  intros Sel I R C B.
  assert (T : 0 < total_units p) by (eapply Qle_lt_trans; eassumption).
  assert (St : settled cur p s).
  { split; try assumption; [apply Qlt_le_weak, B | | congruence].
    apply below_total_never_completes; assumption. }
  destruct (start_settled n cur p s St R B) as (s1 & E1 & D1 & G1 & O1).
  set (p1 := with_is_running true (with_start_time (Some (clock s)) p)) in *.
  unfold beside_display in D1.
  injection D1 as A1 A2 A3 A4 A5 A6 A7 A8 A9 A10 A11 A12 A13.
  cbn in A1, A6, A7, A9.
  pose proof Sel as (Cur & N & G).
  assert (St1 : settled cur p1 (set_clock later s1)).
  { split; try assumption.
    - split; [cbn; congruence | split; [exact N | exact G1]].
    - apply (in_step_texts p s); [exact A6 | exact A7 | exact I].
    - apply Qlt_le_weak, B.
    - apply below_total_never_completes; assumption.
    - discriminate. }
  destruct (stop_settled n cur p1 (clock s) (set_clock later s1) St1 eq_refl eq_refl)
    as (s2 & E2 & D2 & G2 & O2).
  exists s1, s2.
  unfold beside_display in D2.
  injection D2 as B1 B2 B3 B4 B5 B6 B7 B8 B9 B10 B11 B12 B13.
  cbn in B9.
  split; [exact E1|]. split; [exact G1|]. split; [exact E2|].
  split; [rewrite G2; reflexivity|].
  split; [|congruence].
  intros k K. rewrite (O2 k K). cbn. apply O1, K.
Qed.

Lemma start_then_stop_adds_the_time_between_witness :
  exists s1 s2,
    run 4 (ToggleTimer None) (app_showing (idle_project (1000 # 10) (500 # 10)) "100.0" "50.0" 10)
    = Returns s1 /\
    dict_get "p1" (projects s1)
    = Some (mkProject "p1" "Demo" (1000 # 10) (500 # 10) (Some 10) true 0 "") /\
    run 4 (ToggleTimer None) (set_clock 25 s1) = Returns s2 /\
    dict_get "p1" (projects s2)
    = Some (mkProject "p1" "Demo" (1000 # 10) (500 # 10) None false (0 + (25 - 10)) "") /\
    (forall k, k <> "p1" ->
       dict_get k (projects s2)
       = dict_get k (projects (app_showing (idle_project (1000 # 10) (500 # 10))
                                 "100.0" "50.0" 10))) /\
    dialogs s2 = [].
Proof.
  apply (start_then_stop_adds_the_time_between 0 "p1"
           (idle_project (1000 # 10) (500 # 10)) 25
           (app_showing (idle_project (1000 # 10) (500 # 10)) "100.0" "50.0" 10)).
  - repeat split. discriminate.
  - repeat split; vm_compute; reflexivity.
  - reflexivity.
  - discriminate.
  - reflexivity.
Defined.

(** ** Handlers that rewrite the selected record *)

Lemma beside_display_fields (s s' : App) :
  beside_display s' = beside_display s ->
  current_project_id s' = current_project_id s /\
  list_items s' = list_items s /\
  current_row s' = current_row s /\
  project_name_input s' = project_name_input s /\
  project_description_input s' = project_description_input s /\
  total_value_input s' = total_value_input s /\
  current_value_input s' = current_value_input s /\
  start_timer_button s' = start_timer_button s /\
  dialogs s' = dialogs s /\
  clock s' = clock s /\
  uuids s' = uuids s /\
  uuid_count s' = uuid_count s /\
  plain_text s' = plain_text s.
Proof.
  intro H. unfold beside_display in H.
  injection H as H1 H2 H3 H4 H5 H6 H7 H8 H9 H10 H11 H12 H13. repeat split; assumption.
Qed.

Ltac fields H :=
  let F := fresh "F" in
  pose proof (beside_display_fields _ _ H) as F;
  cbn in F;
  destruct F as (? & ? & ? & ? & ? & ? & ? & ? & ? & ? & ? & ? & ?).

Lemma safe_value_twice (txt : string) (d : Q) :
  _get_safe_value txt (_get_safe_value txt d) = _get_safe_value txt d.
Proof.
  unfold _get_safe_value. destruct (Py.is_blank txt); [reflexivity|].
  destruct (Py.float txt); reflexivity.
Qed.

Lemma edit_same (p : Project) : edit (total_units p) (current_units p) p = p.
Proof. destruct p; reflexivity. Qed.

Lemma live_record_edit (t c : Q) (p : Project) (s : App) :
  live_record (edit t c p) s
  = edit (_get_safe_value (total_value_input s) t)
         (_get_safe_value (current_value_input s) c) p.
Proof. reflexivity. Qed.

Lemma rewritten_selected (cur : string) (p' : Project) (base s' : App) :
  rewritten cur p' base s' -> current_project_id base = Some cur -> cur <> "" ->
  selected cur p' s'.
Proof.
  intros (B & G & _) C N. fields B. split; [congruence | split; assumption].
Qed.

Lemma display_rewrites (n : nat) (cur : string) (p : Project) (s : App) :
  selected cur p s -> is_running p = false ->
  exists s',
    run (S (S n)) UpdateDisplayFromInputs s = Returns s' /\
    rewritten cur (live_record p s) s s'.
Proof.
  intros Sel R. pose proof Sel as (_ & _ & G).
  rewrite run_S. cbn [handler]. rewrite (update_display_selected _ cur p s Sel).
  destruct (etc_stopped n cur (live_record p s) (inputs_written cur p s)) as [t E].
  - rewrite (projects_inputs_written _ _ _ _ G), String.eqb_refl. reflexivity.
  - exact R.
  - rewrite E. eexists. split; [reflexivity|]. split; [|split].
    + unfold show_etc, inputs_written, progress_bar_setValue.
      destruct (is_current _ _), (_ || _)%bool; reflexivity.
    + rewrite projects_show_etc, (projects_inputs_written _ _ _ _ G), String.eqb_refl.
      reflexivity.
    + intros k K. rewrite projects_show_etc, (projects_inputs_written _ _ _ _ G).
      apply String.eqb_neq in K. rewrite K. reflexivity.
Qed.

Lemma setText_rewrites (n : nat) (cur : string) (p : Project) (w : line_edit)
  (t : string) (s : App) :
  selected cur p s -> is_running p = false ->
  exists s',
    setText (run (S (S n))) w t s = Returns s' /\
    rewritten cur
      (if String.eqb (text w s) t then p else live_record p (set_text w t s))
      (set_text w t s) s'.
Proof.
  intros Sel R. unfold setText. destruct (String.eqb (text w s) t) eqn:E.
  - exists s. split; [reflexivity|]. apply String.eqb_eq in E. subst t.
    split; [destruct w, s; reflexivity | split; [apply Sel | destruct w; reflexivity]].
  - apply display_rewrites; [|exact R]. destruct w; exact Sel.
Qed.

Lemma with_name_same (p : Project) : with_name (name p) p = p.
Proof. destruct p; reflexivity. Qed.

Lemma with_description_same (p : Project) : with_description (description p) p = p.
Proof. destruct p; reflexivity. Qed.

Lemma rewritten_update (cur : string) (p : Project) (f : Project -> Project) (s : App) :
  dict_get cur (projects s) = Some p ->
  rewritten cur (f p) s (update_project cur f s).
Proof.
  intro G. split; [reflexivity | split].
  - cbn. rewrite dict_get_update_same, G. reflexivity.
  - intros k K. cbn. rewrite dict_get_update. apply String.eqb_neq in K.
    rewrite K. reflexivity.
Qed.

Lemma name_setText_rewrites (m : nat) (cur : string) (p : Project) (s : App) :
  selected cur p s ->
  exists s',
    name_setText (run (S m)) (name p) s = Returns s' /\
    rewritten cur p (set_list_items (list_items s') (set_project_name_input (name p) s)) s' /\
    (list_items s' = list_items s \/
     exists row, current_row s = Some row /\
                 list_items s' = item_setText row (name p) (list_items s)).
Proof.
  intros (C & N & G). unfold name_setText.
  destruct (String.eqb (project_name_input s) (name p)) eqn:E.
  - exists s. split; [reflexivity|]. apply String.eqb_eq in E.
    split; [|left; reflexivity].
    split; [|split; [exact G | reflexivity]].
    unfold beside_display. cbn. rewrite E. reflexivity.
  - rewrite run_S. cbn [handler]. unfold _on_project_name_changed, lookup.
    cbn [current_project_id set_project_name_input projects project_name_input].
    rewrite C, (truthy_Some _ N).
    destruct (negb (Py.is_blank (name p))).
    + rewrite G. cbn [current_row update_project set_projects set_project_name_input].
      destruct (current_row s) as [row|]; eexists; (split; [reflexivity|]).
      * split; [|right; exists row; split; reflexivity].
        split; [reflexivity | split].
        -- cbn [projects set_list_items update_project set_projects set_project_name_input].
           rewrite dict_get_update_same, G. cbn [option_map]. rewrite with_name_same. reflexivity.
        -- intros k K. cbn [projects set_list_items update_project set_projects set_project_name_input].
           rewrite dict_get_update. apply String.eqb_neq in K.
           rewrite K. reflexivity.
      * split; [|left; reflexivity].
        split; [reflexivity | split].
        -- cbn [projects set_list_items update_project set_projects set_project_name_input].
           rewrite dict_get_update_same, G. cbn [option_map]. rewrite with_name_same. reflexivity.
        -- intros k K. cbn [projects set_list_items update_project set_projects set_project_name_input].
           rewrite dict_get_update. apply String.eqb_neq in K.
           rewrite K. reflexivity.
    + eexists. split; [reflexivity|]. split; [|left; reflexivity].
      split; [reflexivity | split; [exact G | reflexivity]].
Qed.

Lemma toPlainText_same (t : string) (s s' : App) :
  plain_text s' = plain_text s -> toPlainText t s' = toPlainText t s.
Proof. unfold toPlainText. intros ->. reflexivity. Qed.

Lemma description_setText_rewrites (m : nat) (cur : string) (p : Project) (s : App) :
  selected cur p s ->
  let read_back := toPlainText (description p) s in
  exists s',
    description_setText (run (S m)) (description p) s = Returns s' /\
    rewritten cur (with_description read_back p)
      (set_project_description_input read_back s) s'.
Proof.
  intros (C & N & G) read_back. unfold description_setText. fold read_back.
  rewrite run_S. cbn [handler]. unfold _on_project_description_changed, lookup.
  cbn [current_project_id set_project_description_input projects project_description_input].
  rewrite C, (truthy_Some _ N), G. eexists. split; [reflexivity|].
  split; [reflexivity | split].
  - cbn [projects update_project set_projects set_project_description_input].
    rewrite dict_get_update_same, G. reflexivity.
  - intros k K. cbn [projects update_project set_projects set_project_description_input].
    rewrite dict_get_update. apply String.eqb_neq in K. rewrite K. reflexivity.
Qed.

(** ** Selecting and adding a project *)

Lemma select_rewrites (n : nat) (row : nat) (label k : string) (p : Project) (s : App) :
  nth_error (list_items s) row = Some (label, k) ->
  is_current k s = false -> k <> "" ->
  dict_get k (projects s) = Some p ->
  is_running p = false ->
  let tt := Py.format_1f (total_units p) in
  let c1 := if String.eqb (total_value_input s) tt then current_units p
            else _get_safe_value (current_value_input s) (current_units p) in
  let ct := Py.format_1f c1 in
  let read_back := toPlainText (description p) s in
  exists s',
    run (S (S (S n))) (SelectProjectFromList (Some row)) s = Returns s' /\
    rewritten k
      (edit (_get_safe_value tt (total_units p)) (_get_safe_value ct c1)
         (with_description read_back p))
      (set_start_timer_button "Start Timer"
         (set_current_value_input ct
            (set_total_value_input tt
               (set_project_description_input read_back
                  (set_project_name_input (name p)
                     (set_list_items (list_items s')
                        (set_current_project_id (Some k) s))))))) s' /\
    (list_items s' = list_items s \/
     exists r, current_row s = Some r /\
               list_items s' = item_setText r (name p) (list_items s)).
Proof.
  intros Item NC N G R tt c1 ct read_back.
  rewrite run_S. cbn [handler]. unfold select_project_from_list. rewrite Item, NC.
  set (s1 := set_current_project_id (Some k) s).
  assert (Sel1 : selected k p s1) by (split; [reflexivity | split; assumption]).
  unfold lookup at 1. replace (dict_get k (projects s1)) with (Some p) by (symmetry; exact G).
  destruct (name_setText_rewrites (S n) k p s1 Sel1) as (s2 & E2 & W2 & L2).
  rewrite E2. cbn [bind].
  assert (Sel2 : selected k p s2)
    by (apply (rewritten_selected _ _ _ _ W2); [reflexivity | exact N]).
  unfold lookup at 1. rewrite (proj2 (proj2 Sel2)).
  destruct (description_setText_rewrites (S n) k p s2 Sel2) as (s3 & E3 & W3).
  rewrite E3. cbn [bind].
  assert (P2 : toPlainText (description p) s2 = read_back).
  { apply toPlainText_same. destruct W2 as (B2 & _). fields B2. assumption. }
  rewrite P2 in W3. clear P2.
  set (q := with_description read_back p) in *.
  assert (Sel3 : selected k q s3)
    by (apply (rewritten_selected _ _ _ _ W3); [apply Sel2 | exact N]).
  unfold lookup at 1. rewrite (proj2 (proj2 Sel3)).
  change (Py.format_1f (total_units q)) with tt.
  destruct (setText_rewrites n k q total_input tt s3 Sel3 R) as (s4 & E4 & W4).
  rewrite E4. cbn [bind].
  set (p4 := if String.eqb (text total_input s3) tt then q
             else live_record q (set_text total_input tt s3)) in *.
  assert (R4 : is_running p4 = false)
    by (unfold p4; destruct (String.eqb (text total_input s3) tt); exact R).
  assert (Sel4 : selected k p4 s4)
    by (apply (rewritten_selected _ _ _ _ W4); [apply Sel3 | exact N]).
  unfold lookup at 1. rewrite (proj2 (proj2 Sel4)).
  destruct (setText_rewrites n k p4 current_input (Py.format_1f (current_units p4)) s4 Sel4 R4)
    as (s5 & E5 & W5).
  rewrite E5. cbn [bind].
  set (p5 := if String.eqb (text current_input s4) (Py.format_1f (current_units p4)) then p4
             else live_record p4 (set_text current_input (Py.format_1f (current_units p4)) s4))
    in *.
  assert (R5 : is_running p5 = false)
    by (unfold p5;
        destruct (String.eqb (text current_input s4) (Py.format_1f (current_units p4)));
        exact R4).
  assert (Sel5 : selected k p5 s5)
    by (apply (rewritten_selected _ _ _ _ W5); [apply Sel4 | exact N]).
  unfold lookup. rewrite (proj2 (proj2 Sel5)), R5.
  destruct (display_rewrites n k p5 (set_start_timer_button "Start Timer" s5)) as (s7 & E7 & W7);
    [exact Sel5 | exact R5 |].
  rewrite E7. exists s7. split; [reflexivity|].
  destruct W2 as (B2 & G2 & O2), W3 as (B3 & G3 & O3), W4 as (B4 & G4 & O4),
           W5 as (B5 & G5 & O5), W7 as (B7 & G7 & O7).
  fields B2. fields B3. fields B4. fields B5. fields B7.
  assert (C4 : current_units p4 = c1).
  { unfold p4, c1. cbn [text].
    replace (total_value_input s3) with (total_value_input s) by congruence.
    destruct (String.eqb (total_value_input s) tt); [reflexivity|].
    cbn. congruence. }
  assert (L7 : list_items s7 = list_items s2) by congruence.
  assert (A4 : p4 = edit (total_units p4) (current_units p4) q).
  { unfold p4. destruct (String.eqb (text total_input s3) tt);
      [symmetry; apply edit_same | reflexivity]. }
  assert (T4 : _get_safe_value tt (total_units p4) = _get_safe_value tt (total_units p)).
  { unfold p4. destruct (String.eqb (text total_input s3) tt); [reflexivity|].
    cbn. apply safe_value_twice. }
  assert (A5 : p5 = edit (total_units p5) (current_units p5) q).
  { unfold p5.
    destruct (String.eqb (text current_input s4) (Py.format_1f (current_units p4)));
      [exact A4|].
    rewrite A4 at 1. reflexivity. }
  assert (T5 : _get_safe_value tt (total_units p5) = _get_safe_value tt (total_units p)).
  { rewrite <- T4. unfold p5.
    destruct (String.eqb (text current_input s4) (Py.format_1f (current_units p4)));
      [reflexivity|].
    cbn. replace (total_value_input s4) with tt by congruence. apply safe_value_twice. }
  assert (C5 : _get_safe_value ct (current_units p5) = _get_safe_value ct c1).
  { unfold p5, ct. rewrite <- C4.
    destruct (String.eqb (text current_input s4) (Py.format_1f (current_units p4)));
      [reflexivity|].
    cbn. apply safe_value_twice. }
  split; [split; [|split]|].
  - unfold beside_display. cbn. unfold ct. rewrite <- C4. congruence.
  - rewrite G7. f_equal. rewrite A5 at 1. rewrite live_record_edit.
    cbn [total_value_input current_value_input set_start_timer_button].
    replace (total_value_input s5) with tt by congruence.
    replace (current_value_input s5) with ct by (unfold ct; congruence).
    rewrite T5, C5. reflexivity.
  - intros k' K. rewrite (O7 k' K). cbn. rewrite (O5 k' K).
    replace (projects (set_text current_input (Py.format_1f (current_units p4)) s4))
      with (projects s4) by reflexivity.
    rewrite (O4 k' K).
    replace (projects (set_text total_input tt s3)) with (projects s3) by reflexivity.
    rewrite (O3 k' K). cbn. rewrite (O2 k' K). reflexivity.
  - change (list_items s1) with (list_items s) in L2.
    change (current_row s1) with (current_row s) in L2.
    destruct L2 as [L2|(r & Rw & L2)]; [left | right; exists r; split; [exact Rw|]];
      congruence.
Qed.

(** X9: selecting a stopped project whose total, in display format,
    differs from the text of the total field stores the value of the
    current field - the current of the project shown before - as the
    current of the selected project; its own current is lost.  Its total
    becomes what its text of one decimal reads and its description what
    the text edit reads back of it; id, name and timer fields, the other
    projects and the dialogs are as before. *)
Theorem selecting_stores_the_current_shown_before
  (n : nat) (row : nat) (label k : string) (p : Project) (shown : Q) (s : App) :
  nth_error (list_items s) row = Some (label, k) ->
  is_current k s = false -> k <> "" ->
  dict_get k (projects s) = Some p ->
  is_running p = false ->
  Py.format_1f (total_units p) <> total_value_input s ->
  Py.float (current_value_input s) = Some shown ->
  Py.is_blank (current_value_input s) = false ->
  Py.format_1f shown = current_value_input s ->
  exists s',
    run (S (S (S n))) (SelectProjectFromList (Some row)) s = Returns s' /\
    current_project_id s' = Some k /\
    dict_get k (projects s')
    = Some (mkProject (id p) (name p)
              (_get_safe_value (Py.format_1f (total_units p)) (total_units p)) shown
              (start_time p) false (elapsed_at_pause p)
              (toPlainText (description p) s)) /\
    (forall k', k' <> k -> dict_get k' (projects s') = dict_get k' (projects s)) /\
    total_value_input s' = Py.format_1f (total_units p) /\
    current_value_input s' = current_value_input s /\
    project_name_input s' = name p /\
    project_description_input s' = toPlainText (description p) s /\
    start_timer_button s' = "Start Timer" /\
    dialogs s' = dialogs s.
Proof.
  intros Item NC N G R T F B Fmt.
  pose proof (select_rewrites n row label k p s Item NC N G R) as H.
  apply String.eqb_neq in T. rewrite String.eqb_sym in T.
  cbv zeta in H. rewrite T in H. cbv iota in H.
  assert (C1 : _get_safe_value (current_value_input s) (current_units p) = shown)
    by (unfold _get_safe_value; rewrite B, F; reflexivity).
  assert (C2 : _get_safe_value (current_value_input s) shown = shown)
    by (unfold _get_safe_value; rewrite B, F; reflexivity).
  rewrite C1, Fmt, C2 in H.
  destruct H as (s' & E & (D & G' & O) & _).
  fields D. exists s'. split; [exact E|]. split; [assumption|].
  split; [rewrite G', <- R; destruct p; reflexivity|].
  split; [exact O|]. repeat split; assumption.
Qed.

Lemma selecting_stores_the_current_shown_before_witness :
  let first := idle_project (1000 # 10) (500 # 10) in
  let second := mkProject "p2" "Other" 200 20 None false 0 "notes" in
  let s := mkApp [("p1", first); ("p2", second)] (Some "p1")
                 [("Demo", "p1"); ("Other", "p2")] (Some 1%nat) "Demo" ""
                 "100.0" "50.0" 50 "50.0%" "ETC: --:--:--" "Start Timer" [] 0
                 (fun _ => "") 2 (fun t => t) in
  exists s',
    run 3 (SelectProjectFromList (Some 1%nat)) s = Returns s' /\
    current_project_id s' = Some "p2" /\
    dict_get "p2" (projects s')
    = Some (mkProject "p2" "Other" (2000 # 10) (500 # 10) None false 0 "notes") /\
    (forall k', k' <> "p2" -> dict_get k' (projects s') = dict_get k' (projects s)) /\
    total_value_input s' = "200.0" /\
    current_value_input s' = "50.0" /\
    project_name_input s' = "Other" /\
    project_description_input s' = "notes" /\
    start_timer_button s' = "Start Timer" /\
    dialogs s' = [].
Proof.
  intros first second s.
  apply (selecting_stores_the_current_shown_before 0 1 "Other" "p2" second (500 # 10) s);
    try reflexivity; discriminate.
Defined.

Lemma dict_get_set (k' k : string) (v : Project) (d : dict) :
  dict_get k' (dict_set k v d) = if String.eqb k' k then Some v else dict_get k' d.
Proof.
  induction d as [|[k0 v0] d IH]; simpl.
  - rewrite String.eqb_sym. reflexivity.
  - destruct (String.eqb k0 k) eqn:E; simpl.
    + apply String.eqb_eq in E. subst k0. rewrite (String.eqb_sym k' k).
      destruct (String.eqb k k'); reflexivity.
    + rewrite IH. destruct (String.eqb k0 k') eqn:E'; [|reflexivity].
      apply String.eqb_eq in E'. subst k0. rewrite E. reflexivity.
Qed.

Lemma item_setText_last (items : list (string * string)) (t data : string) :
  item_setText (List.length items) t (items ++ [(t, data)]) = (items ++ [(t, data)])%list.
Proof.
  unfold item_setText.
  rewrite nth_error_app2, Nat.sub_diag by apply Nat.le_refl. cbn [nth_error].
  rewrite firstn_app, Nat.sub_diag, firstn_all. cbn [firstn]. rewrite app_nil_r.
  rewrite skipn_app, skipn_all2 by (apply Nat.le_succ_diag_r).
  replace (S (List.length items) - List.length items)%nat with 1%nat by lia.
  reflexivity.
Qed.

Lemma add_new_project_rewrites (n : nat) (s : App) :
  let fresh := uuids s (uuid_count s) in
  let new_name := "New Project " ++ Py.str_N (Z.of_nat (List.length (projects s)) + 1) in
  let shown :=
    if String.eqb (total_value_input s) "100.0" then 0
    else _get_safe_value (current_value_input s) 0 in
  fresh <> "" ->
  dict_get fresh (projects s) = None ->
  is_current fresh s = false ->
  exists s',
    run (S (S (S (S n)))) AddNewProject s = Returns s' /\
    rewritten fresh
      (edit (_get_safe_value "100.0" 100) (_get_safe_value (Py.format_1f shown) shown)
         (new_Project fresh new_name))
      (set_start_timer_button "Start Timer"
         (set_current_value_input (Py.format_1f shown)
            (set_total_value_input "100.0"
               (set_project_description_input ""
                  (set_project_name_input new_name
                     (set_current_row (Some (List.length (list_items s)))
                        (set_list_items (list_items s ++ [(new_name, fresh)])
                           (set_uuid_count (S (uuid_count s))
                              (set_current_project_id (Some fresh) s))))))))) s'.
Proof.
  intros fresh new_name shown N G NC.
  rewrite run_S. cbn [handler]. unfold add_new_project. cbv zeta.
  cbn [projects list_items set_uuid_count set_projects set_list_items uuids uuid_count].
  fold fresh. fold new_name.
  set (new := new_Project fresh new_name).
  change (id new) with fresh. change (name new) with new_name.
  set (sa := set_current_row _ _).
  destruct (select_rewrites n (List.length (list_items s)) new_name fresh new sa)
    as (s' & E & (D & G' & O) & L).
  - unfold sa. cbn. rewrite nth_error_app2, Nat.sub_diag by apply Nat.le_refl. reflexivity.
  - exact NC.
  - exact N.
  - unfold sa. cbn. rewrite dict_get_set, String.eqb_refl. reflexivity.
  - reflexivity.
  - exists s'. split; [exact E|].
    change (Py.format_1f (total_units new)) with "100.0" in *.
    change (current_units new) with 0 in *.
    change (total_units new) with 100 in *.
    change (total_value_input sa) with (total_value_input s) in *.
    change (current_value_input sa) with (current_value_input s) in *.
    fold shown in D, G'.
    assert (L' : list_items s' = (list_items s ++ [(new_name, fresh)])%list).
    { unfold sa in L. cbn in L. destruct L as [L|(r & Rw & L)]; [exact L|].
      injection Rw as <-. rewrite L. apply item_setText_last. }
    split; [|split].
    + rewrite D. unfold sa, beside_display. cbn. rewrite L'. reflexivity.
    + exact G'.
    + intros k K. rewrite (O k K). unfold sa. cbn. rewrite dict_get_set.
      apply String.eqb_neq in K. rewrite K. reflexivity.
Qed.

(** X10: [add_new_project] stores a stopped project named after the size
    of the store under the next id, appends its item to the list and
    selects it; the other projects and the dialogs are as before.  Its
    total is 100; its current is 0 only if the total field showed 100.0:
    otherwise it is the value of the current field, that is, the current
    of the project shown before. *)
Theorem add_new_project_appends_and_selects (n : nat) (s : App) :
  let fresh := uuids s (uuid_count s) in
  let new_name := "New Project " ++ Py.str_N (Z.of_nat (List.length (projects s)) + 1) in
  fresh <> "" ->
  dict_get fresh (projects s) = None ->
  is_current fresh s = false ->
  exists s' p',
    run (S (S (S (S n)))) AddNewProject s = Returns s' /\
    current_project_id s' = Some fresh /\
    dict_get fresh (projects s') = Some p' /\
    (forall k, k <> fresh -> dict_get k (projects s') = dict_get k (projects s)) /\
    list_items s' = (list_items s ++ [(new_name, fresh)])%list /\
    current_row s' = Some (List.length (list_items s)) /\
    uuid_count s' = S (uuid_count s) /\
    dialogs s' = dialogs s /\
    timer_fields p' = (fresh, new_name, None, false, 0, "") /\
    total_units p' == 100 /\
    (total_value_input s = "100.0" -> current_units p' == 0) /\
    (total_value_input s <> "100.0" ->
     let shown := _get_safe_value (current_value_input s) 0 in
     current_units p' = _get_safe_value (Py.format_1f shown) shown).
Proof.
  intros fresh new_name N G NC.
  destruct (add_new_project_rewrites n s N G NC) as (s' & E & D & G' & O).
  fields D. exists s'. eexists. split; [exact E|].
  split; [assumption|]. split; [exact G'|]. split; [exact O|].
  split; [assumption|]. split; [assumption|]. split; [assumption|].
  split; [assumption|]. split; [reflexivity|].
  split; [vm_compute; reflexivity|].
  cbn [edit with_total_units current_units]. split.
  - intros ->. vm_compute. reflexivity.
  - intros T. apply String.eqb_neq in T. rewrite T. reflexivity.
Qed.

Lemma add_new_project_appends_and_selects_witness :
  let s := set_uuids (fun _ => "n1")
             (app_showing (idle_project (2000 # 10) (500 # 10)) "200.0" "50.0" 0) in
  exists s' p',
    run 4 AddNewProject s = Returns s' /\
    current_project_id s' = Some "n1" /\
    dict_get "n1" (projects s') = Some p' /\
    (forall k, k <> "n1" -> dict_get k (projects s') = dict_get k (projects s)) /\
    list_items s' = [("Demo", "p1"); ("New Project 2", "n1")] /\
    current_row s' = Some 1%nat /\
    uuid_count s' = 1%nat /\
    dialogs s' = [] /\
    timer_fields p' = ("n1", "New Project 2", None, false, 0, "") /\
    total_units p' == 100 /\
    ("200.0" = "100.0" -> current_units p' == 0) /\
    ("200.0" <> "100.0" -> current_units p' = 500 # 10).
Proof.
  intro s.
  apply (add_new_project_appends_and_selects 0 s); [discriminate | reflexivity | reflexivity].
Defined.

(** ** Finishing an edit of a stopped project *)

Lemma getattr_setattr (a : attr) (v : Q) (p : Project) : getattr (setattr a v p) a = v.
Proof. destruct a; reflexivity. Qed.

(** The end of [_finalize_input_editing] for a stopped project: the field
    [w] takes the stored value in display format and the display is
    refreshed from both fields. *)
Lemma finalize_tail_rewrites (n : nat) (cur : string) (p : Project) (w : line_edit)
  (s : App) :
  selected cur p s -> is_running p = false ->
  let a := match w with total_input => total_units_attr | current_input => current_units_attr end in
  let t := Py.format_1f (getattr p a) in
  exists s',
    (s1 <- setText (run (S (S n))) w t s ;; run (S (S n)) UpdateDisplayFromInputs s1)
    = Returns s' /\
    rewritten cur
      match w with
      | total_input =>
          edit (_get_safe_value t (total_units p))
               (_get_safe_value (current_value_input s) (current_units p)) p
      | current_input =>
          edit (_get_safe_value (total_value_input s) (total_units p))
               (_get_safe_value t (current_units p)) p
      end
      (set_text w t s) s'.
Proof.
  intros Sel R a t. pose proof Sel as (C & N & G).
  destruct (setText_rewrites n cur p w t s Sel R) as (s1 & E1 & W1).
  rewrite E1. cbn [bind].
  set (p1 := if String.eqb (text w s) t then p else live_record p (set_text w t s)) in *.
  assert (R1 : is_running p1 = false)
    by (unfold p1; destruct (String.eqb (text w s) t); exact R).
  assert (Sel1 : selected cur p1 s1).
  { apply (rewritten_selected _ _ _ _ W1); [|exact N]. destruct w; exact C. }
  destruct (display_rewrites n cur p1 s1 Sel1 R1) as (s2 & E2 & W2).
  exists s2. split; [exact E2|].
  destruct W1 as (B1 & G1 & O1), W2 as (B2 & G2 & O2).
  fields B1. fields B2.
  assert (A1 : p1 = edit (total_units p1) (current_units p1) p).
  { unfold p1. destruct (String.eqb (text w s) t); [symmetry; apply edit_same | reflexivity]. }
  split; [congruence | split].
  - rewrite G2. f_equal. rewrite A1 at 1. rewrite live_record_edit.
    replace (total_value_input s2) with (total_value_input s1) by congruence.
    replace (current_value_input s2) with (current_value_input s1) by congruence.
    subst a. unfold p1.
    destruct w;
      cbn [text set_text getattr total_value_input current_value_input
           set_total_value_input set_current_value_input] in *.
    + replace (total_value_input s1) with t by congruence.
      replace (current_value_input s1) with (current_value_input s) by congruence.
      destruct (String.eqb (total_value_input s) t); [reflexivity|].
      cbn [live_record total_units current_units with_total_units with_current_units
           total_value_input current_value_input set_total_value_input].
      rewrite !safe_value_twice. reflexivity.
    + replace (total_value_input s1) with (total_value_input s) by congruence.
      replace (current_value_input s1) with t by congruence.
      destruct (String.eqb (current_value_input s) t); [reflexivity|].
      cbn [live_record total_units current_units with_total_units with_current_units
           total_value_input current_value_input set_current_value_input].
      rewrite !safe_value_twice. reflexivity.
  - intros k K. rewrite (O2 k K). apply O1, K.
Qed.

Lemma finalize_value_rewrites (n : nat) (cur : string) (p : Project) (w : line_edit)
  (c : Q) (s : App) :
  selected cur p s -> is_running p = false ->
  let a := match w with total_input => total_units_attr | current_input => current_units_attr end in
  let t := Py.format_1f c in
  exists s',
    (s1 <- setText (run (S (S n))) w t (update_project cur (setattr a c) s) ;;
     run (S (S n)) UpdateDisplayFromInputs s1)
    = Returns s' /\
    rewritten cur
      match w with
      | total_input =>
          edit (_get_safe_value t c)
               (_get_safe_value (current_value_input s) (current_units p)) p
      | current_input =>
          edit (_get_safe_value (total_value_input s) (total_units p))
               (_get_safe_value t c) p
      end
      (set_text w t s) s'.
Proof.
  intros Sel R a t. pose proof Sel as (C & N & G).
  assert (Sel1 : selected cur (setattr a c p) (update_project cur (setattr a c) s)).
  { split; [exact C | split; [exact N|]]. cbn. rewrite dict_get_update_same, G. reflexivity. }
  assert (R1 : is_running (setattr a c p) = false) by (subst a; destruct w; exact R).
  destruct (finalize_tail_rewrites n cur (setattr a c p) w _ Sel1 R1) as (s' & E & B & G' & O).
  exists s'. subst a t. split; [|split; [|split]].
  - destruct w; exact E.
  - rewrite B. destruct w; reflexivity.
  - rewrite G'. destruct w; reflexivity.
  - intros k K. rewrite (O k K). destruct w; cbn; rewrite dict_get_update;
      apply String.eqb_neq in K; rewrite K; reflexivity.
Qed.

(** X11: finishing the edit of the total of a stopped project.  A
    number that is 0 or less is answered with a warning and the stored
    total is used; a number below the stored current is answered with a
    warning and the current is used; any other number is taken.  The field
    shows the result with one decimal, the record holds what the two
    fields then read, and nothing else changes. *)
Theorem finalizing_the_total_of_a_stopped_project
  (n : nat) (cur : string) (p : Project) (value : Q) (s : App) :
  selected cur p s -> is_running p = false ->
  Py.float (total_value_input s) = Some value ->
  let taken :=
    if Qle_bool value 0 then total_units p
    else if Py.Qlt_bool value (current_units p) then current_units p
    else value in
  let shown :=
    if Qle_bool value 0 then
      [mkDialog Warning "Input Error" "Total Work Units must be a positive number."]
    else if Py.Qlt_bool value (current_units p) then
      [mkDialog Warning "Input Error"
         "Total Work Units cannot be less than Current Work Units. Setting to Current Work Units."]
    else [] in
  exists s',
    run (S (S (S n))) (FinalizeInputEditing total_input total_units_attr
                         "Total Work Units" true) s = Returns s' /\
    dict_get cur (projects s')
    = Some (edit (_get_safe_value (Py.format_1f taken) taken)
                 (_get_safe_value (current_value_input s) (current_units p)) p) /\
    (forall k, k <> cur -> dict_get k (projects s') = dict_get k (projects s)) /\
    total_value_input s' = Py.format_1f taken /\
    current_value_input s' = current_value_input s /\
    dialogs s' = (dialogs s ++ shown)%list.
Proof.
  intros Sel R F taken shown. pose proof Sel as (C & N & G).
  rewrite run_S. cbn [handler]. unfold _finalize_input_editing, lookup.
  rewrite C, (truthy_Some _ N), G. cbn [text]. rewrite F. unfold validate.
  subst taken shown.
  destruct (Qle_bool value 0); [|destruct (Py.Qlt_bool value (current_units p))];
    cbn [bind getattr];
    match goal with
    | |- exists s', (s1 <- setText _ _ _ (update_project _ (setattr _ ?c) ?sv) ;; _) = _ /\ _ =>
        destruct (finalize_value_rewrites n cur p total_input c sv) as (s' & E & B & G' & O);
          [exact Sel | exact R |]
    end;
    exists s'; fields B;
    (split; [exact E|]); (split; [exact G'|]); (split; [exact O|]);
    repeat split; try assumption.
  rewrite app_nil_r. assumption.
Qed.

(** X12: finishing the edit of the current of a stopped project.  A
    negative number is answered with a warning and the stored current is
    used; a number above the stored total is answered with a note and the
    total is used; any other number is taken.  The field shows the result
    with one decimal, the record holds what the two fields then read, and
    nothing else changes. *)
Theorem finalizing_the_current_of_a_stopped_project
  (n : nat) (cur : string) (p : Project) (value : Q) (s : App) :
  selected cur p s -> is_running p = false ->
  Py.float (current_value_input s) = Some value ->
  let taken :=
    if Py.Qlt_bool value 0 then current_units p
    else if Py.Qlt_bool (total_units p) value then total_units p
    else value in
  let shown :=
    if Py.Qlt_bool value 0 then
      [mkDialog Warning "Input Error" "Current Work Units cannot be negative."]
    else if Py.Qlt_bool (total_units p) value then
      [mkDialog Information "Input Info"
         "Current Work Units cannot exceed Total Work Units. Setting to Total Work Units."]
    else [] in
  exists s',
    run (S (S (S n))) (FinalizeInputEditing current_input current_units_attr
                         "Current Work Units" false) s = Returns s' /\
    dict_get cur (projects s')
    = Some (edit (_get_safe_value (total_value_input s) (total_units p))
                 (_get_safe_value (Py.format_1f taken) taken) p) /\
    (forall k, k <> cur -> dict_get k (projects s') = dict_get k (projects s)) /\
    total_value_input s' = total_value_input s /\
    current_value_input s' = Py.format_1f taken /\
    dialogs s' = (dialogs s ++ shown)%list.
Proof.
  intros Sel R F taken shown. pose proof Sel as (C & N & G).
  rewrite run_S. cbn [handler]. unfold _finalize_input_editing, lookup.
  rewrite C, (truthy_Some _ N), G. cbn [text]. rewrite F. unfold validate.
  subst taken shown. rewrite R.
  destruct (Py.Qlt_bool value 0); [|destruct (Py.Qlt_bool (total_units p) value)];
    cbn [bind getattr];
    match goal with
    | |- exists s', (s1 <- setText _ _ _ (update_project _ (setattr _ ?c) ?sv) ;; _) = _ /\ _ =>
        destruct (finalize_value_rewrites n cur p current_input c sv) as (s' & E & B & G' & O);
          [exact Sel | exact R |]
    end;
    exists s'; fields B;
    (split; [exact E|]); (split; [exact G'|]); (split; [exact O|]);
    repeat split; try assumption.
  rewrite app_nil_r. assumption.
Qed.

Lemma finalizing_the_total_of_a_stopped_project_witness :
  let p := idle_project 0 (500 # 10) in
  let s := app_showing p "0" "50.0" 0 in
  exists s',
    run 3 (FinalizeInputEditing total_input total_units_attr "Total Work Units" true) s
    = Returns s' /\
    dict_get "p1" (projects s')
    = Some (edit (_get_safe_value "0.0" 0) (_get_safe_value "50.0" (500 # 10)) p) /\
    (forall k, k <> "p1" -> dict_get k (projects s') = dict_get k (projects s)) /\
    total_value_input s' = "0.0" /\
    current_value_input s' = "50.0" /\
    dialogs s'
    = [mkDialog Warning "Input Error" "Total Work Units must be a positive number."].
Proof.
  intros p s.
  apply (finalizing_the_total_of_a_stopped_project 0 "p1" p 0 s).
  - repeat split. discriminate.
  - reflexivity.
  - reflexivity.
Defined.

Lemma finalizing_the_current_of_a_stopped_project_witness :
  let p := idle_project (1000 # 10) 150 in
  let s := app_showing p "100.0" "150" 0 in
  exists s',
    run 3 (FinalizeInputEditing current_input current_units_attr "Current Work Units" false) s
    = Returns s' /\
    dict_get "p1" (projects s')
    = Some (edit (_get_safe_value "100.0" (1000 # 10)) (_get_safe_value "100.0" (1000 # 10)) p) /\
    (forall k, k <> "p1" -> dict_get k (projects s') = dict_get k (projects s)) /\
    total_value_input s' = "100.0" /\
    current_value_input s' = "100.0" /\
    dialogs s'
    = [mkDialog Information "Input Info"
         "Current Work Units cannot exceed Total Work Units. Setting to Total Work Units."].
Proof.
  intros p s.
  apply (finalizing_the_current_of_a_stopped_project 0 "p1" p 150 s).
  - repeat split. discriminate.
  - reflexivity.
  - reflexivity.
Defined.

(** ** [toggle_timer()] on a stopped project *)

Lemma finalize_stopped_rewrites (n : nat) (cur : string) (p : Project) (w : line_edit)
  (s : App) :
  selected cur p s -> is_running p = false ->
  let value := taken w p (text w s) in
  exists s',
    run (S (S (S n)))
      match w with
      | total_input =>
          FinalizeInputEditing total_input total_units_attr "Total Work Units" true
      | current_input =>
          FinalizeInputEditing current_input current_units_attr "Current Work Units" false
      end s = Returns s' /\
    selected cur
      match w with
      | total_input =>
          edit (reread value) (_get_safe_value (current_value_input s) (current_units p)) p
      | current_input =>
          edit (_get_safe_value (total_value_input s) (total_units p)) (reread value) p
      end s' /\
    (forall k, k <> cur -> dict_get k (projects s') = dict_get k (projects s)) /\
    (total_value_input s', current_value_input s')
    = (total_value_input (set_text w (Py.format_1f value) s),
       current_value_input (set_text w (Py.format_1f value) s)) /\
    (start_timer_button s', clock s') = (start_timer_button s, clock s) /\
    exists shown, dialogs s' = (dialogs s ++ shown)%list.
Proof.
  intros Sel R value. pose proof Sel as (C & N & G).
  assert (Box : forall i t m, selected cur p (message_box i t m s))
    by (intros; exact Sel).
  assert (Fin : forall c sv more,
            selected cur p sv ->
            (total_value_input sv, current_value_input sv, start_timer_button sv, clock sv,
             current_project_id sv)
            = (total_value_input s, current_value_input s, start_timer_button s, clock s,
               current_project_id s) ->
            (forall k, dict_get k (projects sv) = dict_get k (projects s)) ->
            dialogs sv = (dialogs s ++ more)%list ->
            value = c ->
            forall s',
              rewritten cur
                match w with
                | total_input =>
                    edit (_get_safe_value (Py.format_1f c) c)
                      (_get_safe_value (current_value_input sv) (current_units p)) p
                | current_input =>
                    edit (_get_safe_value (total_value_input sv) (total_units p))
                      (_get_safe_value (Py.format_1f c) c) p
                end
                (set_text w (Py.format_1f c) sv) s' ->
              selected cur
                match w with
                | total_input =>
                    edit (reread value)
                      (_get_safe_value (current_value_input s) (current_units p)) p
                | current_input =>
                    edit (_get_safe_value (total_value_input s) (total_units p))
                      (reread value) p
                end s' /\
              (forall k, k <> cur -> dict_get k (projects s') = dict_get k (projects s)) /\
              (total_value_input s', current_value_input s')
              = (total_value_input (set_text w (Py.format_1f value) s),
                 current_value_input (set_text w (Py.format_1f value) s)) /\
              (start_timer_button s', clock s') = (start_timer_button s, clock s) /\
              exists shown, dialogs s' = (dialogs s ++ shown)%list).
  { intros c sv more _ W P D V s' (B & G' & O). fields B.
    injection W as W1 W2 W3 W4 W5. rewrite V. unfold reread.
    destruct w; unfold set_text, set_total_value_input, set_current_value_input in *;
      cbn [current_project_id total_value_input current_value_input start_timer_button
           clock dialogs projects] in *;
      (split; [|split; [|split; [|split]]]);
      try congruence.
    - split; [congruence | split; [exact N|]]. rewrite G', W2. reflexivity.
    - intros k K. rewrite (O k K). apply P.
    - exists more. congruence.
    - split; [congruence | split; [exact N|]]. rewrite G', W1. reflexivity.
    - intros k K. rewrite (O k K). apply P.
    - exists more. congruence. }
  destruct w; cbv zeta; rewrite run_S; cbn [handler];
    unfold _finalize_input_editing, lookup;
    rewrite C, (truthy_Some _ N), G; cbn [text]; subst value; unfold taken in *; cbn [text] in *.
  - destruct (Py.float (total_value_input s)) as [value|].
    + unfold validate.
      destruct (Qle_bool value 0); [|destruct (Py.Qlt_bool value (current_units p))];
        cbn [bind getattr];
        match goal with
        | |- exists s', (s1 <- setText _ _ _ (update_project _ (setattr _ ?c) ?sv) ;; _) = _ /\ _ =>
            destruct (finalize_value_rewrites n cur p total_input c sv) as (s' & E & W);
              [exact Sel | exact R |];
              exists s'; (split; [exact E|]);
              first [ apply (Fin c sv [] Sel eq_refl (fun _ => eq_refl)
                               (eq_sym (app_nil_r _)) eq_refl s' W)
                    | apply (Fin c sv _ Sel eq_refl (fun _ => eq_refl) eq_refl eq_refl s' W) ]
        end.
    + destruct (negb (Py.is_blank (total_value_input s)));
        match goal with
        | |- exists s', (s1 <- setText _ _ _ ?sv ;; _) = _ /\ _ =>
            destruct (finalize_tail_rewrites n cur p total_input sv) as (s' & E & W);
              [exact Sel | exact R |];
              exists s'; (split; [exact E|]);
              first [ apply (Fin (total_units p) sv [] Sel eq_refl (fun _ => eq_refl)
                               (eq_sym (app_nil_r _)) eq_refl s' W)
                    | apply (Fin (total_units p) sv _ Sel eq_refl (fun _ => eq_refl)
                               eq_refl eq_refl s' W) ]
        end.
  - destruct (Py.float (current_value_input s)) as [value|].
    + unfold validate. rewrite R.
      destruct (Py.Qlt_bool value 0); [|destruct (Py.Qlt_bool (total_units p) value)];
        cbn [bind getattr];
        match goal with
        | |- exists s', (s1 <- setText _ _ _ (update_project _ (setattr _ ?c) ?sv) ;; _) = _ /\ _ =>
            destruct (finalize_value_rewrites n cur p current_input c sv) as (s' & E & W);
              [exact Sel | exact R |];
              exists s'; (split; [exact E|]);
              first [ apply (Fin c sv [] Sel eq_refl (fun _ => eq_refl)
                               (eq_sym (app_nil_r _)) eq_refl s' W)
                    | apply (Fin c sv _ Sel eq_refl (fun _ => eq_refl) eq_refl eq_refl s' W) ]
        end.
    + destruct (negb (Py.is_blank (current_value_input s)));
        match goal with
        | |- exists s', (s1 <- setText _ _ _ ?sv ;; _) = _ /\ _ =>
            destruct (finalize_tail_rewrites n cur p current_input sv) as (s' & E & W);
              [exact Sel | exact R |];
              exists s'; (split; [exact E|]);
              first [ apply (Fin (current_units p) sv [] Sel eq_refl (fun _ => eq_refl)
                               (eq_sym (app_nil_r _)) eq_refl s' W)
                    | apply (Fin (current_units p) sv _ Sel eq_refl (fun _ => eq_refl)
                               eq_refl eq_refl s' W) ]
        end.
Qed.

Lemma edit_edit (a b c d : Q) (p : Project) : edit a b (edit c d p) = edit a b p.
Proof. destruct p; reflexivity. Qed.

(** [toggle_timer()], the call without an argument, on the selected
    project whose timer is stopped: both fields are finalized, the total
    first, and the record that results, [finalized p s], decides.  If its
    total is positive and its current lies between 0 and the total, the
    timer starts at the time of the call and the button reads Stop Timer;
    otherwise the record stays as finalization left it and the last
    dialog is one of "Timer Error" and "Timer Info".  No other project
    changes. *)
Lemma toggle_timer_of_a_stopped_project (n : nat) (cur : string) (p : Project) (s : App) :
  selected cur p s -> is_running p = false ->
  let q := finalized p s in
  exists s',
    run (S (S (S (S n)))) (ToggleTimer None) s = Returns s' /\
    (forall k, k <> cur -> dict_get k (projects s') = dict_get k (projects s)) /\
    (may_start q ->
       dict_get cur (projects s')
       = Some (with_is_running true (with_start_time (Some (clock s)) q)) /\
       start_timer_button s' = "Stop Timer") /\
    (~ may_start q ->
       dict_get cur (projects s') = Some q /\
       start_timer_button s' = start_timer_button s /\
       exists before d,
         dialogs s' = (dialogs s ++ before ++ [d])%list /\
         (dialog_title d = "Timer Error" \/ dialog_title d = "Timer Info")).
Proof.
  intros Sel R q. pose proof Sel as (C & N & G).
  rewrite run_S. cbn [handler]. unfold toggle_timer.
  rewrite C, (truthy_Some _ N), (dict_mem_get _ _ _ G), (is_current_selected _ _ _ Sel).
  cbn [negb orb].
  destruct (finalize_stopped_rewrites n cur p total_input s Sel R)
    as (s1 & E1 & Sel1 & O1 & T1 & K1 & (sh1 & D1)).
  cbv zeta in E1. rewrite E1. cbn [bind]. cbn [text] in *.
  set (tt := taken total_input p (total_value_input s)) in *.
  set (p1 := edit (reread tt) (_get_safe_value (current_value_input s) (current_units p)) p)
    in *.
  injection T1 as T1t T1c. cbn in T1t, T1c.
  destruct (finalize_stopped_rewrites n cur p1 current_input s1 Sel1 R)
    as (s2 & E2 & Sel2 & O2 & T2 & K2 & (sh2 & D2)).
  cbv zeta in E2. rewrite E2. cbn [bind]. cbn [text] in *.
  rewrite T1c, T1t in *.
  set (tc := taken current_input p1 (current_value_input s)) in *.
  injection T2 as T2t T2c. cbn in T2t, T2c. rewrite T1t in T2t.
  injection K1 as B1 Kc1. injection K2 as B2 Kc2.
  assert (Eq : q = edit (reread tt) (reread tc) p) by reflexivity.
  assert (Sq : selected cur q s2).
  { destruct Sel2 as (C2 & _ & G2). split; [exact C2 | split; [exact N|]].
    rewrite G2, Eq. unfold p1 at 2. rewrite edit_edit. unfold p1.
    cbn [edit total_units with_total_units with_current_units].
    unfold reread at 1. rewrite safe_value_twice. reflexivity. }
  pose proof Sq as (C2 & _ & G2).
  unfold lookup at 1. rewrite G2. cbn [bind].
  match goal with
  | |- exists s', lookup cur ?t _ = _ /\ _ => set (s3 := t)
  end.
  assert (G3 : dict_get cur (projects s3) = Some q).
  { unfold s3. cbn [projects update_project set_projects current_value_input].
    rewrite !dict_get_update_same, G2. cbn [option_map].
    rewrite T2t, T2c, Eq.
    cbn [edit total_units current_units with_total_units with_current_units].
    unfold reread. rewrite !safe_value_twice. destruct p; reflexivity. }
  assert (O3 : forall k, k <> cur -> dict_get k (projects s3) = dict_get k (projects s)).
  { intros k K. unfold s3. cbn [projects update_project set_projects].
    rewrite !dict_get_update. apply String.eqb_neq in K. rewrite K.
    rewrite (O2 k), (O1 k); [reflexivity | |]; apply String.eqb_neq; exact K. }
  assert (W3 : current_project_id s3 = Some cur /\
               start_timer_button s3 = start_timer_button s /\
               clock s3 = clock s /\
               dialogs s3 = (dialogs s ++ sh1 ++ sh2)%list).
  { unfold s3. cbn. rewrite D2, D1, <- app_assoc. repeat split; congruence. }
  destruct W3 as (C3 & B3 & K3 & D3).
  assert (Sel3 : selected cur q s3) by (split; [exact C3 | split; [exact N | exact G3]]).
  assert (Rq : is_running q = false) by exact R.
  clearbody s3.
  unfold lookup. rewrite G3, Rq. cbn [negb].
  destruct (Qle_bool (total_units q) 0) eqn:A;
    [|destruct (Py.Qlt_bool (current_units q) 0) eqn:A';
      [|destruct (Qle_bool (total_units q) (current_units q)) eqn:A'']].
  - eexists. split; [reflexivity|]. split; [exact O3|]. split.
    + intros (H & _). apply Qle_bool_iff in A. exfalso. lra.
    + intros _. split; [exact G3|]. split; [exact B3|].
      eexists. eexists. split; [cbn; rewrite D3, <- app_assoc; reflexivity|].
      left. reflexivity.
  - eexists. split; [reflexivity|]. split; [exact O3|]. split.
    + intros (_ & H & _). apply Qlt_bool_iff in A'. exfalso. lra.
    + intros _. split; [exact G3|]. split; [exact B3|].
      eexists. eexists. split; [cbn; rewrite D3, <- app_assoc; reflexivity|].
      left. reflexivity.
  - match goal with
    | |- exists s', run _ _ ?t = _ /\ _ => destruct (etc_stopped (S (S n)) cur q t G3 Rq) as [t' E]
    end.
    rewrite E. eexists. split; [reflexivity|]. rewrite projects_show_etc. split; [exact O3|].
    split.
    + intros (_ & _ & H). apply Qle_bool_iff in A''. exfalso. lra.
    + intros _. split; [exact G3|].
      unfold show_etc. destruct (is_current _ _); cbn; (split; [exact B3|]);
        eexists; eexists; (split; [rewrite D3, <- app_assoc; reflexivity|]);
        right; reflexivity.
  - apply Qle_bool_false_iff in A, A''. apply Qlt_bool_false_iff in A'.
    assert (Cb : forall t s4, is_current cur s4 = true ->
                   is_current cur (set_start_timer_button t s4) = true)
      by (intros t s4 H; exact H).
    unfold show_button.
    rewrite !is_current_update_project, (is_current_selected _ _ _ Sel3).
    rewrite Cb; [|rewrite !is_current_update_project; exact (is_current_selected _ _ _ Sel3)].
    rewrite update_project_fuse, K3.
    set (q' := with_is_running true (with_start_time (Some (clock s)) q)).
    match goal with
    | |- exists s', run _ _ ?t = _ /\ _ => set (s4 := t)
    end.
    assert (G4 : dict_get cur (projects s4) = Some q').
    { unfold s4. cbn. rewrite dict_get_update_same, G3. reflexivity. }
    destruct (etc_without_completion (run (S (S n))) cur q' s4 G4) as [t' E].
    { apply below_total_never_completes; assumption. }
    { discriminate. }
    rewrite run_S. cbn [handler]. rewrite E.
    eexists. split; [reflexivity|]. rewrite projects_show_etc. split.
    + intros k K. unfold s4. cbn. rewrite dict_get_update.
      apply String.eqb_neq in K. rewrite K. apply O3. apply String.eqb_neq. exact K.
    + split.
      * intros _. split; [exact G4|].
        unfold show_etc. destruct (is_current _ _); reflexivity.
      * intros H. exfalso. apply H. repeat split; assumption.
Qed.

(** ** Resetting a stopped project *)

(** X13: [reset_selected_project] stops the timer, clears the elapsed
    time and the description and sets the current to 0.  The total
    returns to 100 only if the current field already showed 0.0:
    otherwise writing 0.0 into the current field stores the text of the
    total field as the total again, and that value stays. *)
Theorem reset_returns_the_total_to_100_only_from_a_current_of_zero
  (n : nat) (cur : string) (p : Project) (s : App) :
  selected cur p s ->
  let total :=
    if String.eqb (current_value_input s) "0.0" then 100
    else _get_safe_value (total_value_input s) 100 in
  exists s' p',
    run (S (S (S n))) ResetSelectedProject s = Returns s' /\
    dict_get cur (projects s') = Some p' /\
    timer_fields p' = (id p, name p, None, false, 0, "") /\
    current_units p' == 0 /\
    total_units p' = _get_safe_value (Py.format_1f total) total /\
    (forall k, k <> cur -> dict_get k (projects s') = dict_get k (projects s)) /\
    current_value_input s' = "0.0" /\
    total_value_input s' = Py.format_1f total /\
    project_description_input s' = "" /\
    start_timer_button s' = "Start Timer" /\
    dialogs s' = dialogs s.
Proof.
  intros Sel total. pose proof Sel as (C & N & G).
  rewrite run_S. cbn [handler]. unfold reset_selected_project.
  unfold lookup at 1. rewrite C, (truthy_Some _ N), G.
  rewrite !update_project_fuse.
  set (f := fun p0 : Project => with_description "" _).
  set (s0 := update_project cur f s).
  assert (W0 : rewritten cur (f p) s s0) by (apply rewritten_update, G).
  assert (Sel0 : selected cur (f p) s0)
    by (apply (rewritten_selected _ _ _ _ W0); assumption).
  unfold lookup at 1. rewrite (proj2 (proj2 Sel0)).
  destruct (setText_rewrites n cur (f p) current_input
              (Py.format_1f (current_units (f p))) s0 Sel0 eq_refl) as (s1 & E1 & W1).
  rewrite E1. cbn [bind].
  set (p1 := if String.eqb (text current_input s0) (Py.format_1f (current_units (f p)))
             then f p
             else live_record (f p)
                    (set_text current_input (Py.format_1f (current_units (f p))) s0)) in *.
  assert (R1 : is_running p1 = false).
  { unfold p1.
    destruct (String.eqb (text current_input s0) (Py.format_1f (current_units (f p))));
      reflexivity. }
  assert (Sel1 : selected cur p1 s1)
    by (apply (rewritten_selected _ _ _ _ W1); [exact C | exact N]).
  unfold lookup at 1. rewrite (proj2 (proj2 Sel1)).
  destruct (setText_rewrites n cur p1 total_input (Py.format_1f (total_units p1)) s1 Sel1 R1)
    as (s2 & E2 & W2).
  rewrite E2. cbn [bind].
  set (p2 := if String.eqb (text total_input s1) (Py.format_1f (total_units p1)) then p1
             else live_record p1 (set_text total_input (Py.format_1f (total_units p1)) s1))
    in *.
  assert (R2 : is_running p2 = false).
  { unfold p2.
    destruct (String.eqb (text total_input s1) (Py.format_1f (total_units p1))); exact R1. }
  assert (Sel2 : selected cur p2 s2).
  { apply (rewritten_selected _ _ _ _ W2); [|exact N]. apply Sel1. }
  unfold lookup at 1. rewrite (proj2 (proj2 Sel2)).
  assert (D2 : description p2 = "").
  { unfold p2, p1.
    destruct (String.eqb (text total_input s1) _), (String.eqb (text current_input s0) _);
      reflexivity. }
  destruct (description_setText_rewrites (S n) cur p2 s2 Sel2) as (s3 & E3 & W3).
  rewrite E3. cbn [bind].
  rewrite D2 in W3. change (toPlainText "" s2) with "" in W3.
  replace (with_description "" p2) with p2 in W3
    by (rewrite <- D2; symmetry; apply with_description_same).
  assert (Sel3 : selected cur p2 s3).
  { apply (rewritten_selected _ _ _ _ W3); [|exact N]. apply Sel2. }
  destruct (display_rewrites n cur p2 (set_start_timer_button "Start Timer" s3) Sel3 R2)
    as (s4 & E4 & W4).
  rewrite E4. exists s4. eexists. split; [reflexivity|].
  destruct W0 as (B0 & G0 & O0), W1 as (B1 & G1 & O1), W2 as (B2 & G2 & O2),
           W3 as (B3 & G3 & O3), W4 as (B4 & G4 & O4).
  fields B0. fields B1. fields B2. fields B3. fields B4.
  change (Py.format_1f (current_units (f p))) with "0.0" in *.
  change (text current_input s0) with (current_value_input s) in *.
  assert (T1 : total_units p1 = total).
  { unfold p1, total. destruct (String.eqb (current_value_input s) "0.0"); reflexivity. }
  assert (A1 : p1 = edit (total_units p1) (current_units p1) (f p)).
  { unfold p1. destruct (String.eqb (current_value_input s) "0.0"); reflexivity. }
  assert (A2 : p2 = edit (total_units p2) (current_units p2) (f p)).
  { unfold p2. destruct (String.eqb (text total_input s1) (Py.format_1f (total_units p1)));
      [exact A1 | rewrite A1 at 1; reflexivity]. }
  assert (TT : total_value_input s3 = Py.format_1f total) by congruence.
  assert (CT : current_value_input s3 = "0.0") by congruence.
  assert (T2 : _get_safe_value (Py.format_1f total) (total_units p2)
               = _get_safe_value (Py.format_1f total) total).
  { unfold p2. destruct (String.eqb (text total_input s1) (Py.format_1f (total_units p1)));
      [rewrite T1; reflexivity|].
    cbn. rewrite T1. apply safe_value_twice. }
  assert (C2 : _get_safe_value "0.0" (current_units p2) == 0).
  { unfold _get_safe_value. vm_compute. reflexivity. }
  split; [exact G4|].
  rewrite A2 at 1 2 3. rewrite !live_record_edit.
  cbn [total_value_input current_value_input set_start_timer_button].
  rewrite TT, CT.
  split; [reflexivity|]. split; [exact C2|]. split; [exact T2|].
  split.
  { intros k K. rewrite (O4 k K). cbn. rewrite (O3 k K). cbn. rewrite (O2 k K).
    cbn. rewrite (O1 k K). cbn. rewrite <- (O0 k K). reflexivity. }
  repeat split; congruence.
Qed.

Lemma reset_returns_the_total_to_100_only_from_a_current_of_zero_witness :
  let p := running_project (2000 # 10) (500 # 10) in
  let s := app_showing p "200.0" "50.0" 10 in
  exists s' p',
    run 3 ResetSelectedProject s = Returns s' /\
    dict_get "p1" (projects s') = Some p' /\
    timer_fields p' = ("p1", "Demo", None, false, 0, "") /\
    current_units p' == 0 /\
    total_units p' = 2000 # 10 /\
    (forall k, k <> "p1" -> dict_get k (projects s') = dict_get k (projects s)) /\
    current_value_input s' = "0.0" /\
    total_value_input s' = "200.0" /\
    project_description_input s' = "" /\
    start_timer_button s' = "Start Timer" /\
    dialogs s' = [].
Proof.
  intros p s.
  apply (reset_returns_the_total_to_100_only_from_a_current_of_zero 0 "p1" p s).
  repeat split. discriminate.
Defined.

(** ** Startup *)

Lemma load_loop_step (p : Project) (rest : list json) (s : App) :
  load_loop (asdict p :: rest) s
  = load_loop rest
      (set_list_items (list_items s ++ [(name p, id p)])
         (set_projects (dict_set (id p) p (projects s))
            (set_uuid_count (S (uuid_count s)) s))).
Proof.
  pose proof (project_of_json_asdict (uuids s (uuid_count s)) p) as A.
  unfold asdict in *. cbn [load_loop]. rewrite A. reflexivity.
Qed.

Lemma load_loop_saved_list (d : dict) (s : App) :
  well_keyed (projects s ++ d)%list ->
  load_loop (map asdict (dict_values d)) s
  = Loaded (set_uuid_count (uuid_count s + List.length d)
              (set_list_items (list_items s ++ map item_of d)%list
                 (set_projects (projects s ++ d)%list s))).
Proof.
  unfold dict_values. revert s. induction d as [|[k p] d IH]; intros s [ND KEY].
  - cbn [map load_loop List.length]. rewrite !app_nil_r, Nat.add_0_r.
    destruct s; reflexivity.
  - cbn [map snd]. rewrite load_loop_step.
    assert (Hk : k = id p).
    { rewrite Forall_forall in KEY. apply (KEY (k, p)), in_or_app. right. left. reflexivity. }
    assert (Fr : ~ In (id p) (map fst (projects s))).
    { rewrite map_app in ND. simpl in ND. apply NoDup_remove_2 in ND.
      rewrite <- Hk. intro I. apply ND, in_or_app. left. exact I. }
    rewrite (dict_set_fresh _ _ _ Fr), <- Hk. rewrite IH.
    + cbn [projects list_items uuid_count set_list_items set_projects set_uuid_count
           List.length].
      rewrite <- !app_assoc, Nat.add_succ_r. unfold item_of at 2. cbn [snd map app].
      rewrite <- Hk. destruct s; reflexivity.
    + cbn [projects set_list_items set_projects]. rewrite <- app_assoc.
      split; [exact ND | exact KEY].
Qed.

(** X14: loading a saved store at startup fills the list widget with one
    item per project, in the order of the store, its name as text and its
    id as data; no project is selected yet and the other widgets keep
    their initial values. *)
Theorem loading_a_saved_store_fills_the_list (s : App) (before : file)
  (now : Q) (supply : nat -> string) (plain : string -> string) :
  well_keyed (projects s) ->
  load_projects (fst (save_projects None before s)) (init_ui now supply plain)
  = Some (set_uuid_count (List.length (projects s))
            (set_list_items (map item_of (projects s))
               (set_projects (projects s) (init_ui now supply plain)))).
Proof.
  intro W. cbn [save_projects fst load_projects load_raw].
  rewrite (load_loop_saved_list (projects s) (init_ui now supply plain) W). reflexivity.
Qed.

Lemma loading_a_saved_store_fills_the_list_witness :
  load_projects
    (fst (save_projects None NoFile
            (set_projects two_projects (init_ui 0 (fun _ => "u") (fun t => t)))))
    (init_ui 5 (fun _ => "v") (fun t => t))
  = Some (mkApp two_projects None [("Thesis", "a"); ("Garden", "b")] None "" ""
            "100.0" "0.0" 0 "0.0%" "ETC: --:--:--" "Start Timer" [] 5 (fun _ => "v") 2
            (fun t => t)).
Proof.
  apply (loading_a_saved_store_fills_the_list
           (set_projects two_projects (init_ui 0 (fun _ => "u") (fun t => t)))
           NoFile 5 (fun _ => "v") (fun t => t)).
  split.
  - simpl. repeat constructor; simpl; intuition discriminate.
  - repeat constructor.
Defined.

(** X15: the first start, without a data file: the application comes up
    with one stopped project, New Project 1, stored under the first id
    of the supply, listed, selected and shown with total 100 and
    current 0; no dialog is shown. *)
Theorem first_start_creates_one_project
  (n : nat) (now : Q) (supply : nat -> string) (plain : string -> string) :
  supply 0%nat <> "" ->
  exists s' p',
    startup (S (S (S (S n)))) NoFile now supply plain = Some (Returns s') /\
    current_project_id s' = Some (supply 0%nat) /\
    dict_get (supply 0%nat) (projects s') = Some p' /\
    (forall k, k <> supply 0%nat -> dict_get k (projects s') = None) /\
    timer_fields p' = (supply 0%nat, "New Project 1", None, false, 0, "") /\
    total_units p' == 100 /\ current_units p' == 0 /\
    list_items s' = [("New Project 1", supply 0%nat)] /\
    project_name_input s' = "New Project 1" /\
    total_value_input s' = "100.0" /\ current_value_input s' = "0.0" /\
    start_timer_button s' = "Start Timer" /\
    dialogs s' = [].
Proof.
  intro N. unfold startup. cbn [load_projects init_ui projects].
  destruct (add_new_project_rewrites n (init_ui now supply plain) N eq_refl eq_refl)
    as (s' & E & D & G & O).
  fold (init_ui now supply plain). rewrite E. fields D.
  exists s'. eexists. split; [reflexivity|].
  split; [assumption|]. split; [exact G|]. split; [exact O|].
  split; [reflexivity|]. split; [vm_compute; reflexivity|]. split; [vm_compute; reflexivity|].
  repeat split; assumption.
Qed.

Lemma first_start_creates_one_project_witness :
  exists s' p',
    startup 4 NoFile 0 (fun _ => "u") (fun t => t) = Some (Returns s') /\
    current_project_id s' = Some "u" /\
    dict_get "u" (projects s') = Some p' /\
    (forall k, k <> "u" -> dict_get k (projects s') = None) /\
    timer_fields p' = ("u", "New Project 1", None, false, 0, "") /\
    total_units p' == 100 /\ current_units p' == 0 /\
    list_items s' = [("New Project 1", "u")] /\
    project_name_input s' = "New Project 1" /\
    total_value_input s' = "100.0" /\ current_value_input s' = "0.0" /\
    start_timer_button s' = "Start Timer" /\
    dialogs s' = [].
Proof.
  apply (first_start_creates_one_project 0 0 (fun _ => "u") (fun t => t)). discriminate.
Defined.

(** X16: a restart loses the progress of the first project.  After a
    save and a start from the saved file the first project is selected;
    if it is stopped and its total does not read 100.0, the initial text
    of the current field, 0.0, is stored as its current.  Its total comes
    back as what its text of one decimal reads and its description as
    what the text edit reads back of it; its id, name and timer fields,
    the other projects and their order in the list are restored. *)
Theorem restart_resets_the_current_of_the_first_project
  (n : nat) (s : App) (before : file) (now : Q) (supply : nat -> string)
  (plain : string -> string)
  (k : string) (p : Project) (others : dict) :
  well_keyed (projects s) ->
  projects s = (k, p) :: others ->
  k <> "" ->
  is_running p = false ->
  Py.format_1f (total_units p) <> "100.0" ->
  exists s' p',
    startup (S (S (S n))) (fst (save_projects None before s)) now supply plain
    = Some (Returns s') /\
    current_project_id s' = Some k /\
    dict_get k (projects s') = Some p' /\
    current_units p' == 0 /\
    total_units p' = _get_safe_value (Py.format_1f (total_units p)) (total_units p) /\
    description p' = toPlainText (description p) (init_ui now supply plain) /\
    (id p', name p', start_time p', is_running p', elapsed_at_pause p')
    = (id p, name p, start_time p, is_running p, elapsed_at_pause p) /\
    (forall k', k' <> k -> dict_get k' (projects s') = dict_get k' (projects s)) /\
    list_items s' = map item_of (projects s) /\
    total_value_input s' = Py.format_1f (total_units p) /\
    current_value_input s' = "0.0" /\
    dialogs s' = [].
Proof.
  intros W P N R T. unfold startup.
  cbn [save_projects fst load_projects load_raw].
  rewrite (load_loop_saved_list (projects s) (init_ui now supply plain) W).
  cbn [projects init_ui set_uuid_count set_list_items set_projects list_items app].
  assert (Hk : k = id p).
  { destruct W as [_ KEY]. rewrite P in KEY. inversion KEY. assumption. }
  rewrite P in *. cbn [map].
  set (s0 := set_current_row (Some 0%nat) _).
  assert (G0 : dict_get k (projects s0) = Some p).
  { unfold s0. cbn. rewrite String.eqb_refl. reflexivity. }
  pose proof (select_rewrites n 0 (name p) k p s0) as H.
  cbv zeta in H.
  change (total_value_input s0) with "100.0" in H.
  change (current_value_input s0) with "0.0" in H.
  apply String.eqb_neq in T. rewrite String.eqb_sym in T. rewrite T in H.
  cbv iota in H.
  destruct H as (s' & E & (D & G' & O) & L); try assumption.
  - unfold s0. cbn. rewrite Hk. reflexivity.
  - reflexivity.
  - rewrite E. fields D. exists s'. eexists. split; [reflexivity|].
    split; [assumption|]. split; [exact G'|].
    split; [vm_compute; reflexivity|].
    split; [reflexivity|]. split; [reflexivity|]. split; [reflexivity|].
    split; [intros k' K; rewrite (O k' K); reflexivity|].
    split.
    { change (list_items s0) with (map item_of ((k, p) :: others)) in L.
      change (current_row s0) with (Some 0%nat) in L.
      destruct L as [L|(r & Rw & L)]; [exact L|].
      injection Rw as <-. rewrite L. cbn. rewrite Hk. reflexivity. }
    split; [assumption|]. split; [|assumption].
    match goal with H : current_value_input s' = _ |- _ => rewrite H end.
    vm_compute. reflexivity.
Qed.

Lemma restart_resets_the_current_of_the_first_project_witness :
  let p := mkProject "p1" "Demo" (3333 # 100) (500 # 10) None false 12 "notes" in
  let s := set_projects [("p1", p)] (init_ui 0 (fun _ => "u") (fun t => t)) in
  exists s' p',
    startup 3 (fst (save_projects None NoFile s)) 5 (fun _ => "v") (fun t => t)
    = Some (Returns s') /\
    current_project_id s' = Some "p1" /\
    dict_get "p1" (projects s') = Some p' /\
    current_units p' == 0 /\
    total_units p' = 333 # 10 /\
    description p' = "notes" /\
    (id p', name p', start_time p', is_running p', elapsed_at_pause p')
    = ("p1", "Demo", None, false, 12) /\
    (forall k', k' <> "p1" -> dict_get k' (projects s') = dict_get k' (projects s)) /\
    list_items s' = [("Demo", "p1")] /\
    total_value_input s' = "33.3" /\
    current_value_input s' = "0.0" /\
    dialogs s' = [].
Proof.
  intros p s.
  apply (restart_resets_the_current_of_the_first_project 0 s NoFile 5 (fun _ => "v")
           (fun t => t) "p1" p []).
  - split; [repeat constructor; simpl; tauto | repeat constructor].
  - reflexivity.
  - discriminate.
  - reflexivity.
  - discriminate.
Defined.

(** ** Lookups that cannot fail *)

Lemma keys_kept_refl (s : App) : keys_kept s s.
Proof. intros k H. exact H. Qed.

Lemma keys_kept_trans (s1 s2 s3 : App) :
  keys_kept s1 s2 -> keys_kept s2 s3 -> keys_kept s1 s3.
Proof. intros A B k H. apply B, A, H. Qed.

Lemma keys_kept_eq (s s' : App) : keys s' = keys s -> keys_kept s s'.
Proof. intros E k H. rewrite E. exact H. Qed.

Lemma keys_update_project (k : string) (f : Project -> Project) (s : App) :
  keys (update_project k f s) = keys s.
Proof. apply dict_update_same_keys. Qed.

Lemma keys_show_etc (p : Project) (t : string) (s : App) : keys (show_etc p t s) = keys s.
Proof. unfold keys. rewrite projects_show_etc. reflexivity. Qed.

Lemma keys_show_button (k t : string) (s : App) : keys (show_button k t s) = keys s.
Proof. unfold keys. rewrite projects_show_button. reflexivity. Qed.

Lemma keys_progress_bar (v : Z) (s : App) : keys (progress_bar_setValue v s) = keys s.
Proof. unfold keys. rewrite projects_progress_bar_setValue. reflexivity. Qed.

Lemma keys_set_text (w : line_edit) (t : string) (s : App) : keys (set_text w t s) = keys s.
Proof. destruct w; reflexivity. Qed.

Lemma in_keys_get (k : string) (s : App) :
  In k (keys s) -> exists p, dict_get k (projects s) = Some p.
Proof. apply dict_get_key. Qed.

Lemma get_in_keys (k : string) (p : Project) (s : App) :
  dict_get k (projects s) = Some p -> In k (keys s).
Proof.
  unfold keys. induction (projects s) as [|[k0 v] d IH]; simpl; [discriminate|].
  destruct (String.eqb k0 k) eqn:E; [left; apply String.eqb_eq, E | right; auto].
Qed.

Lemma get_timer_ok (k : string) (p : Project) (s : App) :
  store_ok s -> dict_get k (projects s) = Some p -> timer_ok p.
Proof.
  unfold store_ok, dict_ok. induction (projects s) as [|[k0 v] d IH]; simpl; [discriminate|].
  intros H G. inversion H as [|? ? H0 H1]; subst.
  destruct (String.eqb k0 k); [injection G as <-; exact H0 | auto].
Qed.

Lemma consistent_widgets (s s' : App) :
  projects s' = projects s -> list_items s' = list_items s ->
  current_project_id s' = current_project_id s ->
  consistent s -> consistent s'.
Proof.
  intros P L C (A & B & D). split; [|split].
  - unfold store_ok. rewrite P. exact A.
  - apply (shape_ok_widgets s); assumption.
  - unfold selection_ok, keys. rewrite P, C. exact D.
Qed.

Lemma consistent_update_keep (k : string) (f : Project -> Project) (s : App) :
  (forall p, timer_ok p -> timer_ok (f p)) -> (forall p, id (f p) = id p) ->
  consistent s -> consistent (update_project k f s).
Proof.
  intros T I (A & B & D). split; [|split].
  - apply store_ok_update_keep; assumption.
  - apply shape_ok_update; assumption.
  - intros k0 C Tr. rewrite keys_update_project. exact (D k0 C Tr).
Qed.

Lemma consistent_update_set (k : string) (f : Project -> Project) (s : App) :
  (forall p, timer_ok (f p)) -> (forall p, id (f p) = id p) ->
  consistent s -> consistent (update_project k f s).
Proof. intros T. apply consistent_update_keep. intros p _. apply T. Qed.

Lemma consistent_show_etc (p : Project) (t : string) (s : App) :
  consistent s -> consistent (show_etc p t s).
Proof.
  unfold show_etc. destruct (is_current _ _); [|auto].
  apply consistent_widgets; reflexivity.
Qed.

Lemma consistent_show_button (k t : string) (s : App) :
  consistent s -> consistent (show_button k t s).
Proof.
  unfold show_button. destruct (is_current _ _); [|auto].
  apply consistent_widgets; reflexivity.
Qed.

Lemma consistent_progress_bar (v : Z) (s : App) :
  consistent s -> consistent (progress_bar_setValue v s).
Proof.
  unfold progress_bar_setValue. destruct (_ || _)%bool; [auto|].
  apply consistent_widgets; reflexivity.
Qed.

Lemma consistent_set_text (w : line_edit) (t : string) (s : App) :
  consistent s -> consistent (set_text w t s).
Proof. destruct w; apply consistent_widgets; reflexivity. Qed.

Lemma consistent_item_setText (row : nat) (t : string) (s : App) :
  consistent s -> consistent (set_list_items (item_setText row t (list_items s)) s).
Proof.
  intros (A & B & D). split; [exact A | split; [|exact D]].
  apply shape_ok_item_setText, B.
Qed.

Lemma consistent_select (k : string) (s : App) :
  In k (keys s) -> consistent s -> consistent (set_current_project_id (Some k) s).
Proof.
  intros K (A & B & D). split; [exact A | split].
  - apply (shape_ok_widgets s); [reflexivity | reflexivity | exact B].
  - intros k0 C _. cbn in C. injection C as <-. exact K.
Qed.

Lemma consistent_deselect (s : App) :
  consistent s -> consistent (set_current_project_id None s).
Proof.
  intros (A & B & D). split; [exact A | split].
  - apply (shape_ok_widgets s); [reflexivity | reflexivity | exact B].
  - intros k0 C. discriminate.
Qed.

Lemma consistent_new_project (v : Project) (s : App) :
  timer_ok v -> consistent s ->
  consistent (set_list_items (list_items s ++ [(name v, id v)])
                (set_projects (dict_set (id v) v (projects s)) s)).
Proof.
  intros T (A & B & D). split; [|split].
  - apply dict_ok_set; assumption.
  - apply shape_ok_new_project, B.
  - intros k C Tr. unfold keys. cbn. apply dict_set_in_keys. left. exact (D k C Tr).
Qed.

Lemma selected_in_keys (cur : string) (s : App) :
  consistent s -> current_project_id s = Some cur -> truthy (Some cur) = true ->
  In cur (keys s).
Proof. intros (_ & _ & D). apply D. Qed.

Lemma projects_set_text (w : line_edit) (t : string) (s : App) :
  projects (set_text w t s) = projects s.
Proof. destruct w; reflexivity. Qed.

Ltac store_simpl :=
  repeat first
    [ rewrite projects_show_etc | rewrite projects_show_button
    | rewrite projects_progress_bar_setValue | rewrite projects_set_text
    | rewrite dict_update_same_keys
    | match goal with
      | |- context [projects (match ?x with _ => _ end)] => destruct x
      end
    | progress cbn [projects update_project message_box
                    set_projects set_current_project_id set_list_items set_current_row
                    set_project_name_input set_project_description_input
                    set_total_value_input set_current_value_input set_progress_bar
                    set_percentage_label set_etc_label set_start_timer_button
                    set_dialogs set_clock set_uuids set_uuid_count] ].

Ltac keys_tac :=
  cbn [callable]; unfold keys_kept, keys in *; store_simpl; eauto 10.

Section Sound.

Variable self : call -> App -> outcome.
Hypothesis self_sound : forall c s, consistent s -> callable c s -> sound s (self c s).

Lemma sound_bind (s0 : App) (o : outcome) (k : App -> outcome) :
  sound s0 o ->
  (forall s1, consistent s1 -> keys_kept s0 s1 -> sound s0 (k s1)) ->
  sound s0 (bind o k).
Proof.
  destruct o as [s1| |]; cbn [bind sound]; [|tauto|tauto].
  intros [C K] H. exact (H s1 C K).
Qed.

Lemma sound_from (s s1 : App) (o : outcome) :
  keys_kept s s1 -> sound s1 o -> sound s o.
Proof.
  intros K. destruct o; cbn [sound]; [|tauto|tauto].
  intros [C K1]. split; [exact C|]. eapply keys_kept_trans; eassumption.
Qed.

Lemma sound_call (s s1 : App) (c : call) :
  keys_kept s s1 -> consistent s1 -> callable c s1 -> sound s (self c s1).
Proof. intros K C P. apply (sound_from s s1); [exact K|]. apply self_sound; assumption. Qed.

Lemma sound_lookup (k : string) (s0 s : App) (cont : Project -> outcome) :
  In k (keys s) ->
  (forall p, dict_get k (projects s) = Some p -> sound s0 (cont p)) ->
  sound s0 (lookup k s cont).
Proof.
  intros K H. unfold lookup. destruct (in_keys_get k s K) as [p G]. rewrite G. apply H, G.
Qed.

Lemma setText_sound (s0 s : App) (w : line_edit) (t : string) :
  keys_kept s0 s -> consistent s -> sound s0 (setText self w t s).
Proof.
  intros K C. unfold setText. destruct (String.eqb _ _); [split; assumption|].
  apply sound_call; [keys_tac | apply consistent_set_text, C | exact I].
Qed.

Lemma name_setText_sound (s0 s : App) (t : string) :
  keys_kept s0 s -> consistent s -> sound s0 (name_setText self t s).
Proof.
  intros K C. unfold name_setText. destruct (String.eqb _ _); [split; assumption|].
  apply sound_call; [keys_tac | | exact I].
  apply (consistent_widgets s); [reflexivity | reflexivity | reflexivity | exact C].
Qed.

Lemma description_setText_sound (s0 s : App) (t : string) :
  keys_kept s0 s -> consistent s -> sound s0 (description_setText self t s).
Proof.
  intros K C. unfold description_setText.
  apply sound_call; [keys_tac | | exact I].
  apply (consistent_widgets s); [reflexivity | reflexivity | reflexivity | exact C].
Qed.

Ltac cons_step :=
  match goal with
  | |- consistent (show_etc _ _ _) => apply consistent_show_etc
  | |- consistent (show_button _ _ _) => apply consistent_show_button
  | |- consistent (progress_bar_setValue _ _) => apply consistent_progress_bar
  | |- consistent (set_text _ _ _) => apply consistent_set_text
  | |- consistent (update_project _ _ (update_project _ _ _)) => rewrite update_project_fuse
  | |- consistent (update_project _ (setattr ?a _) _) =>
      apply consistent_update_keep;
        [destruct a; intros ? Hkeep; exact Hkeep | destruct a; reflexivity |]
  | |- consistent (update_project _ _ _) =>
      first [ apply consistent_update_set; [intro; reflexivity | intro; reflexivity |]
            | apply consistent_update_keep;
                [intros ? Hkeep; exact Hkeep | intro; reflexivity |] ]
  | |- consistent (set_list_items (item_setText _ _ _) _) => apply consistent_item_setText
  | |- consistent (set_current_project_id None _) => apply consistent_deselect
  | |- consistent (match ?x with _ => _ end) => destruct x
  | |- consistent (?f ?a ?b ?c ?s) =>
      apply (consistent_widgets s); [reflexivity | reflexivity | reflexivity |]
  | |- consistent (?f ?v ?s) =>
      apply (consistent_widgets s); [reflexivity | reflexivity | reflexivity |]
  end.

Ltac cons_tac := repeat first [assumption | cons_step].

Ltac sound_step :=
  match goal with
  | |- sound _ (Returns _) => split; [cons_tac | keys_tac]
  | |- sound _ OutOfFuel => exact I
  | |- sound _ (bind _ _) => apply sound_bind; [|intros ? ? ?]
  | |- sound _ (self _ _) => apply sound_call; [keys_tac | cons_tac | first [exact I | keys_tac]]
  | |- sound _ (setText _ _ _ _) => apply setText_sound; [keys_tac | cons_tac]
  | |- sound _ (name_setText _ _ _) => apply name_setText_sound; [keys_tac | cons_tac]
  | |- sound _ (description_setText _ _ _) =>
      apply description_setText_sound; [keys_tac | cons_tac]
  | |- sound _ (lookup _ _ _) => apply sound_lookup; [try keys_tac | intros ? ?]
  | |- sound _ (match ?x with _ => _ end) => destruct x eqn:?
  end.

Ltac sound_tac := repeat sound_step.

Lemma on_project_name_changed_sound (s : App) :
  consistent s -> sound s (_on_project_name_changed s).
Proof.
  intro C. unfold _on_project_name_changed.
  destruct (current_project_id s) as [cur|] eqn:Cur; [|sound_tac].
  destruct (truthy (Some cur)) eqn:Tr; [|sound_tac].
  pose proof (selected_in_keys cur s C Cur Tr) as K.
  sound_tac.
Qed.

Lemma on_project_description_changed_sound (s : App) :
  consistent s -> sound s (_on_project_description_changed s).
Proof.
  intro C. unfold _on_project_description_changed.
  destruct (current_project_id s) as [cur|] eqn:Cur; [|sound_tac].
  destruct (truthy (Some cur)) eqn:Tr; [|sound_tac].
  pose proof (selected_in_keys cur s C Cur Tr) as K.
  sound_tac.
Qed.

Lemma update_etc_for_project_sound (key : string) (s : App) :
  consistent s -> In key (keys s) -> sound s (update_etc_for_project self key s).
Proof.
  intros C K. unfold update_etc_for_project.
  apply sound_lookup; [exact K|]. intros project G.
  pose proof (get_timer_ok key project s (proj1 C) G) as T. unfold timer_ok in T.
  destruct (negb (is_running project)) eqn:R; [sound_tac|].
  destruct (start_time project) as [started|];
    [|rewrite T in R; discriminate].
  sound_tac.
Qed.

Lemma for_each_project_sound (ks : list string) (s : App) :
  consistent s -> (forall k, In k ks -> In k (keys s)) ->
  sound s (for_each_project self ks s).
Proof.
  revert s. induction ks as [|k ks IH]; intros s C H; cbn [for_each_project].
  - split; [exact C | apply keys_kept_refl].
  - apply sound_bind.
    + apply self_sound; [exact C | apply H; left; reflexivity].
    + intros s1 C1 K1. apply (sound_from s s1); [exact K1|].
      apply IH; [exact C1|]. intros k' I'. apply K1, H. right. exact I'.
Qed.

Lemma update_display_from_inputs_sound (s : App) :
  consistent s -> sound s (_update_display_from_inputs self s).
Proof.
  intro C. unfold _update_display_from_inputs.
  destruct (current_project_id s) as [cur|] eqn:Cur; [|sound_tac].
  destruct (truthy (Some cur)) eqn:Tr; [|sound_tac].
  pose proof (selected_in_keys cur s C Cur Tr) as K.
  sound_tac.
Qed.

Lemma validate_sound (s0 s : App) (project : Project) (a : attr) (field_name : string)
  (is_total : bool) (value : Q) :
  keys_kept s0 s -> consistent s ->
  sound s0 (snd (validate self project a field_name is_total value s)).
Proof.
  intros K C. unfold validate.
  repeat match goal with
    | |- context [if ?b then _ else _] => destruct b
    end; cbn [snd]; sound_tac.
Qed.

Lemma finalize_input_editing_sound (w : line_edit) (a : attr) (field_name : string)
  (is_total : bool) (s : App) :
  consistent s -> sound s (_finalize_input_editing self w a field_name is_total s).
Proof.
  intro C. unfold _finalize_input_editing.
  destruct (current_project_id s) as [cur|] eqn:Cur; [|sound_tac].
  destruct (truthy (Some cur)) eqn:Tr; [|sound_tac].
  pose proof (selected_in_keys cur s C Cur Tr) as K.
  apply sound_lookup; [exact K|]. intros project G.
  apply sound_bind; [|intros; sound_tac].
  destruct (Py.float (text w s)) as [value|].
  - pose proof (validate_sound s s project a field_name is_total value
                  (keys_kept_refl s) C) as V.
    destruct (validate self project a field_name is_total value s) as [value' validated].
    cbn [snd] in V. apply sound_bind; [exact V|].
    intros s1 C1 K1. sound_tac.
  - destruct (negb _); sound_tac.
Qed.

Lemma toggle_timer_sound (project_id : option string) (s : App) :
  consistent s -> sound s (toggle_timer self project_id s).
Proof.
  intro C. unfold toggle_timer.
  destruct (match project_id with None => current_project_id s | Some k => Some k end)
    as [pid|]; [|sound_tac].
  destruct (negb (truthy (Some pid))); cbn [orb]; [sound_tac|].
  unfold dict_mem. destruct (dict_get pid (projects s)) as [p0|] eqn:G0; cbn [negb];
    [|sound_tac].
  pose proof (get_in_keys _ _ _ G0) as K.
  apply sound_bind.
  - destruct (is_current pid s); [|sound_tac]. sound_tac.
  - intros s1 C1 K1. apply sound_lookup; [apply K1, K|]. intros project G.
    destruct (negb (is_running project)); sound_tac.
Qed.

Lemma reset_selected_project_sound (s : App) :
  consistent s -> sound s (reset_selected_project self s).
Proof.
  intro C. unfold reset_selected_project.
  destruct (current_project_id s) as [cur|] eqn:Cur; [|sound_tac].
  destruct (truthy (Some cur)) eqn:Tr; [|sound_tac].
  pose proof (selected_in_keys cur s C Cur Tr) as K.
  sound_tac.
Qed.

Lemma select_project_from_list_sound (item : option nat) (s : App) :
  consistent s -> sound s (select_project_from_list self item s).
Proof.
  intro C. unfold select_project_from_list.
  destruct item as [row|]; [|sound_tac].
  destruct (nth_error (list_items s) row) as [[label project_id]|] eqn:Item; [|sound_tac].
  destruct (is_current project_id s); [sound_tac|].
  assert (K : In project_id (keys s)).
  { destruct C as (_ & (_ & I) & _). apply (I label). eapply nth_error_In, Item. }
  assert (C1 : consistent (set_current_project_id (Some project_id) s))
    by (apply consistent_select; assumption).
  sound_tac.
Qed.

Lemma add_new_project_sound (s : App) :
  consistent s -> sound s (add_new_project self s).
Proof.
  intro C. unfold add_new_project. apply sound_call; [| |exact I].
  - intros k K. unfold keys. cbn. apply dict_set_in_keys. left. exact K.
  - match goal with
    | |- consistent (set_current_row _ ?t) =>
        apply (consistent_widgets t); [reflexivity | reflexivity | reflexivity |]
    end.
    apply (consistent_new_project
             (new_Project (uuids s (uuid_count s))
                ("New Project " ++ Py.str_N (Z.of_nat (List.length (projects s)) + 1)))
             (set_uuid_count (S (uuid_count s)) s)); [reflexivity|].
    apply (consistent_widgets s); [reflexivity | reflexivity | reflexivity | exact C].
Qed.

Lemma handler_sound (c : call) (s : App) :
  consistent s -> callable c s -> sound s (handler self c s).
Proof.
  intros C P. destruct c; cbn [handler].
  - apply on_project_name_changed_sound, C.
  - apply on_project_description_changed_sound, C.
  - apply finalize_input_editing_sound, C.
  - apply update_display_from_inputs_sound, C.
  - apply update_etc_for_project_sound; assumption.
  - apply for_each_project_sound; [exact C | auto].
  - apply toggle_timer_sound, C.
  - destruct checked; unfold toggle_timer_clicked; cbn [negb orb]; sound_tac.
  - apply reset_selected_project_sound, C.
  - apply add_new_project_sound, C.
  - apply select_project_from_list_sound, C.
Qed.

End Sound.

Lemma run_sound (fuel : nat) (c : call) (s : App) :
  consistent s -> callable c s -> sound s (run fuel c s).
Proof.
  revert c s. induction fuel as [|n IH]; intros c s C P; [exact I|].
  rewrite run_S. apply handler_sound; assumption.
Qed.

Lemma load_loop_consistent (items : list json) (s : App) :
  Forall record_ok items -> consistent s ->
  match load_loop items s with
  | Loaded s' => consistent s'
  | _ => True
  end.
Proof.
  intros F. revert s. induction F as [|j items R F IH]; intros s C; simpl; [exact C|].
  destruct j; try exact I.
  destruct (project_of_json _ fields) as [project|] eqn:E; [|exact I].
  apply IH.
  apply (consistent_new_project project (set_uuid_count (S (uuid_count s)) s)).
  - exact (R _ _ E).
  - apply (consistent_widgets s); [reflexivity | reflexivity | reflexivity | exact C].
Qed.

(** X17: on a consistent application - every project running exactly
    when it has a start time, the store keyed by the ids, the list items
    and the selection naming stored projects - no lookup of a project
    fails and no start time is missing where it is subtracted: a
    handler raises neither KeyError nor TypeError, and when it returns
    the application is consistent again and still has every project id.
    The application is consistent after [init_ui] and after a load,
    without error, of a file whose records are running exactly when they
    have a start time. *)
Theorem consistent_application_raises_no_KeyError_or_TypeError :
  (forall now supply plain, consistent (init_ui now supply plain)) /\
  (forall items s s',
      Forall record_ok items -> consistent s ->
      load_raw (JArr items) s = Loaded s' -> consistent s') /\
  (forall fuel c s,
      consistent s -> callable c s ->
      run fuel c s <> Raises KeyError /\
      run fuel c s <> Raises TypeError /\
      (forall s', run fuel c s = Returns s' -> consistent s' /\ keys_kept s s')).
Proof.
  split; [|split].
  - intros. split; [constructor | split].
    + split; [split; constructor | intros label k []].
    + intros k C. discriminate.
  - intros items s s' F C L. cbn [load_raw] in L.
    pose proof (load_loop_consistent items s F C) as K.
    rewrite L in K. exact K.
  - intros fuel c s C P. pose proof (run_sound fuel c s C P) as H.
    destruct (run fuel c s) as [s1|e1|]; cbn [sound] in H.
    + split; [discriminate|]. split; [discriminate|].
      intros s' E. injection E as <-. exact H.
    + destruct H.
    + split; [discriminate|]. split; discriminate.
Qed.
